(** * Session orchestration of the computer-use FastAPI server

    A shallow embedding of [app/sessions/services.py], [app/sessions/schemas.py],
    [app/sessions/models.py] and [app/settings.py], and the properties of the
    message buffer, the run controller and the active-session registry.

    The Python code is sequential between two [await]s, and mutates a database
    session, a process-wide dictionary and a few list objects.  It is embedded
    in a state-and-exception monad over one [World]. *)

From Stdlib Require Import ZArith String List Bool Lia.
From stdpp Require Import base option list gmap strings.

Open Scope Z_scope.

(** ** Values *)

(** What is handed to [json.dumps] and [send_json]; Python dictionaries keep
    their insertion order, hence the association list. *)
#[local] Unset Elimination Schemes.
Inductive json :=
| JNull
| JBool (b : bool)
| JInt (z : Z)
| JStr (s : string)
| JList (l : list json)
| JDict (kv : list (string * json)).
#[local] Set Elimination Schemes.

Fixpoint assoc_get {V} (k : string) (kv : list (string * V)) : option V :=
  match kv with
  | [] => None
  | (k', v) :: kv' => if String.eqb k k' then Some v else assoc_get k kv'
  end.

(** [d[k] = v] on a dictionary: replaces in place, or appends a new key. *)
Fixpoint assoc_set {V} (k : string) (v : V) (kv : list (string * V)) : list (string * V) :=
  match kv with
  | [] => [(k, v)]
  | (k', v') :: kv' =>
      if String.eqb k k' then (k, v) :: kv' else (k', v') :: assoc_set k v kv'
  end.


(** [content.get(k, default)] *)
Definition dict_get (k : string) (dflt : json) (kv : list (string * json)) : json :=
  match assoc_get k kv with Some v => v | None => dflt end.

(** Truthiness of an [Optional[str]]: [None] and [""] are falsy. *)
Definition truthy_str (o : option string) : bool :=
  match o with
  | None => false
  | Some s => negb (String.eqb s "")
  end.

(** [a or b] on optional strings. *)
Definition or_str (a b : option string) : option string :=
  if truthy_str a then a else b.

(** [a or d] on an optional integer and an integer default. *)
Definition or_int (a : option Z) (d : Z) : Z :=
  match a with
  | Some z => if Z.eqb z 0 then d else z
  | None => d
  end.

Definition json_of_opt_str (o : option string) : json :=
  match o with Some s => JStr s | None => JNull end.

(** ** models.py *)

(** [class Session(DeclarativeBase)].  [created_at] is [None] until the row is
    inserted, when the column default [datetime.utcnow] fills it in. *)
Record SessionModel := mkSession {
  id : string;
  created_at : option nat;
  status : string;
  store_screenshots : bool;
  screenshot_scale : option Z;
  screenshot_quality : option Z;
}.

Definition with_status (s : SessionModel) (st : string) : SessionModel :=
  mkSession (id s) (created_at s) st (store_screenshots s)
            (screenshot_scale s) (screenshot_quality s).

Definition with_created_at (s : SessionModel) (t : nat) : SessionModel :=
  mkSession (id s) (Some t) (status s) (store_screenshots s)
            (screenshot_scale s) (screenshot_quality s).

(** One mapping handed to [bulk_insert_mappings(MessageModel, ...)]: the keys
    ["session_id"], ["content"] and ["created_at"].  [content] is the value
    given to [json.dumps]; the serialisation itself is left symbolic. *)
Record MessageRow := mkRow {
  row_session_id : string;
  row_content : json;
  row_created_at : nat;
}.

(** ** settings.py *)

Record Settings := mkSettings {
  anthropic_api_key : option string;
  message_batch_size : Z;
}.

(** The defaults of [class Settings]. *)
Definition default_settings : Settings := mkSettings None 10.

(** ** The database session

    [db_sessions] and [db_messages] are the committed tables.  Attribute writes
    on loaded [Session] objects and bulk-inserted rows stay in the open
    transaction ([db_txn_sessions], [db_txn_rows]) until [db.commit()].
    [db_bulk_calls] logs every call of [bulk_insert_mappings], oldest first,
    and [db_commits] counts the commits. *)
Record Db := mkDb {
  db_sessions : gmap string SessionModel;
  db_messages : list MessageRow;
  db_txn_sessions : gmap string SessionModel;
  db_txn_rows : list MessageRow;
  db_bulk_calls : list (list MessageRow);
  db_commits : nat;
}.

(** ** Connections, registry, world *)

(** A frame given to [websocket.send_json]. *)
Record Frame := mkFrame {
  frame_type : json;
  frame_content : json;
  frame_timestamp : option nat;
}.

(** The handle [websocket: Optional[WebSocket]]; the state of the connection
    it denotes is [ws_sent] and [ws_closed] of the world. *)
Inductive WebSocket := ClientSocket.

(** A value of [active_sessions]: the task handle and a reference to the
    buffer list.  Every [db] of the code denotes the one database session of
    the world, so the ["db"] key carries no information. *)
Record Entry := mkEntry {
  entry_task : nat;
  entry_buffer : nat;
}.

Inductive exn :=
| CancelledError
| ValueError (msg : string)
| AttributeError (msg : string)
| IntegrityError (msg : string)
| InvalidRequestError (msg : string)
| ValidationError (msg : string)
| WebSocketDisconnect
| EngineError (msg : string).

(** [asyncio.CancelledError] derives from [BaseException]: [except Exception]
    lets it through. *)
Definition is_Exception (e : exn) : bool :=
  match e with CancelledError => false | _ => true end.

(** [str(e)] *)
Definition str_exn (e : exn) : string :=
  match e with
  | CancelledError => ""
  | ValueError m | AttributeError m | IntegrityError m | InvalidRequestError m
  | ValidationError m | EngineError m => m
  | WebSocketDisconnect => ""
  end.

Record World := mkWorld {
  db : Db;
  (** the module-level dictionary [active_sessions] *)
  active_sessions : gmap string Entry;
  (** Python list objects, by identity: a reference is an index *)
  heap : list (list MessageRow);
  (** frames delivered to the client, oldest first *)
  ws_sent : list Frame;
  (** the client has gone: [send_json] raises *)
  ws_closed : bool;
  (** successive readings of [datetime.utcnow()] *)
  now : nat;
  (** tasks created so far, and those on which [cancel()] was called *)
  tasks : nat;
  cancel_requested : list nat;
  (** what [uuid.uuid4()] returns at its n-th call, and the calls so far *)
  uuid_source : nat -> string;
  uuid_calls : nat;
  (** specification only: every row appended to a buffer list, in order *)
  append_trace : list MessageRow;
}.

Definition set_db (f : Db -> Db) (w : World) : World :=
  mkWorld (f (db w)) (active_sessions w) (heap w) (ws_sent w) (ws_closed w) (now w)
          (tasks w) (cancel_requested w) (uuid_source w) (uuid_calls w) (append_trace w).

Definition set_active_sessions (f : gmap string Entry -> gmap string Entry) (w : World) : World :=
  mkWorld (db w) (f (active_sessions w)) (heap w) (ws_sent w) (ws_closed w) (now w)
          (tasks w) (cancel_requested w) (uuid_source w) (uuid_calls w) (append_trace w).

Definition set_heap (f : list (list MessageRow) -> list (list MessageRow)) (w : World) : World :=
  mkWorld (db w) (active_sessions w) (f (heap w)) (ws_sent w) (ws_closed w) (now w)
          (tasks w) (cancel_requested w) (uuid_source w) (uuid_calls w) (append_trace w).

Definition set_ws_sent (f : list Frame -> list Frame) (w : World) : World :=
  mkWorld (db w) (active_sessions w) (heap w) (f (ws_sent w)) (ws_closed w) (now w)
          (tasks w) (cancel_requested w) (uuid_source w) (uuid_calls w) (append_trace w).

Definition set_ws_closed (b : bool) (w : World) : World :=
  mkWorld (db w) (active_sessions w) (heap w) (ws_sent w) b (now w)
          (tasks w) (cancel_requested w) (uuid_source w) (uuid_calls w) (append_trace w).

Definition set_now (n : nat) (w : World) : World :=
  mkWorld (db w) (active_sessions w) (heap w) (ws_sent w) (ws_closed w) n
          (tasks w) (cancel_requested w) (uuid_source w) (uuid_calls w) (append_trace w).

Definition set_tasks (n : nat) (w : World) : World :=
  mkWorld (db w) (active_sessions w) (heap w) (ws_sent w) (ws_closed w) (now w)
          n (cancel_requested w) (uuid_source w) (uuid_calls w) (append_trace w).

Definition set_cancel_requested (f : list nat -> list nat) (w : World) : World :=
  mkWorld (db w) (active_sessions w) (heap w) (ws_sent w) (ws_closed w) (now w)
          (tasks w) (f (cancel_requested w)) (uuid_source w) (uuid_calls w) (append_trace w).

Definition set_uuid_calls (n : nat) (w : World) : World :=
  mkWorld (db w) (active_sessions w) (heap w) (ws_sent w) (ws_closed w) (now w)
          (tasks w) (cancel_requested w) (uuid_source w) n (append_trace w).

Definition set_append_trace (f : list MessageRow -> list MessageRow) (w : World) : World :=
  mkWorld (db w) (active_sessions w) (heap w) (ws_sent w) (ws_closed w) (now w)
          (tasks w) (cancel_requested w) (uuid_source w) (uuid_calls w) (f (append_trace w)).

(** ** The monad: state, and an exception or a value *)

Definition M (A : Type) : Type := World -> (exn + A) * World.

Definition ret {A} (a : A) : M A := fun w => (inr a, w).

Definition bind {A B} (m : M A) (k : A -> M B) : M B :=
  fun w =>
    match m w with
    | (inl e, w') => (inl e, w')
    | (inr a, w') => k a w'
    end.

Definition raise {A} (e : exn) : M A := fun w => (inl e, w).

Definition gets {A} (f : World -> A) : M A := fun w => (inr (f w), w).

Definition modify (f : World -> World) : M unit := fun w => (inr tt, f w).

Declare Scope m_scope.
Delimit Scope m_scope with M.
Bind Scope m_scope with M.
Notation "x <- c1 ;; c2" := (bind c1 (fun x => c2))
  (at level 100, c1 at next level, c2 at level 200, right associativity) : m_scope.
Notation "c1 ;; c2" := (bind c1 (fun _ => c2))
  (at level 100, c2 at level 200, right associativity) : m_scope.
Open Scope m_scope.

(** [if c: body] with nothing in the [else]. *)
Definition when (c : bool) (body : M unit) : M unit :=
  if c then body else ret tt.

(** [try: body  except ...: handler e], for the exceptions [catches] selects. *)
Definition try_except {A} (body : M A) (catches : exn -> bool) (handler : exn -> M A) : M A :=
  fun w =>
    match body w with
    | (inl e, w') => if catches e then handler e w' else (inl e, w')
    | (inr a, w') => (inr a, w')
    end.

(** [try: body  finally: cleanup]: the cleanup runs on every exit of the
    body; an exception of the cleanup replaces the outcome of the body. *)
Definition try_finally {A} (body : M A) (cleanup : M unit) : M A :=
  fun w =>
    match body w with
    | (r, w') =>
        match cleanup w' with
        | (inl e, w'') => (inl e, w'')
        | (inr _, w'') => (r, w'')
        end
    end.

(** ** Primitive operations *)

(** [datetime.utcnow()] *)
Definition utcnow : M nat :=
  fun w => (inr (now w), set_now (S (now w)) w).

(** [str(uuid.uuid4())] *)
Definition uuid4 : M string :=
  fun w => (inr (uuid_source w (uuid_calls w)), set_uuid_calls (S (uuid_calls w)) w).

(** [await websocket.send_json(frame)]: raises once the client has gone. *)
Definition send_json (frame : Frame) : M unit :=
  fun w =>
    if ws_closed w then (inl WebSocketDisconnect, w)
    else (inr tt, set_ws_sent (fun l => l ++ [frame]) w).

(** *** List objects *)

(** [[]]: a new, empty list object. *)
Definition new_list : M nat :=
  fun w => (inr (length (heap w)), set_heap (fun h => h ++ [[]]) w).

Definition heap_get (h : list (list MessageRow)) (r : nat) : list MessageRow :=
  default [] (h !! r).

Definition list_read (r : nat) : M (list MessageRow) :=
  gets (fun w => heap_get (heap w) r).

(** [l.append(row)] *)
Definition list_append (r : nat) (row : MessageRow) : M unit :=
  modify (fun w =>
    set_append_trace (fun t => t ++ [row])
      (set_heap (fun h => <[r := heap_get h r ++ [row]]> h) w)).

(** [l.clear()] *)
Definition list_clear (r : nat) : M unit :=
  modify (set_heap (fun h => <[r := []]> h)).

(** *** The database session *)

Definition set_db_txn_sessions (f : gmap string SessionModel -> gmap string SessionModel)
    (d : Db) : Db :=
  mkDb (db_sessions d) (db_messages d) (f (db_txn_sessions d)) (db_txn_rows d)
       (db_bulk_calls d) (db_commits d).

(** [db.bulk_insert_mappings(MessageModel, rows)] *)
Definition db_bulk_insert_mappings (rows : list MessageRow) : M unit :=
  modify (set_db (fun d =>
    mkDb (db_sessions d) (db_messages d) (db_txn_sessions d) (db_txn_rows d ++ rows)
         (db_bulk_calls d ++ [rows]) (db_commits d))).

(** [db.commit()]: attribute writes and inserted rows of the transaction
    reach the tables. *)
Definition db_commit : M unit :=
  modify (set_db (fun d =>
    mkDb (db_txn_sessions d ∪ db_sessions d) (db_messages d ++ db_txn_rows d)
         ∅ [] (db_bulk_calls d) (S (db_commits d)))).

(** [session.status = st] on a loaded object. *)
Definition session_set_status (session : SessionModel) (st : string) : M unit :=
  modify (set_db (set_db_txn_sessions (fun t => <[id session := with_status session st]> t))).

(** [db.add(session)].  SQLAlchemy sends the INSERT at the flush of the
    [db.commit()] that follows at once; the column default of [created_at] and
    the primary-key check are placed here. *)
Definition db_add (session : SessionModel) : M unit :=
  present <- gets (fun w => bool_decide (is_Some (db_sessions (db w) !! id session)));;
  if (present : bool) then raise (IntegrityError "UNIQUE constraint failed: sessions.id")
  else
    t <- utcnow;;
    modify (set_db (set_db_txn_sessions (fun m => <[id session := with_created_at session t]> m))).

(** [db.refresh(session)] *)
Definition db_refresh (session : SessionModel) : M SessionModel :=
  row <- gets (fun w => db_sessions (db w) !! id session);;
  match row with
  | Some s => ret s
  | None => raise (InvalidRequestError "Could not refresh instance")
  end.

(** ** schemas.py *)

(** A field of a JSON request body: left out, [null], or given. *)
Inductive field (A : Type) := Absent | Null | Given (a : A).
Arguments Absent {A}.
Arguments Null {A}.
Arguments Given {A} a.

(** The body of [POST /sessions/] before validation. *)
Record SessionCreateBody := mkBody {
  body_store_screenshots : field bool;
  body_screenshot_scale : field Z;
  body_screenshot_quality : field Z;
}.

(** [class SessionCreate(BaseModel)] after validation. *)
Record SessionCreate := mkSessionCreate {
  sc_store_screenshots : bool;
  sc_screenshot_scale : option Z;
  sc_screenshot_quality : option Z;
}.

(** [Optional[int] = Field(default=d, ge=lo, le=hi)] *)
Definition validate_optional_int (d lo hi : Z) (f : field Z) : option (option Z) :=
  match f with
  | Absent => Some (Some d)
  | Null => Some None
  | Given z => if (lo <=? z) && (z <=? hi) then Some (Some z) else None
  end.

(** [bool = Field(default=False)] *)
Definition validate_bool (d : bool) (f : field bool) : option bool :=
  match f with
  | Absent => Some d
  | Null => None
  | Given b => Some b
  end.

Definition validate_SessionCreate (b : SessionCreateBody) : option SessionCreate :=
  match validate_bool false (body_store_screenshots b),
        validate_optional_int 2 1 8 (body_screenshot_scale b),
        validate_optional_int 70 10 100 (body_screenshot_quality b) with
  | Some st, Some sc, Some q => Some (mkSessionCreate st sc q)
  | _, _, _ => None
  end.

(** ** services.py: sessions *)

Definition create_session (session_data : option SessionCreate) : M SessionModel :=
  u <- uuid4;;
  let session :=
    mkSession u None "active"
      (match session_data with Some d => sc_store_screenshots d | None => false end)
      (match session_data with Some d => sc_screenshot_scale d | None => Some 2 end)
      (match session_data with Some d => sc_screenshot_quality d | None => Some 70 end) in
  db_add session;;
  db_commit;;
  db_refresh session.

(** [db.query(SessionModel).filter(SessionModel.id == session_id).first()]:
    the row must exist; the object returned carries the attribute writes of
    the open transaction, and its [id] is the one filtered on. *)
Definition get_session (session_id : string) : M (option SessionModel) :=
  gets (fun w =>
    match db_sessions (db w) !! session_id with
    | Some row =>
        let session := default row (db_txn_sessions (db w) !! session_id) in
        if String.eqb (id session) session_id then Some session else None
    | None => None
    end).

(** [views.create_session]: FastAPI validates the optional body against
    [SessionCreate] (a failure is answered with status 422), then calls the
    service. *)
Definition create_session_endpoint (body : option SessionCreateBody) : M SessionModel :=
  match body with
  | None => create_session None
  | Some b =>
      match validate_SessionCreate b with
      | Some session_data => create_session (Some session_data)
      | None => raise (ValidationError "422 Unprocessable Entity")
      end
  end.


(** ** Pillow and base64

    [resize_screenshot] is written against the Pillow imaging library and
    [base64], which are not part of the repository.  The class fixes the
    operations it calls; [None] stands for the call raising.  The two laws are
    what Pillow documents about the size of the image returned by [resize] and
    by [convert]. *)
Record Image := mkImage {
  im_size : Z * Z;
  im_mode : string;
  im_pixels : string;
}.

Class Pillow := {
  (** [from PIL import Image] succeeds *)
  pil_importable : bool;
  b64decode : string -> option string;
  b64encode : string -> string;
  (** [Image.open(io.BytesIO(data))] *)
  Image_open : string -> option Image;
  (** [image.resize(size, Image.Resampling.LANCZOS)] *)
  Image_resize : Image -> Z * Z -> option Image;
  (** [image.convert(mode)] *)
  Image_convert : Image -> string -> Image;
  (** [image.save(buffer, format='JPEG', quality=q, optimize=True)], then
      [buffer.getvalue()] *)
  Image_save_jpeg : Image -> Z -> option string;
  Image_resize_size : forall im sz im', Image_resize im sz = Some im' -> im_size im' = sz;
  Image_convert_size : forall im m, im_size (Image_convert im m) = im_size im;
}.

(** [computer_use_demo.tools.ToolResult] *)
Record ToolResult := mkToolResult {
  output : option string;
  error : option string;
  base64_image : option string;
  system : option string;
}.

(** ** The agent engine, seen from the run *)

(** What happens during one call of the engine: it hands a content block or a
    tool result to its callbacks, the client goes away, or another task calls
    [cancel_agent_task] for the session while the engine is suspended. *)
Inductive Step :=
| EmitContent (content : json)
| EmitToolResult (tool_result : ToolResult) (tool_id : string)
| ClientDisconnect
| ExternalCancel.

(** How the call ends when nothing stopped it before. *)
Inductive Outcome :=
| Returns
| Fails (msg : string)
| Cancelled.

Record Engine := mkEngine {
  script : list Step;
  outcome : Outcome;
}.

Definition nonempty {A} (l : list A) : bool :=
  match l with [] => false | _ :: _ => true end.

Definition is_some {A} (o : option A) : bool :=
  match o with Some _ => true | None => false end.

Section Services.

Context {pil : Pillow}.
Variable settings : Settings.

(** ** services.py: screenshots *)

Definition in_modes (m : string) : bool :=
  String.eqb m "RGBA" || String.eqb m "LA" || String.eqb m "P".

(** The body of the [try] of [resize_screenshot]; [None] when a step raises. *)
Definition resize_screenshot_try (base64_image : string) (scale quality : Z) : option string :=
  image_data ← b64decode base64_image;
  image ← Image_open image_data;
  image ← (if 1 <? scale
           then let '(width, height) := im_size image in
                Image_resize image (width / scale, height / scale)
           else Some image);
  let image := if in_modes (im_mode image) then Image_convert image "RGB" else image in
  jpeg ← Image_save_jpeg image quality;
  Some (b64encode jpeg).

Definition resize_screenshot (base64_image : string) (scale quality : Z) : string :=
  if pil_importable then
    match resize_screenshot_try base64_image scale quality with
    | Some s => s
    | None => base64_image
    end
  else base64_image.

(** ** services.py: tasks *)

(** [asyncio.create_task(coro)]: a new task handle.  The body of the coroutine
    starts running only when the creating task next awaits. *)
Definition create_task : M nat :=
  fun w => (inr (tasks w), set_tasks (S (tasks w)) w).

(** [task.cancel()] *)
Definition task_cancel (t : nat) : M unit :=
  modify (set_cancel_requested (fun l => l ++ [t])).

Definition cancel_agent_task (session_id : string) : M unit :=
  e <- gets (fun w => active_sessions w !! session_id);;
  match e with
  | Some session_data =>
      let task := entry_task session_data in
      let buffer := entry_buffer session_data in
      task_cancel task;;
      rows <- list_read buffer;;
      when (nonempty rows)
        (db_bulk_insert_mappings rows;;
         db_commit;;
         list_clear buffer)
  | None => ret tt
  end.

(** Modelled from the spec: the agent engine
    [computer_use_demo.loop.sampling_loop], which lies outside [app/].  The
    spec describes a black box that takes the callback hooks and emits a
    sequence of content events and tool-result events until it completes,
    errors, or is cancelled; an exception of a callback leaves the engine
    through its caller.  [script] and [outcome] fix that sequence.  The engine
    call is the one suspension point of the run, so what other tasks do
    meanwhile is interleaved here: at [ExternalCancel] another task runs
    [cancel_agent_task session_id], and the run, when it is the registered
    task, resumes with [CancelledError]. *)
Fixpoint sampling_loop (session_id : string) (script : list Step) (outcome : Outcome)
    (output_callback : json -> M unit)
    (tool_output_callback : ToolResult -> string -> M unit) : M unit :=
  match script with
  | [] =>
      match outcome with
      | Returns => ret tt
      | Fails msg => raise (EngineError msg)
      | Cancelled => raise CancelledError
      end
  | EmitContent content :: rest =>
      output_callback content;;
      sampling_loop session_id rest outcome output_callback tool_output_callback
  | EmitToolResult tool_result tool_id :: rest =>
      tool_output_callback tool_result tool_id;;
      sampling_loop session_id rest outcome output_callback tool_output_callback
  | ClientDisconnect :: rest =>
      modify (set_ws_closed true);;
      sampling_loop session_id rest outcome output_callback tool_output_callback
  | ExternalCancel :: rest =>
      registered <- gets (fun w => is_some (active_sessions w !! session_id));;
      cancel_agent_task session_id;;
      if (registered : bool) then raise CancelledError
      else sampling_loop session_id rest outcome output_callback tool_output_callback
  end.

(** ** services.py: the run *)

(** The closure [flush_messages] of [run_agent]. *)
Definition flush_messages (pending_messages : nat) : M unit :=
  rows <- list_read pending_messages;;
  when (nonempty rows)
    (db_bulk_insert_mappings rows;;
     db_commit;;
     list_clear pending_messages).

(** The threshold test that follows an append in both callbacks. *)
Definition flush_when_full (pending_messages : nat) : M unit :=
  rows <- list_read pending_messages;;
  when (message_batch_size settings <=? Z.of_nat (length rows))
    (flush_messages pending_messages).

(** The closure [output_callback] of [run_agent]. *)
Definition output_callback (session_id : string) (websocket : option WebSocket)
    (pending_messages : nat) (content : json) : M unit :=
  when (is_some websocket)
    (ty <- match content with
           | JDict kv => ret (dict_get "type" (JStr "text") kv)
           | _ => raise (AttributeError "object has no attribute 'get'")
           end;;
     t <- utcnow;;
     send_json (mkFrame ty content (Some t)));;
  match content with
  | JDict _ =>
      t <- utcnow;;
      list_append pending_messages (mkRow session_id content t);;
      flush_when_full pending_messages
  | _ => ret tt
  end.

(** [content_data] of [tool_output_callback], the dictionary stored. *)
Definition content_data (session : SessionModel) (tool_result : ToolResult)
    (tool_id : string) : list (string * json) :=
  let content_data :=
    [("type", JStr "tool_result");
     ("tool_id", JStr tool_id);
     ("output", json_of_opt_str (output tool_result));
     ("error", json_of_opt_str (error tool_result))] in
  if store_screenshots session && truthy_str (base64_image tool_result) then
    let resized_image :=
      resize_screenshot (default "" (base64_image tool_result))
        (or_int (screenshot_scale session) 2)
        (or_int (screenshot_quality session) 70) in
    assoc_set "screenshot" (JStr resized_image) content_data
  else content_data.

(** The closure [tool_output_callback] of [run_agent]. *)
Definition tool_output_callback (session : SessionModel) (session_id : string)
    (websocket : option WebSocket) (pending_messages : nat)
    (tool_result : ToolResult) (tool_id : string) : M unit :=
  when (is_some websocket)
    (t <- utcnow;;
     send_json (mkFrame (JStr "tool_result")
                  (JDict [("tool_id", JStr tool_id);
                          ("output", json_of_opt_str (output tool_result));
                          ("error", json_of_opt_str (error tool_result))])
                  (Some t)));;
  t <- utcnow;;
  list_append pending_messages
    (mkRow session_id (JDict (content_data session tool_result tool_id)) t);;
  flush_when_full pending_messages.

(** The record of the initiating user message. *)
Definition user_content (message : string) : json :=
  JDict [("type", JStr "text"); ("text", JStr message); ("role", JStr "user")].

(** The body of the [try] of [run_agent]. *)
Definition run_agent_try (session : SessionModel) (session_id message : string)
    (websocket : option WebSocket) (pending_messages : nat) (engine : Engine) : M unit :=
  t <- utcnow;;
  list_append pending_messages (mkRow session_id (user_content message) t);;
  sampling_loop session_id (script engine) (outcome engine)
    (output_callback session_id websocket pending_messages)
    (tool_output_callback session session_id websocket pending_messages);;
  flush_messages pending_messages;;
  session_set_status session "completed";;
  db_commit;;
  when (is_some websocket)
    (t <- utcnow;;
     send_json (mkFrame (JStr "completed")
                  (JDict [("message", JStr "Task completed")]) (Some t))).

(** The two [except] clauses of [run_agent]. *)
Definition run_agent_except (session : SessionModel) (websocket : option WebSocket)
    (pending_messages : nat) (e : exn) : M unit :=
  match e with
  | CancelledError =>
      flush_messages pending_messages;;
      session_set_status session "cancelled";;
      db_commit;;
      raise CancelledError
  | _ =>
      flush_messages pending_messages;;
      session_set_status session "error";;
      db_commit;;
      when (is_some websocket)
        (t <- utcnow;;
         send_json (mkFrame (JStr "error")
                      (JDict [("error", JStr (str_exn e))]) (Some t)))
  end.

(** The [finally] clause of [run_agent]. *)
Definition run_agent_finally (session_id : string) : M unit :=
  registered <- gets (fun w => is_some (active_sessions w !! session_id));;
  when registered (modify (set_active_sessions (delete session_id))).

(** [run_agent].  [db] is the database session of the world; [engine] fixes
    what the engine call does.  The local [messages], the conversation handed
    to the engine, is read by the engine only. *)
Definition run_agent (session_id message : string) (websocket : option WebSocket)
    (api_key : option string) (engine : Engine) : M unit :=
  session <- get_session session_id;;
  match session with
  | None => ret tt
  | Some session =>
      session_set_status session "running";;
      let session := with_status session "running" in
      db_commit;;
      let api_key_to_use := or_str api_key (anthropic_api_key settings) in
      if negb (truthy_str api_key_to_use)
      then raise (ValueError "No Anthropic API key provided")
      else
        pending_messages <- new_list;;
        registered <- gets (fun w => is_some (active_sessions w !! session_id));;
        when registered
          (modify (set_active_sessions
             (alter (fun e => mkEntry (entry_task e) pending_messages) session_id)));;
        try_finally
          (try_except
             (run_agent_try session session_id message websocket pending_messages engine)
             (fun _ => true)
             (run_agent_except session websocket pending_messages))
          (run_agent_finally session_id)
  end.

(** [start_agent_task].  The coroutine object [run_agent(...)] is wrapped
    in a task and the entry is registered with a new empty list; the body of
    the run has not started when this returns.  The other arguments are those
    of the coroutine, given to [run_agent] where the task is awaited. *)
Definition start_agent_task (session_id : string) : M nat :=
  task <- create_task;;
  buffer <- new_list;;
  modify (set_active_sessions (fun m => <[session_id := mkEntry task buffer]> m));;
  ret task.

(** [websocket_endpoint], the two statements
    [task = services.start_agent_task(...)] and [await task]: the entry is
    registered, then the body of the run executes, and its outcome is the
    outcome of the [await]. *)
Definition start_and_await (session_id message : string) (websocket : option WebSocket)
    (api_key : option string) (engine : Engine) : M unit :=
  start_agent_task session_id;;
  run_agent session_id message websocket api_key engine.

End Services.

(** * Properties *)

(** ** The buffer list and the flush *)

Lemma heap_get_insert (h : list (list MessageRow)) (r : nat) (l : list MessageRow) :
  (r < length h)%nat -> heap_get (<[r := l]> h) r = l.
Proof.
  intros Hr. unfold heap_get. rewrite list_lookup_insert_eq by exact Hr. reflexivity.
Qed.

Lemma heap_get_alloc (h : list (list MessageRow)) :
  heap_get (h ++ [[]]) (length h) = [].
Proof.
  unfold heap_get. rewrite lookup_app_r by lia.
  replace (length h - length h)%nat with 0%nat by lia. reflexivity.
Qed.

(** What one flush of the rows [rows] does to the database session. *)
Definition db_flush (rows : list MessageRow) (d : Db) : Db :=
  mkDb (db_txn_sessions d ∪ db_sessions d) (db_messages d ++ (db_txn_rows d ++ rows))
       ∅ [] (db_bulk_calls d ++ [rows]) (S (db_commits d)).

(** The Message Buffer as the spec words it (4.1), a pure function:
    [append] adds one record to the tail and flushes all buffered records in
    one batch once the buffer length reaches the threshold [B].  The result is
    the batches flushed and the buffer left. *)
Definition buffer_append {X} (B : Z) (buf : list X) (x : X) : list (list X) * list X :=
  if B <=? Z.of_nat (length (buf ++ [x])) then ([buf ++ [x]], []) else ([], buf ++ [x]).

Fixpoint buffer_feed {X} (B : Z) (buf : list X) (xs : list X) : list (list X) * list X :=
  match xs with
  | [] => ([], buf)
  | x :: xs' =>
      let '(b1, buf1) := buffer_append B buf x in
      let '(bs, buf2) := buffer_feed B buf1 xs' in
      (b1 ++ bs, buf2)
  end.

Lemma buffer_feed_map {X Y} (f : X -> Y) (B : Z) (xs buf : list X) :
  buffer_feed B (map f buf) (map f xs)
  = (map (map f) (fst (buffer_feed B buf xs)), map f (snd (buffer_feed B buf xs))).
Proof.
  revert buf. induction xs as [|x xs IH]; intros buf; [reflexivity|].
  simpl. unfold buffer_append.
  assert (E : map f buf ++ [f x] = map f (buf ++ [x])) by (rewrite map_app; reflexivity).
  rewrite E, length_map.
  destruct (B <=? Z.of_nat (length (buf ++ [x]))).
  - change (@nil Y) with (map f []). rewrite IH.
    destruct (buffer_feed B [] xs) as [bs buf2]. reflexivity.
  - rewrite IH. destruct (buffer_feed B (buf ++ [x]) xs) as [bs buf2]. reflexivity.
Qed.

Section RunProperties.

Context {pil : Pillow}.
Variable settings : Settings.

(** *** Running one primitive in front of a continuation *)

Lemma bind_ret {A B} (a : A) (k : A -> M B) (w : World) : bind (ret a) k w = k a w.
Proof. reflexivity. Qed.

Lemma bind_raise {A B} (e : exn) (k : A -> M B) (w : World) :
  bind (raise e) k w = (inl e, w).
Proof. reflexivity. Qed.

Lemma bind_gets {A B} (f : World -> A) (k : A -> M B) (w : World) :
  bind (gets f) k w = k (f w) w.
Proof. reflexivity. Qed.

Lemma bind_modify {B} (f : World -> World) (k : unit -> M B) (w : World) :
  bind (modify f) k w = k tt (f w).
Proof. reflexivity. Qed.

Lemma bind_utcnow {B} (k : nat -> M B) (w : World) :
  bind utcnow k w = k (now w) (set_now (S (now w)) w).
Proof. reflexivity. Qed.

Lemma bind_bind {A B C} (m : M A) (k : A -> M B) (k' : B -> M C) (w : World) :
  bind (bind m k) k' w = bind m (fun a => bind (k a) k') w.
Proof. unfold bind. destruct (m w) as [[e|a] w']; reflexivity. Qed.

Lemma bind_inr {A B} (m : M A) (k : A -> M B) (w w' : World) (a : A) :
  m w = (inr a, w') -> bind m k w = k a w'.
Proof. intros H. unfold bind. rewrite H. reflexivity. Qed.

Lemma bind_inl {A B} (m : M A) (k : A -> M B) (w w' : World) (e : exn) :
  m w = (inl e, w') -> bind m k w = (inl e, w').
Proof. intros H. unfold bind. rewrite H. reflexivity. Qed.

(** *** The flush *)

Lemma flush_messages_empty (r : nat) (w : World) :
  heap_get (heap w) r = [] -> flush_messages r w = (inr tt, w).
Proof.
  intros H. unfold flush_messages, list_read. rewrite bind_gets, H. reflexivity.
Qed.

Lemma flush_messages_nonempty (r : nat) (w : World) :
  heap_get (heap w) r <> [] ->
  flush_messages r w =
    (inr tt, set_heap (fun h => <[r := []]> h) (set_db (db_flush (heap_get (heap w) r)) w)).
Proof.
  intros H. unfold flush_messages, list_read. rewrite bind_gets.
  destruct (heap_get (heap w) r) as [|x l] eqn:E; [congruence|].
  reflexivity.
Qed.

(** The world does not change outside the clock and the frames sent. *)
Record same_store (w w' : World) : Prop := {
  same_db : db w' = db w;
  same_heap : heap w' = heap w;
  same_registry : active_sessions w' = active_sessions w;
  same_trace : append_trace w' = append_trace w;
  same_closed : ws_closed w' = ws_closed w;
}.

(** The world after a callback has appended [row] to the buffer [r] and
    tested the threshold. *)
Record pushed (r : nat) (row : MessageRow) (w w' : World) : Prop := {
  pushed_trace : append_trace w' = append_trace w ++ [row];
  pushed_registry : active_sessions w' = active_sessions w;
  pushed_closed : ws_closed w' = ws_closed w;
  pushed_heap_len : length (heap w') = length (heap w);
  pushed_full :
    message_batch_size settings <= Z.of_nat (length (heap_get (heap w) r ++ [row])) ->
    db w' = db_flush (heap_get (heap w) r ++ [row]) (db w) /\ heap_get (heap w') r = [];
  pushed_not_full :
    Z.of_nat (length (heap_get (heap w) r ++ [row])) < message_batch_size settings ->
    db w' = db w /\ heap_get (heap w') r = heap_get (heap w) r ++ [row];
}.

Lemma same_store_refl (w : World) : same_store w w.
Proof. split; reflexivity. Qed.

Lemma pushed_after_same (r : nat) (row : MessageRow) (w w1 w' : World) :
  same_store w w1 -> pushed r row w1 w' -> pushed r row w w'.
Proof.
  intros [Hd Hh Hr Ht Hc] [P1 P2 P3 P4 P5 P6].
  rewrite Hh in *. rewrite Hd in *.
  split; try congruence; assumption.
Qed.

(** The append and the threshold test of a callback. *)
Lemma append_and_test (r : nat) (row : MessageRow) (w : World) :
  (r < length (heap w))%nat ->
  exists w', (list_append r row ;; flush_when_full settings r) w = (inr tt, w')
             /\ pushed r row w w'.
Proof.
  intros Hr. unfold list_append. rewrite bind_modify.
  set (buf := heap_get (heap w) r ++ [row]).
  set (w1 := set_append_trace _ _).
  assert (H1 : heap_get (heap w1) r = buf).
  { subst w1. simpl. apply heap_get_insert. exact Hr. }
  unfold flush_when_full, list_read. rewrite bind_gets, H1.
  destruct (message_batch_size settings <=? Z.of_nat (length buf)) eqn:E.
  - apply Z.leb_le in E. unfold when.
    rewrite flush_messages_nonempty by (rewrite H1; subst buf; destruct (heap_get (heap w) r); discriminate).
    eexists. split; [reflexivity|].
    rewrite H1. split; simpl; try reflexivity.
    + rewrite !length_insert. reflexivity.
    + intros _. split; [reflexivity|]. apply heap_get_insert. rewrite length_insert. exact Hr.
    + intros Hlt. fold buf in Hlt. lia.
  - apply Z.leb_gt in E. unfold when, ret.
    eexists. split; [reflexivity|].
    split; subst w1; simpl; try reflexivity.
    + rewrite length_insert. reflexivity.
    + intros Hle. fold buf in Hle. lia.
    + intros _. split; [reflexivity|]. apply heap_get_insert. exact Hr.
Qed.

(** *** The two callbacks *)

Lemma bind_send_json_open {B} (f : Frame) (k : unit -> M B) (w : World) :
  ws_closed w = false ->
  bind (send_json f) k w = k tt (set_ws_sent (fun l => l ++ [f]) w).
Proof. intros H. unfold bind, send_json. rewrite H. reflexivity. Qed.

Lemma bind_send_json_closed {B} (f : Frame) (k : unit -> M B) (w : World) :
  ws_closed w = true ->
  bind (send_json f) k w = (inl WebSocketDisconnect, w).
Proof. intros H. unfold bind, send_json. rewrite H. reflexivity. Qed.

(** The relay of a callback fails: nothing is buffered. *)
Definition relay_fails (websocket : option WebSocket) (w : World) : bool :=
  is_some websocket && ws_closed w.

Lemma output_callback_dict (session_id : string) (websocket : option WebSocket)
    (r : nat) (kv : list (string * json)) (w : World) :
  (r < length (heap w))%nat ->
  let res := output_callback settings session_id websocket r (JDict kv) w in
  if relay_fails websocket w
  then fst res = inl WebSocketDisconnect /\ same_store w (snd res)
  else fst res = inr tt /\ exists t, pushed r (mkRow session_id (JDict kv) t) w (snd res).
Proof.
  intros Hr. unfold output_callback, relay_fails, when.
  destruct websocket as [ws|]; simpl is_some; cbv beta iota.
  - rewrite !bind_bind, bind_ret, bind_bind, bind_utcnow.
    destruct (ws_closed w) eqn:Hc; simpl andb; cbv iota.
    + rewrite bind_send_json_closed by exact Hc. simpl.
      split; [reflexivity|]. split; reflexivity.
    + rewrite bind_send_json_open by exact Hc. rewrite bind_utcnow.
      match goal with |- context [bind (list_append r ?row) _ ?w1] =>
        destruct (append_and_test r row w1) as (w' & Heq & Hp); [exact Hr|] end.
      rewrite Heq. simpl. split; [reflexivity|]. eexists.
      eapply pushed_after_same; [|exact Hp]. split; reflexivity.
  - rewrite bind_ret, bind_utcnow.
    match goal with |- context [bind (list_append r ?row) _ ?w1] =>
      destruct (append_and_test r row w1) as (w' & Heq & Hp); [exact Hr|] end.
    rewrite Heq. simpl. split; [reflexivity|]. eexists.
    eapply pushed_after_same; [|exact Hp]. split; reflexivity.
Qed.

Definition is_dict (c : json) : bool :=
  match c with JDict _ => true | _ => false end.

Lemma output_callback_other (session_id : string) (websocket : option WebSocket)
    (r : nat) (c : json) (w : World) :
  is_dict c = false ->
  let res := output_callback settings session_id websocket r c w in
  same_store w (snd res) /\
  fst res = if is_some websocket
            then inl (AttributeError "object has no attribute 'get'")
            else inr tt.
Proof.
  intros Hc. unfold output_callback, when.
  destruct websocket as [ws|]; simpl is_some; cbv beta iota;
    destruct c; try discriminate Hc; simpl; (split; [split; reflexivity | reflexivity]).
Qed.

Lemma tool_output_callback_spec (session : SessionModel) (session_id : string)
    (websocket : option WebSocket) (r : nat) (tool_result : ToolResult)
    (tool_id : string) (w : World) :
  (r < length (heap w))%nat ->
  let res := tool_output_callback settings session session_id websocket r
               tool_result tool_id w in
  if relay_fails websocket w
  then fst res = inl WebSocketDisconnect /\ same_store w (snd res)
  else fst res = inr tt /\
       exists t, pushed r (mkRow session_id (JDict (content_data session tool_result tool_id)) t)
                   w (snd res).
Proof.
  intros Hr. unfold tool_output_callback, relay_fails, when.
  destruct websocket as [ws|]; simpl is_some; cbv beta iota.
  - rewrite !bind_bind, bind_utcnow.
    destruct (ws_closed w) eqn:Hc; simpl andb; cbv iota.
    + rewrite bind_send_json_closed by exact Hc. simpl.
      split; [reflexivity|]. split; reflexivity.
    + rewrite bind_send_json_open by exact Hc. rewrite bind_utcnow.
      match goal with |- context [bind (list_append r ?row) _ ?w1] =>
        destruct (append_and_test r row w1) as (w' & Heq & Hp); [exact Hr|] end.
      rewrite Heq. simpl. split; [reflexivity|]. eexists.
      eapply pushed_after_same; [|exact Hp]. split; reflexivity.
  - rewrite bind_ret, bind_utcnow.
    match goal with |- context [bind (list_append r ?row) _ ?w1] =>
      destruct (append_and_test r row w1) as (w' & Heq & Hp); [exact Hr|] end.
    rewrite Heq. simpl. split; [reflexivity|]. eexists.
    eapply pushed_after_same; [|exact Hp]. split; reflexivity.
Qed.

(** *** Draining from [cancel_agent_task] *)

(** The drain of [cancel_agent_task] is the flush of the run, on the list the
    registry entry refers to. *)
Lemma cancel_agent_task_registered (session_id : string) (e : Entry) (w : World) :
  active_sessions w !! session_id = Some e ->
  cancel_agent_task session_id w =
    flush_messages (entry_buffer e)
      (set_cancel_requested (fun l => l ++ [entry_task e]) w).
Proof.
  intros H. unfold cancel_agent_task. rewrite bind_gets, H.
  unfold task_cancel. rewrite bind_modify. reflexivity.
Qed.

Lemma cancel_agent_task_absent (session_id : string) (w : World) :
  active_sessions w !! session_id = None ->
  cancel_agent_task session_id w = (inr tt, w).
Proof.
  intros H. unfold cancel_agent_task. rewrite bind_gets, H. reflexivity.
Qed.

(** ** The invariant of a run

    [w0] is the world in which the run started, [r] its buffer list.  Between
    two statements of the run: the registry entry of the session, when there
    is one, refers to [r]; no row waits for a commit; and what was appended
    since the start is what the bulk inserts since the start committed, batch
    after batch, followed by the content of the buffer. *)
Record buf_inv (session_id : string) (r : nat) (w0 w : World) : Prop := {
  bi_ref : (r < length (heap w))%nat;
  bi_alias : forall e, active_sessions w !! session_id = Some e -> entry_buffer e = r;
  bi_txn : db_txn_rows (db w) = [];
  bi_log : exists batches,
      db_bulk_calls (db w) = db_bulk_calls (db w0) ++ batches
      /\ Forall (fun b => b <> []) batches
      /\ db_messages (db w) = db_messages (db w0) ++ concat batches
      /\ append_trace w = append_trace w0 ++ concat batches ++ heap_get (heap w) r;
}.

Lemma buf_inv_ext (session_id : string) (r : nat) (w0 w w' : World) :
  db w' = db w -> heap w' = heap w -> active_sessions w' = active_sessions w ->
  append_trace w' = append_trace w ->
  buf_inv session_id r w0 w -> buf_inv session_id r w0 w'.
Proof.
  intros Hd Hh Hr Ht [I1 I2 I3 I4].
  split; rewrite ?Hd, ?Hh, ?Hr, ?Ht; assumption.
Qed.

Lemma buf_inv_same (session_id : string) (r : nat) (w0 w w' : World) :
  same_store w w' -> buf_inv session_id r w0 w -> buf_inv session_id r w0 w'.
Proof. intros [Hd Hh Hr Ht _]. apply buf_inv_ext; assumption. Qed.

(** A flush of a non-empty buffer adds one batch. *)
Lemma buf_inv_db_flush (session_id : string) (r : nat) (w0 w w' : World)
    (rows : list MessageRow) :
  buf_inv session_id r w0 w ->
  rows <> [] ->
  append_trace w' = append_trace w0 ++
    concat (drop (length (db_bulk_calls (db w0))) (db_bulk_calls (db w))) ++ rows ->
  active_sessions w' = active_sessions w ->
  length (heap w') = length (heap w) ->
  db w' = db_flush rows (db w) ->
  heap_get (heap w') r = [] ->
  buf_inv session_id r w0 w'.
Proof.
  intros [I1 I2 I3 (batches & B1 & B2 & B3 & B4)] Hne Ht Hr Hl Hd Hh.
  rewrite B1, drop_app_length in Ht.
  split.
  - rewrite Hl. exact I1.
  - rewrite Hr. exact I2.
  - rewrite Hd. reflexivity.
  - exists (batches ++ [rows]). rewrite Hd, Hh. simpl. split; [|split; [|split]].
    + rewrite B1, app_assoc. reflexivity.
    + apply Forall_app. split; [exact B2|]. constructor; [exact Hne|constructor].
    + rewrite I3, B3, concat_app. simpl. rewrite !app_nil_r, app_assoc. reflexivity.
    + rewrite Ht, concat_app. simpl. rewrite !app_nil_r. reflexivity.
Qed.

Lemma buf_inv_trace (session_id : string) (r : nat) (w0 w : World) :
  buf_inv session_id r w0 w ->
  append_trace w = append_trace w0 ++
    concat (drop (length (db_bulk_calls (db w0))) (db_bulk_calls (db w))) ++
    heap_get (heap w) r.
Proof.
  intros [_ _ _ (batches & B1 & _ & _ & B4)].
  rewrite B1, drop_app_length. exact B4.
Qed.

Lemma buf_inv_pushed (session_id : string) (r : nat) (row : MessageRow) (w0 w w' : World) :
  pushed r row w w' -> buf_inv session_id r w0 w -> buf_inv session_id r w0 w'.
Proof.
  intros [P1 P2 P3 P4 P5 P6] I.
  destruct (Z_le_gt_dec (message_batch_size settings)
              (Z.of_nat (length (heap_get (heap w) r ++ [row])))) as [Hle|Hgt].
  - destruct (P5 Hle) as [Hd Hh].
    eapply buf_inv_db_flush; eauto.
    + destruct (heap_get (heap w) r); discriminate.
    + rewrite P1, (buf_inv_trace _ _ _ _ I), <- !app_assoc. reflexivity.
  - destruct (P6 ltac:(lia)) as [Hd Hh].
    destruct I as [I1 I2 I3 (batches & B1 & B2 & B3 & B4)].
    split.
    + rewrite P4. exact I1.
    + rewrite P2. exact I2.
    + rewrite Hd. exact I3.
    + exists batches. rewrite Hd, Hh, P1, B4, <- !app_assoc. auto.
Qed.

(** After a flush the buffer is empty and the invariant holds again. *)
Lemma buf_inv_flush_messages (session_id : string) (r : nat) (w0 w : World) :
  buf_inv session_id r w0 w ->
  fst (flush_messages r w) = inr tt
  /\ buf_inv session_id r w0 (snd (flush_messages r w))
  /\ heap_get (heap (snd (flush_messages r w))) r = []
  /\ active_sessions (snd (flush_messages r w)) = active_sessions w
  /\ ws_closed (snd (flush_messages r w)) = ws_closed w
  /\ append_trace (snd (flush_messages r w)) = append_trace w
  /\ db_bulk_calls (db (snd (flush_messages r w)))
     = db_bulk_calls (db w)
       ++ (if nonempty (heap_get (heap w) r) then [heap_get (heap w) r] else []).
Proof.
  intros I. destruct (heap_get (heap w) r) as [|x l] eqn:E.
  - rewrite flush_messages_empty by exact E. simpl.
    split; [reflexivity|]. split; [exact I|]. split; [exact E|].
    split; [reflexivity|]. split; [reflexivity|]. split; [reflexivity|].
    rewrite app_nil_r. reflexivity.
  - rewrite flush_messages_nonempty by (rewrite E; discriminate). simpl.
    assert (Hr : (r < length (heap w))%nat) by apply I.
    rewrite heap_get_insert by exact Hr.
    split; [reflexivity|].
    split; [|split; [reflexivity|split; [reflexivity|split; [reflexivity|split; [reflexivity|]]]]].
    + eapply buf_inv_db_flush with (w := w) (rows := x :: l); simpl.
      * exact I.
      * discriminate.
      * rewrite (buf_inv_trace _ _ _ _ I), E. reflexivity.
      * reflexivity.
      * rewrite length_insert. reflexivity.
      * rewrite E. reflexivity.
      * apply heap_get_insert. exact Hr.
    + rewrite E. reflexivity.
Qed.

(** *** The invariant along the engine call *)

Lemma pushed_registry_closed (r : nat) (row : MessageRow) (w w' : World) :
  pushed r row w w' ->
  active_sessions w' = active_sessions w /\ ws_closed w' = ws_closed w.
Proof. intros [_ P2 P3 _ _ _]. auto. Qed.

Lemma output_callback_inv (session_id : string) (websocket : option WebSocket)
    (r : nat) (c : json) (w0 w : World) :
  buf_inv session_id r w0 w ->
  let w' := snd (output_callback settings session_id websocket r c w) in
  buf_inv session_id r w0 w' /\ active_sessions w' = active_sessions w
  /\ ws_closed w' = ws_closed w.
Proof.
  intros I. destruct (is_dict c) eqn:Hc.
  - destruct c; try discriminate Hc.
    pose proof (output_callback_dict session_id websocket r kv w (bi_ref _ _ _ _ I)) as H.
    cbv zeta in H |- *.
    destruct (relay_fails websocket w).
    + destruct H as [_ H]. split; [eapply buf_inv_same; eauto|]. split; apply H.
    + destruct H as [_ [t H]]. split; [eapply buf_inv_pushed; eauto|].
      eapply pushed_registry_closed; eauto.
  - destruct (output_callback_other session_id websocket r c w Hc) as [H _].
    split; [eapply buf_inv_same; eauto|]. split; apply H.
Qed.

Lemma tool_output_callback_inv (session : SessionModel) (session_id : string)
    (websocket : option WebSocket) (r : nat) (tool_result : ToolResult)
    (tool_id : string) (w0 w : World) :
  buf_inv session_id r w0 w ->
  let w' := snd (tool_output_callback settings session session_id websocket r
                   tool_result tool_id w) in
  buf_inv session_id r w0 w' /\ active_sessions w' = active_sessions w
  /\ ws_closed w' = ws_closed w.
Proof.
  intros I.
  pose proof (tool_output_callback_spec session session_id websocket r tool_result
                tool_id w (bi_ref _ _ _ _ I)) as H.
  cbv zeta in H |- *.
  destruct (relay_fails websocket w).
  - destruct H as [_ H]. split; [eapply buf_inv_same; eauto|]. split; apply H.
  - destruct H as [_ [t H]]. split; [eapply buf_inv_pushed; eauto|].
    eapply pushed_registry_closed; eauto.
Qed.

Lemma cancel_agent_task_inv (session_id : string) (r : nat) (w0 w : World) :
  buf_inv session_id r w0 w ->
  let res := cancel_agent_task session_id w in
  fst res = inr tt
  /\ buf_inv session_id r w0 (snd res)
  /\ active_sessions (snd res) = active_sessions w
  /\ ws_closed (snd res) = ws_closed w
  /\ append_trace (snd res) = append_trace w
  /\ (is_some (active_sessions w !! session_id) = true ->
      heap_get (heap (snd res)) r = []).
Proof.
  intros I. cbv zeta. destruct (active_sessions w !! session_id) as [e|] eqn:E.
  - rewrite (cancel_agent_task_registered _ _ _ E).
    rewrite (bi_alias _ _ _ _ I e E).
    set (w1 := set_cancel_requested _ w).
    assert (I1 : buf_inv session_id r w0 w1)
      by (apply (buf_inv_ext session_id r w0 w); [reflexivity..|exact I]).
    destruct (buf_inv_flush_messages session_id r w0 w1 I1)
      as (F1 & F2 & F3 & F4 & F5 & F6 & _).
    repeat (split; [assumption|]). intros _. exact F3.
  - rewrite (cancel_agent_task_absent _ _ E). simpl.
    split; [reflexivity|]. split; [exact I|]. split; [reflexivity|].
    split; [reflexivity|]. split; [reflexivity|]. discriminate.
Qed.

(** *** What the engine call appends *)

(** The content of the record a step of the engine leaves in the buffer. *)
Definition step_content (session : SessionModel) (st : Step) : list json :=
  match st with
  | EmitContent (JDict kv) => [JDict kv]
  | EmitToolResult tool_result tool_id =>
      [JDict (content_data session tool_result tool_id)]
  | _ => []
  end.

Definition script_contents (session : SessionModel) (sc : list Step) : list json :=
  concat (map (step_content session) sc).

(** A step that raises appends nothing; a step that returns appends the
    record of its event. *)
Definition appends (session : SessionModel) (session_id : string) (st : Step)
    (w : World) (res : (exn + unit) * World) : Prop :=
  exists new,
    append_trace (snd res) = append_trace w ++ new
    /\ Forall (fun row => row_session_id row = session_id) new
    /\ ((exists e, fst res = inl e) /\ new = []
        \/ fst res = inr tt /\ map row_content new = step_content session st).

Lemma output_callback_appends (session : SessionModel) (session_id : string)
    (websocket : option WebSocket) (r : nat) (c : json) (w : World) :
  (r < length (heap w))%nat ->
  appends session session_id (EmitContent c) w
    (output_callback settings session_id websocket r c w).
Proof.
  intros Hr. destruct (is_dict c) eqn:Hc.
  - destruct c; try discriminate Hc.
    pose proof (output_callback_dict session_id websocket r kv w Hr) as H.
    cbv zeta in H. destruct (relay_fails websocket w).
    + destruct H as [H1 H2]. exists []. rewrite app_nil_r.
      split; [apply H2|]. split; [constructor|]. left. eauto.
    + destruct H as [H1 [t H2]]. eexists [_].
      split; [apply H2|]. split; [repeat constructor|]. right. auto.
  - destruct (output_callback_other session_id websocket r c w Hc) as [H1 H2].
    exists []. rewrite app_nil_r. split; [apply H1|]. split; [constructor|].
    rewrite H2. destruct websocket; simpl; [left; eauto|right].
    split; [reflexivity|]. destruct c; try reflexivity. discriminate Hc.
Qed.

Lemma tool_output_callback_appends (session : SessionModel) (session_id : string)
    (websocket : option WebSocket) (r : nat) (tool_result : ToolResult)
    (tool_id : string) (w : World) :
  (r < length (heap w))%nat ->
  appends session session_id (EmitToolResult tool_result tool_id) w
    (tool_output_callback settings session session_id websocket r tool_result tool_id w).
Proof.
  intros Hr.
  pose proof (tool_output_callback_spec session session_id websocket r tool_result
                tool_id w Hr) as H.
  cbv zeta in H. destruct (relay_fails websocket w).
  - destruct H as [H1 H2]. exists []. rewrite app_nil_r.
    split; [apply H2|]. split; [constructor|]. left. eauto.
  - destruct H as [H1 [t H2]]. eexists [_].
    split; [apply H2|]. split; [repeat constructor|]. right. auto.
Qed.

Section EngineCall.

Variables (session : SessionModel) (session_id : string)
          (websocket : option WebSocket) (r : nat) (outcome : Outcome).

(** The engine call of the run, on the script [sc]. *)
Definition engine_call (sc : list Step) : M unit :=
  sampling_loop session_id sc outcome
    (output_callback settings session_id websocket r)
    (tool_output_callback settings session session_id websocket r).

Lemma engine_call_inv (w0 : World) (sc : list Step) (w : World) :
  buf_inv session_id r w0 w ->
  buf_inv session_id r w0 (snd (engine_call sc w))
  /\ active_sessions (snd (engine_call sc w)) = active_sessions w.
Proof.
  revert w. induction sc as [|st sc IH]; intros w I.
  - unfold engine_call. simpl. destruct outcome; simpl; auto.
  - unfold engine_call in *. destruct st as [c|tr tid| |]; simpl sampling_loop.
    + destruct (output_callback_inv session_id websocket r c w0 w I) as (I1 & R1 & _).
      cbv zeta in I1, R1. unfold bind.
      destruct (output_callback settings session_id websocket r c w) as [[e|[]] w1];
        simpl in *; [auto|].
      destruct (IH w1 I1) as [I2 R2]. split; [exact I2 | congruence].
    + destruct (tool_output_callback_inv session session_id websocket r tr tid w0 w I)
        as (I1 & R1 & _).
      cbv zeta in I1, R1. unfold bind.
      destruct (tool_output_callback settings session session_id websocket r tr tid w)
        as [[e|[]] w1]; simpl in *; [auto|].
      destruct (IH w1 I1) as [I2 R2]. split; [exact I2 | congruence].
    + rewrite bind_modify.
      assert (I1 : buf_inv session_id r w0 (set_ws_closed true w))
        by (apply (buf_inv_ext session_id r w0 w); [reflexivity..|exact I]).
      destruct (IH _ I1) as [I2 R2]. split; [exact I2 | exact R2].
    + rewrite bind_gets.
      destruct (cancel_agent_task_inv session_id r w0 w I) as (C1 & C2 & C3 & _).
      cbv zeta in C1, C2, C3. unfold bind.
      destruct (cancel_agent_task session_id w) as [[e|[]] w1]; simpl in *;
        [discriminate C1|].
      destruct (is_some (active_sessions w !! session_id)); simpl; [auto|].
      destruct (IH w1 C2) as [I2 R2]. split; [exact I2 | congruence].
Qed.

Lemma engine_call_appends (w0 : World) (sc : list Step) (w : World) :
  buf_inv session_id r w0 w ->
  exists new,
    append_trace (snd (engine_call sc w)) = append_trace w ++ new
    /\ Forall (fun row => row_session_id row = session_id) new
    /\ map row_content new `prefix_of` script_contents session sc.
Proof.
  revert w. induction sc as [|st sc IH]; intros w I.
  - exists []. unfold engine_call. simpl. rewrite app_nil_r.
    split; [destruct outcome; reflexivity|]. split; [constructor|]. apply prefix_nil.
  - assert (Hstep : forall (m : M unit),
               appends session session_id st w (m w) ->
               buf_inv session_id r w0 (snd (m w)) ->
               exists new,
                 append_trace (snd (bind m (fun _ => engine_call sc) w))
                 = append_trace w ++ new
                 /\ Forall (fun row => row_session_id row = session_id) new
                 /\ map row_content new `prefix_of` script_contents session (st :: sc)).
    { intros m (new & T & F & C) I1. unfold bind.
      destruct (m w) as [[e|[]] w1]; simpl in *.
      - destruct C as [[_ ->]|[C _]]; [|discriminate C].
        exists []. split; [exact T|]. split; [constructor|]. apply prefix_nil.
      - destruct C as [[[e C] _]|[_ C]]; [discriminate C|].
        destruct (IH w1 I1) as (new' & T' & F' & C').
        exists (new ++ new'). split; [rewrite T', T, app_assoc; reflexivity|].
        split; [apply Forall_app; auto|].
        unfold script_contents. simpl. rewrite map_app, C.
        apply prefix_app. exact C'. }
    unfold engine_call in *. destruct st as [c|tr tid| |]; simpl sampling_loop.
    + apply Hstep.
      * apply output_callback_appends. apply I.
      * apply output_callback_inv. exact I.
    + apply Hstep.
      * apply tool_output_callback_appends. apply I.
      * apply tool_output_callback_inv. exact I.
    + apply (Hstep (modify (set_ws_closed true))).
      * exists []. simpl. rewrite app_nil_r. split; [reflexivity|].
        split; [constructor|]. right. auto.
      * apply (buf_inv_ext session_id r w0 w); [reflexivity..|exact I].
    + rewrite bind_gets.
      destruct (cancel_agent_task_inv session_id r w0 w I) as (C1 & C2 & C3 & C4 & C5 & _).
      cbv zeta in C1, C2, C3, C4, C5.
      destruct (is_some (active_sessions w !! session_id)).
      * exists []. unfold bind.
        destruct (cancel_agent_task session_id w) as [[e|[]] w1]; simpl in *;
          [discriminate C1|].
        rewrite app_nil_r. split; [exact C5|]. split; [constructor|]. apply prefix_nil.
      * apply (Hstep (cancel_agent_task session_id)); [|exact C2].
        exists []. rewrite app_nil_r. split; [exact C5|]. split; [constructor|].
        right. auto.
Qed.



(** Only events, each of the type the callbacks expect. *)
Definition emits_only (sc : list Step) : bool :=
  forallb (fun st => match st with
                     | EmitContent c => is_dict c
                     | EmitToolResult _ _ => true
                     | _ => false
                     end) sc.

(** How the engine call ends when no callback raises. *)
Definition outcome_result : exn + unit :=
  match outcome with
  | Returns => inr tt
  | Fails msg => inl (EngineError msg)
  | Cancelled => inl CancelledError
  end.

(** With every relay succeeding, the buffer of the run behaves as the
    Message Buffer of the spec fed with the records of the events. *)
Lemma engine_call_emits (w0 : World) (sc : list Step) (w : World) :
  buf_inv session_id r w0 w ->
  relay_fails websocket w = false ->
  emits_only sc = true ->
  let res := engine_call sc w in
  fst res = outcome_result
  /\ relay_fails websocket (snd res) = false
  /\ exists rows,
      map row_content rows = script_contents session sc
      /\ db_bulk_calls (db (snd res))
         = db_bulk_calls (db w)
           ++ fst (buffer_feed (message_batch_size settings) (heap_get (heap w) r) rows)
      /\ heap_get (heap (snd res)) r
         = snd (buffer_feed (message_batch_size settings) (heap_get (heap w) r) rows).
Proof.
  revert w. induction sc as [|st sc IH]; intros w I Hrel Hs; cbv zeta.
  - unfold engine_call, outcome_result. simpl.
    split; [destruct outcome; reflexivity|].
    split; [destruct outcome; exact Hrel|].
    exists []. simpl. rewrite app_nil_r.
    destruct outcome; auto.
  - simpl in Hs. apply andb_prop in Hs as [Hst Hs].
    assert (Hstep : forall (m : M unit) (row : MessageRow),
               [row_content row] = step_content session st ->
               fst (m w) = inr tt ->
               pushed r row w (snd (m w)) ->
               let res := bind m (fun _ => engine_call sc) w in
               fst res = outcome_result
               /\ relay_fails websocket (snd res) = false
               /\ exists rows,
                   map row_content rows = script_contents session (st :: sc)
                   /\ db_bulk_calls (db (snd res))
                      = db_bulk_calls (db w)
                        ++ fst (buffer_feed (message_batch_size settings)
                                  (heap_get (heap w) r) rows)
                   /\ heap_get (heap (snd res)) r
                      = snd (buffer_feed (message_batch_size settings)
                               (heap_get (heap w) r) rows)).
    { intros m row Hrow H1 P. cbv zeta. unfold bind.
      pose proof (buf_inv_pushed session_id r row w0 w _ P I) as I1.
      destruct (m w) as [[e|[]] w1]; simpl in *; [discriminate H1|].
      assert (Hrel1 : relay_fails websocket w1 = false).
      { unfold relay_fails in *. destruct P as [_ _ P3 _ _ _]. rewrite P3. exact Hrel. }
      destruct (IH w1 I1 Hrel1 Hs) as (R1 & R2 & rows & R3 & R4 & R5).
      split; [exact R1|]. split; [exact R2|].
      exists (row :: rows). split.
      - unfold script_contents in *. simpl. rewrite <- Hrow, R3. reflexivity.
      - simpl. unfold buffer_append.
        destruct P as [_ _ _ _ P5 P6].
        destruct (message_batch_size settings
                  <=? Z.of_nat (length (heap_get (heap w) r ++ [row]))) eqn:E.
        + apply Z.leb_le in E. destruct (P5 E) as [Hd Hh].
          rewrite Hd, Hh in *. simpl in R4.
          destruct (buffer_feed (message_batch_size settings) [] rows) as [bs buf2].
          simpl in *. split; [rewrite R4, <- app_assoc; reflexivity|exact R5].
        + apply Z.leb_gt in E. destruct (P6 E) as [Hd Hh].
          rewrite Hd, Hh in *.
          destruct (buffer_feed (message_batch_size settings)
                      (heap_get (heap w) r ++ [row]) rows) as [bs buf2].
          simpl in *. split; [exact R4|exact R5]. }
    unfold engine_call in *. destruct st as [c|tr tid| |]; try discriminate Hst;
      simpl sampling_loop.
    + destruct c; try discriminate Hst.
      pose proof (output_callback_dict session_id websocket r kv w (bi_ref _ _ _ _ I)) as H.
      cbv zeta in H. rewrite Hrel in H. destruct H as [H1 [t H2]].
      eapply Hstep; [|exact H1|exact H2]. reflexivity.
    + pose proof (tool_output_callback_spec session session_id websocket r tr tid w
                    (bi_ref _ _ _ _ I)) as H.
      cbv zeta in H. rewrite Hrel in H. destruct H as [H1 [t H2]].
      eapply Hstep; [|exact H1|exact H2]. reflexivity.
Qed.

End EngineCall.

(** *** The statements around the engine call *)

(** [session.status = st] followed by [db.commit()]. *)
Definition persist_status (session : SessionModel) (st : string) (w : World) : World :=
  snd ((session_set_status session st;; db_commit) w).

Lemma bind_persist_status {B} (session : SessionModel) (st : string)
    (k : unit -> M B) (w : World) :
  bind (session_set_status session st) (fun _ => bind db_commit k) w
  = k tt (persist_status session st w).
Proof. reflexivity. Qed.

Lemma persist_status_row (session : SessionModel) (st : string) (w : World) :
  db_sessions (db (persist_status session st w)) !! id session
  = Some (with_status session st)
  /\ db_txn_sessions (db (persist_status session st w)) = ∅.
Proof.
  unfold persist_status. simpl. split; [|reflexivity].
  apply lookup_union_Some_l. apply lookup_insert_eq.
Qed.

Lemma persist_status_inv (session_id : string) (r : nat) (w0 w : World)
    (session : SessionModel) (st : string) :
  buf_inv session_id r w0 w ->
  buf_inv session_id r w0 (persist_status session st w).
Proof.
  intros [I1 I2 I3 (batches & B1 & B2 & B3 & B4)].
  unfold persist_status. split; simpl; try assumption.
  - reflexivity.
  - exists batches. rewrite I3, app_nil_r. auto.
Qed.

(** A frame sent when a connection is attached: [f] builds it from the
    timestamp. *)
Lemma when_send (websocket : option WebSocket) (f : nat -> Frame) (w : World) :
  let res := when (is_some websocket) (t <- utcnow;; send_json (f t)) w in
  same_store w (snd res)
  /\ fst res = if relay_fails websocket w then inl WebSocketDisconnect else inr tt.
Proof.
  unfold when, relay_fails. destruct websocket as [ws|]; cbn [is_some andb]; cbv zeta.
  - rewrite bind_utcnow. unfold send_json. simpl.
    destruct (ws_closed w); simpl; (split; [split; reflexivity|reflexivity]).
  - simpl. split; [split; reflexivity|reflexivity].
Qed.

Lemma buf_inv_append (session_id : string) (r : nat) (w0 w : World) (row : MessageRow) :
  buf_inv session_id r w0 w ->
  buf_inv session_id r w0 (snd (list_append r row w)).
Proof.
  intros [I1 I2 I3 (batches & B1 & B2 & B3 & B4)].
  unfold list_append. simpl. split; simpl; try assumption.
  - rewrite length_insert. exact I1.
  - exists batches. rewrite heap_get_insert by exact I1.
    rewrite B4, <- !app_assoc. auto.
Qed.

Lemma bind_flush_messages (session_id : string) (r : nat) (w0 w : World) :
  buf_inv session_id r w0 w ->
  exists w1,
    (forall B (k : unit -> M B), bind (flush_messages r) k w = k tt w1)
    /\ buf_inv session_id r w0 w1
    /\ heap_get (heap w1) r = []
    /\ active_sessions w1 = active_sessions w
    /\ ws_closed w1 = ws_closed w
    /\ append_trace w1 = append_trace w
    /\ db_bulk_calls (db w1)
       = db_bulk_calls (db w)
         ++ (if nonempty (heap_get (heap w) r) then [heap_get (heap w) r] else []).
Proof.
  intros I.
  destruct (buf_inv_flush_messages session_id r w0 w I)
    as (F1 & F2 & F3 & F4 & F5 & F6 & F7).
  destruct (flush_messages r w) as [[e|[]] w1] eqn:Hf; simpl in *; [discriminate F1|].
  exists w1. split; [|auto 7].
  intros B k. apply bind_inr. exact Hf.
Qed.

Lemma try_except_bind_inl {A B} (m : M A) (k : A -> M B) (h : exn -> M B)
    (w w' : World) (e : exn) :
  m w = (inl e, w') ->
  try_except (bind m k) (fun _ => true) h w = h e w'.
Proof. intros H. unfold try_except, bind. rewrite H. reflexivity. Qed.

Lemma try_except_bind_inr {A B} (m : M A) (k : A -> M B) (h : exn -> M B)
    (w w' : World) (a : A) :
  m w = (inr a, w') ->
  try_except (bind m k) (fun _ => true) h w = try_except (k a) (fun _ => true) h w'.
Proof. intros H. unfold try_except, bind. rewrite H. reflexivity. Qed.

(** The status an [except] clause leaves. *)
Definition status_after (e : exn) : string :=
  if is_Exception e then "error" else "cancelled".

(** What holds when the [try] statement of the run is left: the buffer is
    empty, and the session row carries the status [st], committed. *)
Record closed_with (session_id : string) (r : nat) (session : SessionModel)
    (st : string) (w0 w w' : World) : Prop := {
  cw_inv : buf_inv session_id r w0 w';
  cw_empty : heap_get (heap w') r = [];
  cw_registry : active_sessions w' = active_sessions w;
  cw_trace : append_trace w' = append_trace w;
  cw_status : db_sessions (db w') !! id session = Some (with_status session st);
  cw_committed : db_txn_sessions (db w') = ∅;
  cw_calls : db_bulk_calls (db w')
             = db_bulk_calls (db w)
               ++ (if nonempty (heap_get (heap w) r) then [heap_get (heap w) r] else []);
}.

Lemma closed_with_same (session_id : string) (r : nat) (session : SessionModel)
    (st : string) (w0 w w1 w' : World) :
  closed_with session_id r session st w0 w w1 -> same_store w1 w' ->
  closed_with session_id r session st w0 w w'.
Proof.
  intros [C1 C2 C3 C4 C5 C6 C7] S. pose proof S as [S1 S2 S3 S4 S5].
  split; rewrite ?S1, ?S2, ?S3, ?S4; try assumption.
  eapply buf_inv_same; eauto.
Qed.

(** Flush, status, commit: the common start of the three exits. *)
Lemma flush_and_persist (session_id : string) (r : nat) (session : SessionModel)
    (st : string) (w0 w : World) :
  buf_inv session_id r w0 w ->
  exists w1,
    (forall B (k : unit -> M B),
        bind (flush_messages r)
          (fun _ => bind (session_set_status session st) (fun _ => bind db_commit k)) w
        = k tt w1)
    /\ closed_with session_id r session st w0 w w1
    /\ ws_closed w1 = ws_closed w.
Proof.
  intros I.
  destruct (bind_flush_messages session_id r w0 w I)
    as (w1 & Hk & I1 & E1 & R1 & C1 & T1 & B1).
  exists (persist_status session st w1). split; [|split].
  - intros B k. rewrite Hk, bind_persist_status. reflexivity.
  - destruct (persist_status_row session st w1) as [P1 P2].
    split; try assumption.
    + apply persist_status_inv. exact I1.
  - exact C1.
Qed.

Lemma run_agent_except_spec (session_id : string) (r : nat) (session : SessionModel)
    (websocket : option WebSocket) (e : exn) (w0 w : World) :
  buf_inv session_id r w0 w ->
  let res := run_agent_except session websocket r e w in
  closed_with session_id r session (status_after e) w0 w (snd res)
  /\ fst res = (if is_Exception e
                then if relay_fails websocket w then inl WebSocketDisconnect else inr tt
                else inl CancelledError).
Proof.
  intros I.
  destruct (flush_and_persist session_id r session (status_after e) w0 w I)
    as (w1 & Hk & C & Hc).
  assert (Hexc : is_Exception e = true ->
            let res := (flush_messages r;; session_set_status session "error";; db_commit;;
                        when (is_some websocket)
                          (t <- utcnow;;
                           send_json (mkFrame (JStr "error")
                                        (JDict [("error", JStr (str_exn e))]) (Some t)))) w in
            closed_with session_id r session (status_after e) w0 w (snd res)
            /\ fst res = if relay_fails websocket w
                         then inl WebSocketDisconnect else inr tt).
  { intros He. unfold status_after in *. rewrite He in *. cbv zeta. rewrite Hk.
    match goal with |- context [when _ (bind utcnow (fun t => send_json (@?f t)))] =>
      destruct (when_send websocket f w1) as [S1 S2] end.
    cbv zeta in S1, S2. split.
    - eapply closed_with_same; eauto.
    - rewrite S2. unfold relay_fails. rewrite Hc. reflexivity. }
  destruct e; try (apply Hexc; reflexivity).
  cbv zeta. unfold run_agent_except. rewrite Hk. simpl. split; [exact C|reflexivity].
Qed.

(** A second closing sequence, started where a first one ended. *)
Lemma closed_with_trans (session_id : string) (r : nat) (session : SessionModel)
    (st st' : string) (w0 w w1 w1' w2 : World) :
  closed_with session_id r session st w0 w w1 ->
  same_store w1 w1' ->
  closed_with session_id r session st' w0 w1' w2 ->
  closed_with session_id r session st' w0 w w2.
Proof.
  intros [A1 A2 A3 A4 A5 A6 A7] [S1 S2 S3 S4 S5] [C1 C2 C3 C4 C5 C6 C7].
  split; try assumption; try congruence.
  rewrite C7, S2, A2, S1, A7. simpl. rewrite app_nil_r. reflexivity.
Qed.

Section Protected.

Variables (session : SessionModel) (session_id message : string)
          (websocket : option WebSocket) (r : nat) (engine : Engine).

(** The [try] statement of the run with its [except] clauses. *)
Definition protected : M unit :=
  try_except
    (run_agent_try settings session session_id message websocket r engine)
    (fun _ => true)
    (run_agent_except session websocket r).

(** The statements of the [try] after the engine call. *)
Definition completion : M unit :=
  flush_messages r;;
  session_set_status session "completed";;
  db_commit;;
  when (is_some websocket)
    (t <- utcnow;;
     send_json (mkFrame (JStr "completed")
                  (JDict [("message", JStr "Task completed")]) (Some t))).

(** The world in which the engine is called: the record of the user message
    is in the buffer. *)
Definition engine_entry (w : World) : World :=
  snd (list_append r (mkRow session_id (user_content message) (now w))
         (set_now (S (now w)) w)).

Definition the_engine_call : M unit :=
  engine_call session session_id websocket r (outcome engine) (script engine).

Lemma protected_engine_raises (w w3 : World) (e : exn) :
  the_engine_call (engine_entry w) = (inl e, w3) ->
  protected w = run_agent_except session websocket r e w3.
Proof.
  intros H. unfold protected, run_agent_try.
  rewrite (try_except_bind_inr utcnow _ _ w (set_now (S (now w)) w) (now w) eq_refl).
  erewrite try_except_bind_inr by reflexivity.
  erewrite try_except_bind_inl by exact H. reflexivity.
Qed.

Lemma protected_engine_returns (w w3 : World) :
  the_engine_call (engine_entry w) = (inr tt, w3) ->
  protected w = try_except completion (fun _ => true)
                  (run_agent_except session websocket r) w3.
Proof.
  intros H. unfold protected, run_agent_try.
  rewrite (try_except_bind_inr utcnow _ _ w (set_now (S (now w)) w) (now w) eq_refl).
  erewrite try_except_bind_inr by reflexivity.
  erewrite try_except_bind_inr by exact H. reflexivity.
Qed.

Lemma completion_spec (w0 w : World) :
  buf_inv session_id r w0 w ->
  let res := try_except completion (fun _ => true)
               (run_agent_except session websocket r) w in
  if relay_fails websocket w
  then closed_with session_id r session "error" w0 w (snd res)
       /\ fst res = inl WebSocketDisconnect
  else closed_with session_id r session "completed" w0 w (snd res)
       /\ fst res = inr tt.
Proof.
  intros I. cbv zeta. unfold completion.
  destruct (flush_and_persist session_id r session "completed" w0 w I)
    as (w1 & Hk & C & Hc).
  unfold try_except. rewrite Hk.
  match goal with |- context [when _ (bind utcnow (fun t => send_json (@?f t)))] =>
    destruct (when_send websocket f w1) as [S1 S2];
    destruct (when (is_some websocket) (bind utcnow (fun t => send_json (f t))) w1)
      as [[e|[]] w2] eqn:Hw end.
  - cbv zeta in S1, S2. simpl in S1, S2.
    assert (Hf : relay_fails websocket w1 = true)
      by (destruct (relay_fails websocket w1); [reflexivity|discriminate S2]).
    rewrite Hf in S2. injection S2 as ->.
    assert (Hf' : relay_fails websocket w = true)
      by (unfold relay_fails in *; rewrite <- Hc; exact Hf).
    rewrite Hf'.
    assert (I2 : buf_inv session_id r w0 w2)
      by (eapply buf_inv_same; [exact S1|apply C]).
    destruct (run_agent_except_spec session_id r session websocket
                WebSocketDisconnect w0 w2 I2) as [H1 H2].
    cbv zeta in H1, H2.
    change (is_Exception WebSocketDisconnect) with true in H2. cbv iota in H2.
    change (status_after WebSocketDisconnect) with "error" in H1. split.
    + eapply closed_with_trans; [exact C|exact S1|exact H1].
    + rewrite H2. unfold relay_fails in *. destruct S1 as [_ _ _ _ S5].
      rewrite S5. rewrite Hf. reflexivity.
  - cbv zeta in S1, S2. simpl in S1, S2.
    assert (Hf : relay_fails websocket w1 = false)
      by (destruct (relay_fails websocket w1); [discriminate S2|reflexivity]).
    assert (Hf' : relay_fails websocket w = false)
      by (unfold relay_fails in *; rewrite <- Hc; exact Hf).
    rewrite Hf'. simpl. split; [|reflexivity].
    eapply closed_with_same; eauto.
Qed.

Lemma engine_entry_inv (w0 w : World) :
  buf_inv session_id r w0 w -> buf_inv session_id r w0 (engine_entry w).
Proof.
  intros I. unfold engine_entry. apply buf_inv_append.
  apply (buf_inv_ext session_id r w0 w); [reflexivity..|exact I].
Qed.

(** What holds when the [try] statement is left, whatever the engine did. *)
Record left_with (st : string) (rest : list MessageRow) (w0 w w' : World) : Prop := {
  lw_inv : buf_inv session_id r w0 w';
  lw_empty : heap_get (heap w') r = [];
  lw_registry : active_sessions w' = active_sessions w;
  lw_status : db_sessions (db w') !! id session = Some (with_status session st);
  lw_committed : db_txn_sessions (db w') = ∅;
  lw_trace : append_trace w'
             = append_trace w ++ mkRow session_id (user_content message) (now w) :: rest;
  lw_rows : Forall (fun row => row_session_id row = session_id) rest;
  lw_contents : map row_content rest `prefix_of` script_contents session (script engine);
}.

Lemma left_with_intro (st : string) (rest : list MessageRow) (w0 w w3 w' : World) :
  active_sessions w3 = active_sessions w ->
  append_trace w3
  = append_trace w ++ mkRow session_id (user_content message) (now w) :: rest ->
  Forall (fun row => row_session_id row = session_id) rest ->
  map row_content rest `prefix_of` script_contents session (script engine) ->
  closed_with session_id r session st w0 w3 w' ->
  left_with st rest w0 w w'.
Proof.
  intros R T F P [C1 C2 C3 C4 C5 C6 C7]. split; try assumption; congruence.
Qed.

Lemma protected_spec (w0 w : World) :
  buf_inv session_id r w0 w ->
  exists st rest, left_with st rest w0 w (snd (protected w)).
Proof.
  intros I. pose proof (engine_entry_inv w0 w I) as I2.
  destruct (engine_call_inv session session_id websocket r (outcome engine)
              w0 (script engine) _ I2) as [I3 R3].
  destruct (engine_call_appends session session_id websocket r (outcome engine)
              w0 (script engine) _ I2) as (rest & T3 & F3 & P3).
  fold the_engine_call in I3, R3, T3.
  assert (T2 : append_trace (engine_entry w)
               = append_trace w ++ [mkRow session_id (user_content message) (now w)])
    by reflexivity.
  assert (R2 : active_sessions (engine_entry w) = active_sessions w) by reflexivity.
  rewrite T2, <- app_assoc in T3. rewrite R2 in R3. simpl in T3.
  destruct (the_engine_call (engine_entry w)) as [[e|[]] w3] eqn:He; simpl in I3, R3, T3.
  - rewrite (protected_engine_raises w w3 e He).
    destruct (run_agent_except_spec session_id r session websocket e w0 w3 I3) as [H1 _].
    cbv zeta in H1. exists (status_after e), rest.
    apply (left_with_intro _ _ w0 w w3); assumption.
  - rewrite (protected_engine_returns w w3 He).
    pose proof (completion_spec w0 w3 I3) as H. cbv zeta in H.
    destruct (relay_fails websocket w3); destruct H as [H1 _].
    + exists "error", rest. apply (left_with_intro _ _ w0 w w3); assumption.
    + exists "completed", rest. apply (left_with_intro _ _ w0 w w3); assumption.
Qed.

End Protected.

(** ** The run as a whole *)

Lemma content_data_with_status (session : SessionModel) (st : string)
    (tool_result : ToolResult) (tool_id : string) :
  content_data (with_status session st) tool_result tool_id
  = content_data session tool_result tool_id.
Proof. reflexivity. Qed.

Lemma script_contents_with_status (session : SessionModel) (st : string) (sc : list Step) :
  script_contents (with_status session st) sc = script_contents session sc.
Proof.
  reflexivity.
Qed.

Lemma get_session_id (session_id : string) (session : SessionModel) (w : World) :
  fst (get_session session_id w) = inr (Some session) -> id session = session_id.
Proof.
  unfold get_session, gets. simpl. intros H. injection H as H.
  destruct (db_sessions (db w) !! session_id) as [row|]; [|discriminate H].
  simpl in H.
  destruct (String.eqb_spec (id (default row (db_txn_sessions (db w) !! session_id)))
              session_id) as [E|E]; [|discriminate H].
  injection H as <-. exact E.
Qed.

(** The credential test of the run. *)
Definition has_credential (api_key : option string) : bool :=
  truthy_str (or_str api_key (anthropic_api_key settings)).

(** The world in which the [try] statement is entered: status [running]
    committed, a new buffer list, and the registry entry, when there is one,
    made to refer to it. *)
Definition run_agent_entry (session : SessionModel) (session_id : string) (w : World) : World :=
  let w1 := set_heap (fun h => h ++ [[]]) (persist_status session "running" w) in
  if is_some (active_sessions w !! session_id)
  then set_active_sessions
         (alter (fun e => mkEntry (entry_task e) (length (heap w))) session_id) w1
  else w1.

Section Run.

Variables (session_id message : string) (websocket : option WebSocket)
          (api_key : option string) (engine : Engine).

Lemma run_agent_missing_session (w : World) :
  fst (get_session session_id w) = inr None ->
  run_agent settings session_id message websocket api_key engine w = (inr tt, w).
Proof.
  intros H. unfold run_agent. unfold get_session in *. rewrite bind_gets.
  simpl in H. injection H as ->. reflexivity.
Qed.

Lemma run_agent_no_credential (session : SessionModel) (w : World) :
  fst (get_session session_id w) = inr (Some session) ->
  has_credential api_key = false ->
  run_agent settings session_id message websocket api_key engine w
  = (inl (ValueError "No Anthropic API key provided"),
     persist_status session "running" w).
Proof.
  intros H K. unfold run_agent. unfold get_session in *. rewrite bind_gets.
  simpl in H. injection H as ->. cbv zeta.
  rewrite bind_persist_status. unfold has_credential in K. rewrite K. reflexivity.
Qed.

Lemma run_agent_running (session : SessionModel) (w : World) :
  fst (get_session session_id w) = inr (Some session) ->
  has_credential api_key = true ->
  run_agent settings session_id message websocket api_key engine w
  = try_finally
      (protected (with_status session "running") session_id message websocket
         (length (heap w)) engine)
      (run_agent_finally session_id)
      (run_agent_entry session session_id w).
Proof.
  intros H K. unfold run_agent. unfold get_session in *. rewrite bind_gets.
  simpl in H. injection H as ->. cbv zeta.
  rewrite bind_persist_status. unfold has_credential in K. rewrite K.
  cbn [negb]. cbv iota. unfold new_list, run_agent_entry.
  unfold bind at 1. cbv beta iota zeta. rewrite bind_gets.
  change (heap (persist_status session "running" w)) with (heap w).
  change (active_sessions (set_heap (fun h => h ++ [[]])
            (persist_status session "running" w))) with (active_sessions w).
  destruct (is_some (active_sessions w !! session_id)); reflexivity.
Qed.

Lemma run_agent_entry_inv (session : SessionModel) (w : World) :
  db_txn_rows (db w) = [] ->
  buf_inv session_id (length (heap w)) w (run_agent_entry session session_id w).
Proof.
  intros Htxn.
  assert (B : exists batches : list (list MessageRow),
             db_bulk_calls (db w) = db_bulk_calls (db w) ++ batches
             /\ Forall (fun b => b <> []) batches
             /\ db_messages (db w) ++ db_txn_rows (db w)
                = db_messages (db w) ++ concat batches
             /\ append_trace w
                = append_trace w ++ concat batches
                  ++ heap_get (heap w ++ [[]]) (length (heap w))).
  { exists []. rewrite heap_get_alloc, Htxn. simpl. rewrite !app_nil_r. auto. }
  unfold run_agent_entry.
  destruct (active_sessions w !! session_id) as [e0|] eqn:E; cbn [is_some];
    (split; simpl; [rewrite length_app; simpl; lia| |reflexivity|exact B]).
  - intros e He. rewrite lookup_alter_eq, E in He. simpl in He.
    injection He as <-. reflexivity.
  - intros e He. congruence.
Qed.

Lemma run_agent_finally_spec (w : World) :
  exists w',
    run_agent_finally session_id w = (inr tt, w')
    /\ active_sessions w' = delete session_id (active_sessions w)
    /\ db w' = db w /\ heap w' = heap w /\ append_trace w' = append_trace w
    /\ ws_sent w' = ws_sent w.
Proof.
  unfold run_agent_finally. rewrite bind_gets.
  destruct (active_sessions w !! session_id) as [e|] eqn:E; cbn [is_some when].
  - eexists. split; [reflexivity|]. simpl. auto 6.
  - exists w. split; [reflexivity|]. rewrite delete_id by exact E. auto 6.
Qed.

(** What a run that entered its [try] statement leaves: [st] is the status
    committed, [log] the rows appended. *)
Record finished (session : SessionModel) (st : string) (log : list MessageRow)
    (w w' : World) : Prop := {
  fin_messages : db_messages (db w') = db_messages (db w) ++ log;
  fin_batches : exists batches,
      db_bulk_calls (db w') = db_bulk_calls (db w) ++ batches
      /\ Forall (fun b => b <> []) batches
      /\ concat batches = log;
  fin_txn_rows : db_txn_rows (db w') = [];
  fin_trace : append_trace w' = append_trace w ++ log;
  fin_empty : heap_get (heap w') (length (heap w)) = [];
  fin_registry : active_sessions w' = delete session_id (active_sessions w);
  fin_status : db_sessions (db w') !! session_id = Some (with_status session st);
  fin_committed : db_txn_sessions (db w') = ∅;
}.

Lemma run_agent_running_spec (session : SessionModel) (w : World) :
  fst (get_session session_id w) = inr (Some session) ->
  has_credential api_key = true ->
  db_txn_rows (db w) = [] ->
  let body := protected (with_status session "running") session_id message websocket
                (length (heap w)) engine (run_agent_entry session session_id w) in
  let res := run_agent settings session_id message websocket api_key engine w in
  fst res = fst body
  /\ exists st t rest,
      finished session st (mkRow session_id (user_content message) t :: rest) w (snd res)
      /\ Forall (fun row => row_session_id row = session_id) rest
      /\ map row_content rest `prefix_of` script_contents session (script engine)
      /\ db_sessions (db (snd body)) !! session_id = Some (with_status session st)
      /\ db (snd res) = db (snd body)
      /\ append_trace (snd res) = append_trace (snd body).
Proof.
  intros H K Htxn. cbv zeta. rewrite (run_agent_running session w H K).
  assert (Hid : id session = session_id) by (eapply get_session_id; eauto).
  pose proof (run_agent_entry_inv session w Htxn) as I.
  destruct (protected_spec (with_status session "running") session_id message websocket
              (length (heap w)) engine w _ I) as (st & rest & L).
  destruct L as [L1 L2 L3 L4 L5 L6 L7 L8].
  unfold try_finally.
  destruct (protected _ _ _ _ _ _ _) as [res1 w1]. cbn [fst snd] in *.
  destruct (run_agent_finally_spec w1) as (w2 & F1 & F2 & F3 & F4 & F5 & _).
  rewrite F1. cbn [fst snd]. split; [reflexivity|].
  assert (Hentry : append_trace (run_agent_entry session session_id w) = append_trace w
                   /\ delete session_id (active_sessions (run_agent_entry session session_id w))
                      = delete session_id (active_sessions w)).
  { unfold run_agent_entry. destruct (is_some (active_sessions w !! session_id)); simpl.
    - split; [reflexivity|]. apply delete_alter_eq.
    - split; reflexivity. }
  destruct Hentry as [T0 R0].
  destruct L1 as [I1 I2 I3 (batches & B1 & B2 & B3 & B4)].
  rewrite L2, app_nil_r, L6, T0 in B4. apply app_inv_head in B4.
  exists st, (now (run_agent_entry session session_id w)), rest.
  split; [|split; [exact L7|split; [|split; [rewrite <- Hid; exact L4|auto]]]].
  - split; rewrite ?F3, ?F4, ?F5.
    + rewrite B3, B4. reflexivity.
    + exists batches. auto.
    + exact I3.
    + rewrite L6, T0. reflexivity.
    + exact L2.
    + rewrite F2, L3. exact R0.
    + rewrite <- Hid. exact L4.
    + exact L5.
  - exact L8.
Qed.

(** C1.  Every run commits what it appends, in the order of the appends.
    Started with no row waiting for a commit, a run ends with the rows it
    appended to its buffer ([log], the new part of the append trace) added to
    the messages table in that order and none waiting; the bulk inserts it
    made are non-empty batches whose concatenation is [log], so the order
    holds across batch boundaries.  This holds on every exit of the run and
    for every script of the engine.  When the run entered its [try]
    statement, the first row of [log] is the record of the initiating user
    message, and the rows after it are those of a prefix of the events the
    engine emitted, in emission order; when it did not, nothing was
    appended. *)
Theorem run_agent_commits_in_append_order (w : World) :
  db_txn_rows (db w) = [] ->
  let w' := snd (run_agent settings session_id message websocket api_key engine w) in
  exists log batches,
    append_trace w' = append_trace w ++ log
    /\ db_messages (db w') = db_messages (db w) ++ log
    /\ db_txn_rows (db w') = []
    /\ db_bulk_calls (db w') = db_bulk_calls (db w) ++ batches
    /\ Forall (fun b => b <> []) batches
    /\ concat batches = log
    /\ match fst (get_session session_id w) with
       | inr (Some session) =>
           if has_credential api_key
           then exists t rest,
                  log = mkRow session_id (user_content message) t :: rest
                  /\ Forall (fun row => row_session_id row = session_id) rest
                  /\ map row_content rest
                       `prefix_of` script_contents session (script engine)
           else log = []
       | _ => log = []
       end.
Proof.
  intros Htxn. cbv zeta.
  destruct (fst (get_session session_id w)) as [e|[session|]] eqn:G.
  - discriminate G.
  - destruct (has_credential api_key) eqn:K.
    + destruct (run_agent_running_spec session w G K Htxn)
        as (_ & st & t & rest & [F1 (batches & F2 & F2' & F2'') F3 F4 _ _ _ _] & R1 & R2 & _).
      exists (mkRow session_id (user_content message) t :: rest), batches.
      repeat (split; [assumption|]). eauto.
    + rewrite (run_agent_no_credential session w G K).
      exists [], []. unfold persist_status. simpl.
      rewrite Htxn, !app_nil_r. repeat (split; [reflexivity|]).
      split; [constructor|]. split; reflexivity.
  - rewrite (run_agent_missing_session w G).
    exists [], []. simpl. rewrite !app_nil_r. repeat (split; [reflexivity|]).
    split; [exact Htxn|]. split; [reflexivity|]. split; [constructor|]. split; reflexivity.
Qed.


Lemma buffer_feed_concat {X} (B : Z) (xs buf : list X) :
  concat (fst (buffer_feed B buf xs)) ++ snd (buffer_feed B buf xs) = buf ++ xs.
Proof.
  revert buf. induction xs as [|x xs IH]; intros buf; simpl.
  - symmetry. apply app_nil_r.
  - unfold buffer_append. destruct (B <=? Z.of_nat (length (buf ++ [x]))).
    + specialize (IH []). destruct (buffer_feed B [] xs) as [bs buf2].
      simpl in *. rewrite <- !app_assoc, IH. reflexivity.
    + specialize (IH (buf ++ [x])). destruct (buffer_feed B (buf ++ [x]) xs) as [bs buf2].
      simpl in *. rewrite IH, <- app_assoc. reflexivity.
Qed.

(** The world in which the engine call of the run returns or raises. *)
Definition engine_exit (session : SessionModel) (w : World) : World :=
  snd (the_engine_call (with_status session "running") session_id websocket
         (length (heap w)) engine
         (engine_entry session_id message (length (heap w))
            (run_agent_entry session session_id w))).

(** A run whose relays all succeed and whose engine returns: the bulk inserts
    are those of the Message Buffer of the spec, started with the record of
    the user message and fed with the records of the events, followed by the
    terminal flush of what the buffer still holds. *)
Lemma run_agent_returns (session : SessionModel) (w : World) :
  fst (get_session session_id w) = inr (Some session) ->
  has_credential api_key = true ->
  db_txn_rows (db w) = [] ->
  relay_fails websocket w = false ->
  emits_only (script engine) = true ->
  outcome engine = Returns ->
  let res := run_agent settings session_id message websocket api_key engine w in
  fst res = inr tt
  /\ exists t rows,
      map row_content rows = script_contents session (script engine)
      /\ finished session "completed"
           (mkRow session_id (user_content message) t :: rows) w (snd res)
      /\ let fed := buffer_feed (message_batch_size settings)
                      [mkRow session_id (user_content message) t] rows in
         db_bulk_calls (db (engine_exit session w)) = db_bulk_calls (db w) ++ fst fed
         /\ heap_get (heap (engine_exit session w)) (length (heap w)) = snd fed
         /\ db_bulk_calls (db (snd res))
            = db_bulk_calls (db (engine_exit session w))
              ++ (if nonempty (snd fed) then [snd fed] else []).
Proof.
  intros H K Htxn Hrel Hs Ho.
  destruct (run_agent_running_spec session w H K Htxn)
    as (R1 & st & t & rest & F & _ & _ & S & D & T).
  cbv zeta in R1, S, D, T |- *. rewrite R1. unfold engine_exit.
  set (w1 := run_agent_entry session session_id w) in *.
  set (s1 := with_status session "running") in *.
  set (r := length (heap w)) in *.
  assert (I1 : buf_inv session_id r w w1) by (apply run_agent_entry_inv; exact Htxn).
  assert (I2 : buf_inv session_id r w (engine_entry session_id message r w1))
    by (apply engine_entry_inv; exact I1).
  assert (Hrel2 : relay_fails websocket (engine_entry session_id message r w1) = false).
  { subst w1. unfold relay_fails, run_agent_entry in *.
    destruct (is_some (active_sessions w !! session_id)); exact Hrel. }
  assert (Hbuf : heap_get (heap (engine_entry session_id message r w1)) r
                 = [mkRow session_id (user_content message) (now w1)]).
  { unfold engine_entry. simpl. rewrite heap_get_insert by apply I1.
    replace (heap_get (heap w1) r) with (@nil MessageRow); [reflexivity|].
    subst w1 r. unfold run_agent_entry.
    destruct (is_some (active_sessions w !! session_id)); simpl;
      rewrite heap_get_alloc; reflexivity. }
  assert (Hcalls : db_bulk_calls (db (engine_entry session_id message r w1))
                   = db_bulk_calls (db w)).
  { subst w1. unfold run_agent_entry.
    destruct (is_some (active_sessions w !! session_id)); reflexivity. }
  assert (Htr : append_trace (engine_entry session_id message r w1)
                = append_trace w ++ [mkRow session_id (user_content message) (now w1)]).
  { subst w1. unfold run_agent_entry.
    destruct (is_some (active_sessions w !! session_id)); reflexivity. }
  destruct (engine_call_emits s1 session_id websocket r (outcome engine) w
              (script engine) _ I2 Hrel2 Hs) as (E1 & E2 & rows & E3 & E4 & E5).
  destruct (engine_call_inv s1 session_id websocket r (outcome engine) w
              (script engine) _ I2) as [I3 _].
  fold (the_engine_call s1 session_id websocket r engine) in E1, E2, E4, E5, I3.
  rewrite Hbuf in E4, E5. rewrite Hcalls in E4.
  unfold outcome_result in E1. rewrite Ho in E1.
  pose proof (buf_inv_trace _ _ _ _ I3) as T3. rewrite E4, drop_app_length, E5 in T3.
  rewrite buffer_feed_concat in T3.
  destruct (the_engine_call s1 session_id websocket r engine
              (engine_entry session_id message r w1)) as [[e|[]] w3] eqn:Hcall;
    simpl in E1, E2, E4, E5, I3, T3 |- *; [discriminate E1|].
  rewrite (protected_engine_returns s1 session_id message websocket r engine w1 w3 Hcall)
    in S, D, T |- *.
  pose proof (completion_spec s1 session_id websocket r w w3 I3) as C.
  cbv zeta in C. rewrite E2 in C. destruct C as [[C1 C2 C3 C4 C5 C6 C7] C8].
  split; [exact C8|].
  destruct F as [F1 F2 F3 F4 F5 F6 F7 F8].
  pose proof F4 as F4'.
  rewrite T, C4, T3 in F4'. apply app_inv_head in F4'. simpl in F4'.
  injection F4' as Ht Hrows. subst rest.
  exists (now w1), rows. rewrite (script_contents_with_status session "running") in E3.
  split; [exact E3|]. split.
  - assert (Hst : with_status session st = with_status session "completed").
    { assert (Hid : id s1 = session_id) by exact (get_session_id _ _ _ H).
      rewrite Hid, S in C5. injection C5 as C5. rewrite C5. reflexivity. }
    rewrite Ht in *. split; try assumption. rewrite F7, Hst. reflexivity.
  - cbv zeta. split; [exact E4|]. split; [exact E5|].
    rewrite D, C7, E5. reflexivity.
Qed.

End Run.

(** ** The threshold *)

(** What an append that tests the threshold does: when the length of the
    buffer with the new row reaches the batch size, one bulk insert of the
    whole buffer and one commit, and the buffer is left empty; below it the
    database session is untouched and the row stays in the buffer. *)
Definition auto_flush (r : nat) (row : MessageRow) (w w' : World) : Prop :=
  let buf := heap_get (heap w) r ++ [row] in
  if message_batch_size settings <=? Z.of_nat (length buf)
  then db w' = db_flush buf (db w) /\ heap_get (heap w') r = []
  else db w' = db w /\ heap_get (heap w') r = buf.

Lemma pushed_auto_flush (r : nat) (row : MessageRow) (w w' : World) :
  pushed r row w w' -> auto_flush r row w w'.
Proof.
  intros [_ _ _ _ P5 P6]. unfold auto_flush. cbv zeta.
  destruct (message_batch_size settings
            <=? Z.of_nat (length (heap_get (heap w) r ++ [row]))) eqn:E.
  - apply Z.leb_le in E. auto.
  - apply Z.leb_gt in E. auto.
Qed.

(** C2, amended.  An append made by the content callback or by the
    tool-result callback triggers a flush exactly when the length of the
    buffer, the new record included, is at least the configured batch size
    (10 in the default settings).
    The append of the initiating user message tests nothing: the database
    session is untouched whatever the batch size.  A flush of an empty buffer
    is the identity on the world (zero store writes), and a second flush
    after a flush changes nothing. *)
Theorem callback_appends_flush_at_threshold (session : SessionModel)
    (session_id : string) (websocket : option WebSocket) (r : nat) (w : World) :
  (r < length (heap w))%nat ->
  relay_fails websocket w = false ->
  (forall kv, exists t,
      auto_flush r (mkRow session_id (JDict kv) t) w
        (snd (output_callback settings session_id websocket r (JDict kv) w)))
  /\ (forall tool_result tool_id, exists t,
        auto_flush r
          (mkRow session_id (JDict (content_data session tool_result tool_id)) t) w
          (snd (tool_output_callback settings session session_id websocket r
                  tool_result tool_id w)))
  /\ (forall message,
        db (engine_entry session_id message r w) = db w
        /\ heap_get (heap (engine_entry session_id message r w)) r
           = heap_get (heap w) r ++ [mkRow session_id (user_content message) (now w)])
  /\ (heap_get (heap w) r = [] -> flush_messages r w = (inr tt, w))
  /\ flush_messages r (snd (flush_messages r w)) = (inr tt, snd (flush_messages r w))
  /\ message_batch_size default_settings = 10.
Proof.
  intros Hr Hrel. split; [|split; [|split; [|split; [|split; [|reflexivity]]]]].
  - intros kv. pose proof (output_callback_dict session_id websocket r kv w Hr) as H.
    cbv zeta in H. rewrite Hrel in H. destruct H as [_ [t H]].
    exists t. apply pushed_auto_flush. exact H.
  - intros tr tid.
    pose proof (tool_output_callback_spec session session_id websocket r tr tid w Hr) as H.
    cbv zeta in H. rewrite Hrel in H. destruct H as [_ [t H]].
    exists t. apply pushed_auto_flush. exact H.
  - intros message. unfold engine_entry. simpl. split; [reflexivity|].
    apply heap_get_insert. exact Hr.
  - apply flush_messages_empty.
  - apply flush_messages_empty.
    destruct (heap_get (heap w) r) as [|x l] eqn:E.
    + rewrite flush_messages_empty by exact E. exact E.
    + rewrite flush_messages_nonempty by (rewrite E; discriminate). simpl.
      apply heap_get_insert. exact Hr.
Qed.

(** ** Ten content events with batch size ten *)

Definition content_events (kvs : list (list (string * json))) : list Step :=
  map (fun kv => EmitContent (JDict kv)) kvs.

Lemma content_events_contents (session : SessionModel) (kvs : list (list (string * json))) :
  script_contents session (content_events kvs) = map JDict kvs.
Proof.
  unfold script_contents, content_events.
  induction kvs as [|kv kvs IH]; [reflexivity|]. simpl. rewrite IH. reflexivity.
Qed.

Lemma content_events_emits_only (kvs : list (list (string * json))) :
  emits_only (content_events kvs) = true.
Proof. induction kvs as [|kv kvs IH]; [reflexivity|]. simpl. exact IH. Qed.

(** C8, amended.  With batch size 10, a run whose engine emits exactly ten
    content events and returns makes exactly one bulk insert before the
    engine returns: it holds the record of the initiating user message
    followed by the first nine events.  The tenth event is then alone in the
    buffer, and the terminal flush inserts it: one more bulk insert, of one
    record.  The run returns normally with status [completed] and the eleven
    records committed in order. *)
Theorem ten_events_two_bulk_inserts (session_id message : string)
    (websocket : option WebSocket) (api_key : option string)
    (session : SessionModel) (kvs : list (list (string * json))) (w : World) :
  message_batch_size settings = 10 ->
  length kvs = 10%nat ->
  fst (get_session session_id w) = inr (Some session) ->
  has_credential api_key = true ->
  db_txn_rows (db w) = [] ->
  relay_fails websocket w = false ->
  let engine := mkEngine (content_events kvs) Returns in
  let res := run_agent settings session_id message websocket api_key engine w in
  fst res = inr tt
  /\ exists first final,
      db_bulk_calls (db (engine_exit session_id message websocket engine session w))
      = db_bulk_calls (db w) ++ [first]
      /\ map row_content first = user_content message :: map JDict (take 9 kvs)
      /\ heap_get (heap (engine_exit session_id message websocket engine session w))
           (length (heap w)) = final
      /\ db_bulk_calls (db (snd res)) = db_bulk_calls (db w) ++ [first; final]
      /\ map row_content final = map JDict (drop 9 kvs)
      /\ length final = 1%nat
      /\ db_messages (db (snd res)) = db_messages (db w) ++ first ++ final
      /\ db_sessions (db (snd res)) !! session_id = Some (with_status session "completed").
Proof.
  intros HB Hlen H K Htxn Hrel. cbv zeta.
  destruct (run_agent_returns session_id message websocket api_key
              (mkEngine (content_events kvs) Returns) session w H K Htxn Hrel
              (content_events_emits_only kvs) eq_refl)
    as (R1 & t & rows & R2 & F & R3).
  cbv zeta in R1, R3. split; [exact R1|].
  simpl script in R2. rewrite content_events_contents in R2.
  rewrite HB in R3.
  assert (Hrows : length rows = 10%nat).
  { rewrite <- (length_map row_content), R2, length_map. exact Hlen. }
  do 11 (destruct rows as [|? rows]; try discriminate Hrows).
  do 11 (destruct kvs as [|? kvs]; try discriminate Hlen).
  cbn [content_events map] in R3 |- *.
  simpl in R3. destruct R3 as (E1 & E2 & E3).
  injection R2 as Q0 Q1 Q2 Q3 Q4 Q5 Q6 Q7 Q8 Q9.
  eexists. eexists.
  split; [exact E1|]. split; [simpl; congruence|]. split; [exact E2|].
  split; [rewrite E3, E1, <- app_assoc; reflexivity|].
  split; [simpl; congruence|]. split; [reflexivity|].
  destruct F as [F1 _ _ _ _ _ F7 _]. split; [exact F1|exact F7].
Qed.

(** ** The registry and the early exits *)

(** A run that enters its [try] statement leaves no registry entry for its
    session, however it ends. *)
Lemma run_agent_deregisters (session_id message : string) (websocket : option WebSocket)
    (api_key : option string) (engine : Engine) (session : SessionModel) (w : World) :
  fst (get_session session_id w) = inr (Some session) ->
  has_credential api_key = true ->
  db_txn_rows (db w) = [] ->
  active_sessions (snd (run_agent settings session_id message websocket api_key engine w))
    !! session_id = None.
Proof.
  intros H K Htxn.
  destruct (run_agent_running_spec session_id message websocket api_key engine
              session w H K Htxn) as (_ & st & t & rest & F & _).
  cbv zeta in F. rewrite (fin_registry _ _ _ _ _ _ F). apply lookup_delete_eq.
Qed.

(** C6, amended.  [run_agent] for a session id that is not in the store
    returns normally and leaves the world as it was: no store mutation, no
    registry entry added.  [start_agent_task], which spawns the run, does not
    look at the store: it performs no store mutation and registers an entry
    for the id, for a missing session as for any other. *)
Theorem run_agent_missing_session_no_change (session_id message : string)
    (websocket : option WebSocket) (api_key : option string) (engine : Engine)
    (w : World) :
  fst (get_session session_id w) = inr None ->
  run_agent settings session_id message websocket api_key engine w = (inr tt, w)
  /\ db (snd (start_agent_task session_id w)) = db w
  /\ is_some (active_sessions (snd (start_agent_task session_id w)) !! session_id) = true.
Proof.
  intros H. split; [apply run_agent_missing_session; exact H|].
  unfold start_agent_task, create_task, new_list. simpl.
  split; [reflexivity|]. rewrite lookup_insert_eq. reflexivity.
Qed.

(** ** Screenshots *)




End RunProperties.

(** ** Creating a session *)

(** The identifier the next call of [uuid.uuid4()] returns. *)
Definition next_uuid (w : World) : string := uuid_source w (uuid_calls w).

(** With an identifier not yet in the sessions table, [create_session]
    returns the row it committed. *)
Lemma create_session_fresh (session_data : option SessionCreate) (w : World) :
  db_sessions (db w) !! next_uuid w = None ->
  let s := mkSession (next_uuid w) (Some (now w)) "active"
             (match session_data with Some d => sc_store_screenshots d | None => false end)
             (match session_data with Some d => sc_screenshot_scale d | None => Some 2 end)
             (match session_data with Some d => sc_screenshot_quality d | None => Some 70 end) in
  exists w',
    create_session session_data w = (inr s, w')
    /\ db_sessions (db w') !! next_uuid w = Some s
    /\ uuid_calls w' = S (uuid_calls w).
Proof.
  intros Hfresh. cbv zeta. unfold create_session, uuid4.
  unfold bind at 1. cbv beta iota. fold (next_uuid w).
  unfold db_add. rewrite bind_bind, bind_gets. simpl id.
  change (db (set_uuid_calls (S (uuid_calls w)) w)) with (db w).
  rewrite Hfresh. cbn [bool_decide]. rewrite bool_decide_eq_false_2 by (intros [x Hx]; discriminate).
  rewrite bind_bind, bind_utcnow, !bind_modify.
  unfold db_commit. rewrite bind_modify. unfold db_refresh. rewrite bind_gets.
  simpl. erewrite lookup_union_Some_l by apply lookup_insert_eq.
  eexists. split; [reflexivity|]. simpl.
  split; [|reflexivity].
  apply lookup_union_Some_l. apply lookup_insert_eq.
Qed.


(** C9, amended.  The request schema accepts an integer scale from 1 to 8
    and an integer quality from 10 to 100: for every creation request with
    such values (and an identifier not yet in the store) the creation succeeds
    and the session committed holds those values. *)
Theorem create_session_accepts_policy (store : bool) (scale quality : Z) (w : World) :
  1 <= scale <= 8 ->
  10 <= quality <= 100 ->
  db_sessions (db w) !! next_uuid w = None ->
  exists s w',
    create_session_endpoint (Some (mkBody (Given store) (Given scale) (Given quality))) w
    = (inr s, w')
    /\ store_screenshots s = store
    /\ screenshot_scale s = Some scale
    /\ screenshot_quality s = Some quality
    /\ status s = "active"
    /\ db_sessions (db w') !! id s = Some s.
Proof.
  intros Hs Hq Hfresh. unfold create_session_endpoint, validate_SessionCreate. simpl.
  replace (1 <=? scale) with true by (symmetry; apply Z.leb_le; lia).
  replace (scale <=? 8) with true by (symmetry; apply Z.leb_le; lia).
  replace (10 <=? quality) with true by (symmetry; apply Z.leb_le; lia).
  replace (quality <=? 100) with true by (symmetry; apply Z.leb_le; lia).
  simpl.
  destruct (create_session_fresh (Some (mkSessionCreate store (Some scale) (Some quality)))
              w Hfresh) as (w' & H1 & H2 & H3).
  eexists. exists w'. split; [exact H1|]. simpl. auto 6.
Qed.

(** * Concrete runs *)

(** A stand-in for Pillow: every payload opens as an RGBA image of 200 by
    100, a resize to a positive size keeps the pixels, and a JPEG is the
    pixels behind a tag. *)
Definition stub_resize (im : Image) (sz : Z * Z) : option Image :=
  if (0 <? fst sz) && (0 <? snd sz) then Some (mkImage sz (im_mode im) (im_pixels im))
  else None.

Lemma stub_resize_size (im : Image) (sz : Z * Z) (im' : Image) :
  stub_resize im sz = Some im' -> im_size im' = sz.
Proof.
  unfold stub_resize. destruct ((0 <? fst sz) && (0 <? snd sz)); [|discriminate].
  intros H. injection H as <-. reflexivity.
Qed.

#[local] Instance stub_pillow : Pillow := {|
  pil_importable := true;
  b64decode := fun s => Some s;
  b64encode := fun s => s;
  Image_open := fun data => Some (mkImage (200, 100) "RGBA" data);
  Image_resize := stub_resize;
  Image_convert := fun im m => mkImage (im_size im) m (im_pixels im);
  Image_save_jpeg := fun im q => Some (String.append "jpeg:" (im_pixels im));
  Image_resize_size := stub_resize_size;
  Image_convert_size := fun _ _ => eq_refl;
|}.

Definition demo_session : SessionModel :=
  mkSession "s1" (Some 0%nat) "active" true (Some 2) (Some 70).

Definition demo_db : Db := mkDb {["s1" := demo_session]} [] ∅ [] [] 0.

(** One session in the store, nothing registered, no list allocated, the
    client connected. *)
Definition demo_world : World :=
  mkWorld demo_db ∅ [] [] false 0 0 [] (fun _ => "6f1c2a9e-0000-4000-8000-000000000001") 0 [].

Definition demo_content (n : Z) : json :=
  JDict [("type", JStr "text"); ("text", JStr "step"); ("n", JInt n)].

Definition demo_kvs : list (list (string * json)) :=
  map (fun n => [("type", JStr "text"); ("text", JStr "step"); ("n", JInt n)])
      [1; 2; 3; 4; 5; 6; 7; 8; 9; 10].

Definition demo_tool_result : ToolResult :=
  mkToolResult (Some "done") None (Some "cGl4ZWxz") None.

(** Ten content events, then the engine returns. *)
Definition ten_events : Engine := mkEngine (content_events demo_kvs) Returns.

(** Three events, then the cancellation signal. *)
Definition three_then_cancel : Engine :=
  mkEngine [EmitContent (demo_content 1);
            EmitToolResult demo_tool_result "toolu_01";
            EmitContent (demo_content 2)] Cancelled.

Definition key_settings (batch : Z) : Settings := mkSettings (Some "sk-test") batch.

(** ** C1 *)

Lemma run_agent_commits_in_append_order_witness :
  db_txn_rows (db demo_world) = []
  /\ exists log,
      db_messages (db (snd (run_agent (key_settings 2) "s1" "hi" (Some ClientSocket) None
                              three_then_cancel demo_world)))
      = db_messages (db demo_world) ++ log
      /\ length log = 4%nat.
Proof.
  split; [reflexivity|].
  destruct (run_agent_commits_in_append_order (key_settings 2) "s1" "hi"
              (Some ClientSocket) None three_then_cancel demo_world eq_refl)
    as (log & batches & H1 & H2 & _).
  exists log. split; [exact H2|].
  apply (f_equal (@length MessageRow)) in H1. rewrite length_app in H1.
  assert (E : length (append_trace
                        (snd (run_agent (key_settings 2) "s1" "hi" (Some ClientSocket) None
                                three_then_cancel demo_world))) = 4%nat)
    by (vm_compute; reflexivity).
  rewrite E in H1. simpl in H1. symmetry. exact H1.
Defined.

(** ** C3 *)


(** ** C2 *)

(** The world in which the run of the demo session enters its [try]. *)
Definition demo_entry : World := run_agent_entry demo_session "s1" demo_world.

(** C2, as stated, fails.  With batch size 1 the append of the initiating
    user message brings the buffer to the threshold, and no flush follows:
    the database session is as before, so the append is not an
    [auto_flush]. *)
Lemma initial_append_reaches_threshold_without_flush :
  let w' := engine_entry "s1" "hi" 0 demo_entry in
  Z.of_nat (length (heap_get (heap w') 0)) = message_batch_size (key_settings 1)
  /\ db w' = db demo_entry
  /\ ~ auto_flush (key_settings 1) 0 (mkRow "s1" (user_content "hi") (now demo_entry))
         demo_entry w'.
Proof.
  cbv zeta. split; [reflexivity|]. split; [reflexivity|].
  unfold auto_flush. intros H. vm_compute in H. destruct H as [H _].
  apply (f_equal db_commits) in H. discriminate H.
Qed.

Lemma callback_appends_flush_at_threshold_witness :
  (0 < length (heap demo_entry))%nat
  /\ relay_fails (Some ClientSocket) demo_entry = false
  /\ exists t,
      auto_flush (key_settings 1) 0 (mkRow "s1" (demo_content 1) t) demo_entry
        (snd (output_callback (key_settings 1) "s1" (Some ClientSocket) 0
                (demo_content 1) demo_entry)).
Proof.
  assert (Hr : (0 < length (heap demo_entry))%nat) by (vm_compute; lia).
  split; [exact Hr|]. split; [reflexivity|].
  destruct (callback_appends_flush_at_threshold (key_settings 1) demo_session "s1"
              (Some ClientSocket) 0 demo_entry Hr eq_refl) as (H & _).
  exact (H [("type", JStr "text"); ("text", JStr "step"); ("n", JInt 1)]).
Defined.

(** ** C8 *)

(** C8, as stated, fails.  Ten content events with batch size 10: when the
    engine returns, one bulk insert has been made and the tenth event waits in
    the buffer; the terminal flush inserts it, so the messages table grows by
    that flush.  The record of the user message heads the first batch. *)
Lemma ten_events_terminal_flush_inserts_one :
  let res := run_agent (key_settings 10) "s1" "hi" None None ten_events demo_world in
  let at_return := engine_exit (key_settings 10) "s1" "hi" None ten_events
                     demo_session demo_world in
  length (db_bulk_calls (db at_return)) = 1%nat
  /\ map row_content (heap_get (heap at_return) 0) = [demo_content 10]
  /\ map (map row_content) (db_bulk_calls (db (snd res)))
     = [user_content "hi" :: map demo_content [1; 2; 3; 4; 5; 6; 7; 8; 9];
        [demo_content 10]]
  /\ db_messages (db (snd res)) <> db_messages (db at_return).
Proof.
  cbv zeta. split; [reflexivity|]. split; [reflexivity|]. split; [reflexivity|].
  intros H. apply (f_equal (@length MessageRow)) in H. vm_compute in H. discriminate H.
Qed.

Lemma ten_events_two_bulk_inserts_witness :
  length demo_kvs = 10%nat
  /\ fst (run_agent (key_settings 10) "s1" "hi" (Some ClientSocket) None
            ten_events demo_world) = inr tt
  /\ length (db_bulk_calls
               (db (snd (run_agent (key_settings 10) "s1" "hi" (Some ClientSocket) None
                           ten_events demo_world)))) = 2%nat.
Proof.
  split; [reflexivity|].
  destruct (ten_events_two_bulk_inserts (key_settings 10) "s1" "hi" (Some ClientSocket)
              None demo_session demo_kvs demo_world
              eq_refl eq_refl eq_refl eq_refl eq_refl eq_refl)
    as (H1 & first & final & _ & _ & _ & H2 & _).
  split; [exact H1|].
  unfold ten_events. rewrite H2. reflexivity.
Defined.

(** ** C6 *)

(** C6, as stated, fails.  Started for an id the store does not have, the
    run returns normally and the store is untouched, but the registry, empty
    before, has an entry for the id as soon as [start_agent_task] has
    returned. *)
Lemma start_on_missing_session_registers :
  let started := start_agent_task "no-such-session" demo_world in
  let res := start_and_await default_settings "no-such-session" "hi" None None
               ten_events demo_world in
  fst (get_session "no-such-session" demo_world) = inr None
  /\ active_sessions demo_world !! "no-such-session" = None
  /\ active_sessions (snd started) !! "no-such-session" = Some (mkEntry 0 0)
  /\ fst res = inr tt
  /\ db (snd res) = db demo_world.
Proof. cbv zeta. repeat split; reflexivity. Qed.

Lemma run_agent_missing_session_no_change_witness :
  fst (get_session "no-such-session" demo_world) = inr None
  /\ run_agent default_settings "no-such-session" "hi" None None ten_events demo_world
     = (inr tt, demo_world).
Proof.
  split; [reflexivity|].
  exact (proj1 (run_agent_missing_session_no_change default_settings "no-such-session"
                  "hi" None None ten_events demo_world eq_refl)).
Defined.

(** ** C4 and C5 *)

(** No credential: neither an override nor a configured key. *)
Definition no_credential_run : (exn + unit) * World :=
  start_and_await default_settings "s1" "hi" (Some ClientSocket) None
    ten_events demo_world.

(** C4.  The run of an existing session started without a credential exits
    with [ValueError], and the run of a missing session returns; in both
    cases the registry entry made by [start_agent_task] is still there after
    the exit.  A run that enters its [try] statement removes it
    ([run_agent_deregisters]). *)
Theorem early_exits_leave_registry_entry :
  fst no_credential_run = inl (ValueError "No Anthropic API key provided")
  /\ active_sessions (snd no_credential_run) !! "s1" = Some (mkEntry 0 0)
  /\ fst (start_and_await default_settings "no-such-session" "hi" None None
            ten_events demo_world) = inr tt
  /\ active_sessions
       (snd (start_and_await default_settings "no-such-session" "hi" None None
               ten_events demo_world)) !! "no-such-session" = Some (mkEntry 0 0).
Proof. repeat split; reflexivity. Qed.

(** C5.  Without a credential the run raises [ValueError] before the engine
    is called (nothing is appended, no frame is sent), and the status it
    leaves committed is [running], not [error]: the exception is raised
    outside the [try] statement whose [except] clause sets [error]. *)
Theorem missing_credential_leaves_running :
  fst no_credential_run = inl (ValueError "No Anthropic API key provided")
  /\ status <$> db_sessions (db (snd no_credential_run)) !! "s1" = Some "running"
  /\ db_txn_sessions (db (snd no_credential_run)) = ∅
  /\ append_trace (snd no_credential_run) = []
  /\ ws_sent (snd no_credential_run) = [].
Proof. repeat split; reflexivity. Qed.

(** ** C7 *)


(** ** C9 and C10 *)

(** C9, as stated, fails.  A scale of 9 is at least 1, and a quality of 5 is
    between 1 and 100: the schema refuses both requests, and no session is
    created. *)
Lemma scale_nine_and_quality_five_refused :
  let scale9 := create_session_endpoint (Some (mkBody (Given true) (Given 9) (Given 70)))
                  demo_world in
  let quality5 := create_session_endpoint (Some (mkBody (Given true) (Given 2) (Given 5)))
                    demo_world in
  1 <= 9 /\ 1 <= 5 <= 100
  /\ fst scale9 = inl (ValidationError "422 Unprocessable Entity")
  /\ snd scale9 = demo_world
  /\ fst quality5 = inl (ValidationError "422 Unprocessable Entity")
  /\ snd quality5 = demo_world.
Proof. cbv zeta. repeat split; try reflexivity; lia. Qed.

Lemma create_session_accepts_policy_witness :
  1 <= 8 <= 8 /\ 10 <= 10 <= 100
  /\ exists s w',
      create_session_endpoint (Some (mkBody (Given true) (Given 8) (Given 10))) demo_world
      = (inr s, w')
      /\ screenshot_scale s = Some 8 /\ screenshot_quality s = Some 10.
Proof.
  assert (H8 : 1 <= 8 <= 8) by lia. assert (H10 : 10 <= 10 <= 100) by lia.
  split; [exact H8|]. split; [exact H10|].
  destruct (create_session_accepts_policy true 8 10 demo_world H8 H10 eq_refl)
    as (s & w' & E & _ & S1 & S2 & _).
  exists s, w'. auto.
Defined.


(** * The other session services and the WebSocket endpoint *)

(** ** services.py: finishing and deleting a session *)

(** [finish_session].  The request has a database session of its own; when
    it runs, the run of the session is suspended in its engine call with
    nothing waiting for a commit, so the database session of the world stands
    for both. *)
Definition finish_session (session_id : string) : M (option SessionModel) :=
  session <- get_session session_id;;
  match session with
  | None => ret None
  | Some session =>
      registered <- gets (fun w => is_some (active_sessions w !! session_id));;
      when registered (cancel_agent_task session_id);;
      session_set_status session "finished";;
      db_commit;;
      session <- db_refresh (with_status session "finished");;
      ret (Some session)
  end.

Definition other_session (session_id : string) (row : MessageRow) : bool :=
  negb (String.eqb (row_session_id row) session_id).

(** [db.query(MessageModel).filter(MessageModel.session_id == session_id).delete()]:
    the DELETE reaches the rows of the table and those inserted in the open
    transaction. *)
Definition db_delete_messages (session_id : string) : M unit :=
  modify (set_db (fun d =>
    mkDb (db_sessions d) (List.filter (other_session session_id) (db_messages d))
         (db_txn_sessions d) (List.filter (other_session session_id) (db_txn_rows d))
         (db_bulk_calls d) (db_commits d))).

(** [db.delete(session)].  SQLAlchemy sends the DELETE at the flush of the
    [db.commit()] that follows at once; it is placed here. *)
Definition db_delete (session : SessionModel) : M unit :=
  modify (set_db (fun d =>
    mkDb (delete (id session) (db_sessions d)) (db_messages d)
         (delete (id session) (db_txn_sessions d)) (db_txn_rows d)
         (db_bulk_calls d) (db_commits d))).

Definition delete_session (session_id : string) : M bool :=
  session <- get_session session_id;;
  match session with
  | None => ret false
  | Some session =>
      registered <- gets (fun w => is_some (active_sessions w !! session_id));;
      when registered (cancel_agent_task session_id);;
      db_delete_messages session_id;;
      db_delete session;;
      db_commit;;
      ret true
  end.

(** ** views.py: the WebSocket endpoint *)

(** The JSON object the client sends first, read with [data.get("message", "")]
    and [data.get("api_key")]: each key is absent or holds a string. *)
Record ClientRequest := mkRequest {
  req_message : option string;
  req_api_key : option string;
}.

(** The error frames of the endpoint carry no timestamp. *)
Definition error_frame (detail : string) : Frame :=
  mkFrame (JStr "error") (JDict [("error", JStr detail)]) None.

(** [await websocket.close()]: nothing can be sent afterwards. *)
Definition websocket_close : M unit := modify (set_ws_closed true).

Section Endpoint.

Context {pil : Pillow}.
Variable settings : Settings.

(** The [try] of [websocket_endpoint].  [incoming] is what
    [await websocket.receive_json()] gives: [None] when the client has
    disconnected instead of sending, which raises [WebSocketDisconnect]. *)
Definition websocket_endpoint_try (session_id : string) (incoming : option ClientRequest)
    (engine : Engine) : M unit :=
  session <- get_session session_id;;
  match session with
  | None =>
      send_json (error_frame "Session not found");;
      websocket_close
  | Some _ =>
      match incoming with
      | None => raise WebSocketDisconnect
      | Some data =>
          let message := default "" (req_message data) in
          if String.eqb message ""
          then send_json (error_frame "No message provided");;
               websocket_close
          else
            let api_key := or_str (req_api_key data) None in
            start_and_await settings session_id message (Some ClientSocket) api_key engine
      end
  end.

(** The [except] clauses of [websocket_endpoint]: [WebSocketDisconnect]
    cancels the agent task; any other [Exception] is reported to the client,
    a failure of that report being swallowed. *)
Definition websocket_endpoint_except (session_id : string) (e : exn) : M unit :=
  match e with
  | WebSocketDisconnect => cancel_agent_task session_id
  | _ => try_except (send_json (error_frame (str_exn e))) (fun _ => true) (fun _ => ret tt)
  end.

(** [websocket_endpoint], after [await websocket.accept()].  [db.close()] in
    the [finally] has no effect on the tables. *)
Definition websocket_endpoint (session_id : string) (incoming : option ClientRequest)
    (engine : Engine) : M unit :=
  try_except (websocket_endpoint_try session_id incoming engine)
    is_Exception
    (websocket_endpoint_except session_id).

End Endpoint.

(** * Properties of the other services *)

(** ** Cancelling *)

(** The rows in the buffer the registry entry of a session refers to. *)
Definition buffered (session_id : string) (w : World) : list MessageRow :=
  match active_sessions w !! session_id with
  | Some e => heap_get (heap w) (entry_buffer e)
  | None => []
  end.

Lemma heap_get_nonempty_lt (h : list (list MessageRow)) (r : nat) :
  heap_get h r <> [] -> (r < length h)%nat.
Proof.
  unfold heap_get. intros H. destruct (h !! r) as [l|] eqn:E.
  - eapply lookup_lt_Some. exact E.
  - contradiction H. reflexivity.
Qed.

(** What a flush does, in one statement for both cases. *)
Lemma flush_messages_effect (r : nat) (w : World) :
  exists w',
    flush_messages r w = (inr tt, w')
    /\ db w' = (if nonempty (heap_get (heap w) r)
                then db_flush (heap_get (heap w) r) (db w) else db w)
    /\ heap_get (heap w') r = []
    /\ length (heap w') = length (heap w)
    /\ active_sessions w' = active_sessions w
    /\ cancel_requested w' = cancel_requested w
    /\ ws_sent w' = ws_sent w
    /\ ws_closed w' = ws_closed w.
Proof.
  destruct (heap_get (heap w) r) as [|x l] eqn:E.
  - exists w. rewrite flush_messages_empty by exact E. simpl. auto 10.
  - assert (Hne : heap_get (heap w) r <> []) by (rewrite E; discriminate).
    rewrite flush_messages_nonempty by exact Hne. eexists. split; [reflexivity|].
    simpl. rewrite E. split; [reflexivity|].
    split; [apply heap_get_insert, heap_get_nonempty_lt, Hne|].
    split; [apply length_insert|]. auto 6.
Qed.

Lemma cancel_agent_task_effect (session_id : string) (w : World) :
  exists w',
    cancel_agent_task session_id w = (inr tt, w')
    /\ db w' = (if nonempty (buffered session_id w)
                then db_flush (buffered session_id w) (db w) else db w)
    /\ buffered session_id w' = []
    /\ active_sessions w' = active_sessions w
    /\ cancel_requested w'
       = cancel_requested w
         ++ match active_sessions w !! session_id with
            | Some e => [entry_task e]
            | None => []
            end
    /\ ws_sent w' = ws_sent w
    /\ ws_closed w' = ws_closed w.
Proof.
  unfold buffered. destruct (active_sessions w !! session_id) as [e|] eqn:E.
  - rewrite (cancel_agent_task_registered _ _ _ E).
    destruct (flush_messages_effect (entry_buffer e)
                (set_cancel_requested (fun l => l ++ [entry_task e]) w))
      as (w' & H1 & H2 & H3 & H4 & H5 & H6 & H7 & H8).
    exists w'. split; [exact H1|]. simpl in *.
    rewrite H5, E. auto 8.
  - rewrite (cancel_agent_task_absent _ _ E). exists w. simpl.
    rewrite E, app_nil_r. auto 8.
Qed.

(** X1.  [cancel_agent_task] never raises.  For a session with no registry
    entry it leaves the world as it is.  For a registered session it asks for
    the cancellation of the registered task, commits the rows of the buffer
    in one bulk insert (none when the buffer is empty), leaves the buffer
    empty, and keeps the registry entry: removing it is left to the run.  A
    second call right after writes nothing to the store. *)
Theorem cancel_agent_task_drains_once (session_id : string) (w : World) :
  let res := cancel_agent_task session_id w in
  let again := cancel_agent_task session_id (snd res) in
  fst res = inr tt
  /\ (active_sessions w !! session_id = None -> snd res = w)
  /\ (forall e, active_sessions w !! session_id = Some e ->
        cancel_requested (snd res) = cancel_requested w ++ [entry_task e]
        /\ heap_get (heap (snd res)) (entry_buffer e) = []
        /\ db (snd res)
           = (if nonempty (heap_get (heap w) (entry_buffer e))
              then db_flush (heap_get (heap w) (entry_buffer e)) (db w)
              else db w))
  /\ active_sessions (snd res) = active_sessions w
  /\ fst again = inr tt
  /\ db (snd again) = db (snd res).
Proof.
  cbv zeta.
  destruct (cancel_agent_task_effect session_id w) as (w1 & H1 & H2 & H3 & H4 & H5 & _).
  rewrite H1. simpl.
  destruct (cancel_agent_task_effect session_id w1) as (w2 & G1 & G2 & _).
  rewrite G1. simpl. rewrite H3 in G2. simpl in G2.
  split; [reflexivity|]. split; [|split; [|auto]].
  - intros E. rewrite (cancel_agent_task_absent _ _ E) in H1. congruence.
  - intros e E. unfold buffered in *. rewrite H4, E in H3. rewrite E in H2, H5. auto.
Qed.

(** ** Finishing and deleting *)

(** The sessions as the database session sees them: the table under the
    attribute writes of the open transaction. *)
Definition visible_sessions (d : Db) : gmap string SessionModel :=
  db_txn_sessions d ∪ db_sessions d.

(** The messages as the database session sees them: the table followed by
    the rows inserted in the open transaction. *)
Definition visible_messages (d : Db) : list MessageRow :=
  db_messages d ++ db_txn_rows d.

Lemma visible_db_flush (rows : list MessageRow) (d : Db) :
  visible_sessions (db_flush rows d) = visible_sessions d
  /\ visible_messages (db_flush rows d) = visible_messages d ++ rows.
Proof.
  unfold visible_sessions, visible_messages, db_flush. simpl. split.
  - apply (left_id_L ∅ (∪)).
  - rewrite app_nil_r, app_assoc. reflexivity.
Qed.

Lemma cancel_agent_task_visible (session_id : string) (w : World) :
  exists w',
    cancel_agent_task session_id w = (inr tt, w')
    /\ visible_sessions (db w') = visible_sessions (db w)
    /\ visible_messages (db w') = visible_messages (db w) ++ buffered session_id w
    /\ buffered session_id w' = []
    /\ active_sessions w' = active_sessions w
    /\ cancel_requested w'
       = cancel_requested w
         ++ match active_sessions w !! session_id with
            | Some e => [entry_task e]
            | None => []
            end
    /\ ws_sent w' = ws_sent w
    /\ ws_closed w' = ws_closed w.
Proof.
  destruct (cancel_agent_task_effect session_id w)
    as (w' & H1 & H2 & H3 & H4 & H5 & H6 & H7).
  exists w'. split; [exact H1|]. rewrite H2.
  destruct (buffered session_id w) as [|x l] eqn:E; simpl.
  - rewrite app_nil_r. auto 8.
  - destruct (visible_db_flush (x :: l) (db w)) as [V1 V2]. rewrite V1, V2. auto 8.
Qed.

(** The drain that opens [finish_session] and [delete_session]. *)
Definition cancel_if_registered (session_id : string) : M unit :=
  registered <- gets (fun w => is_some (active_sessions w !! session_id));;
  when registered (cancel_agent_task session_id).

Lemma cancel_if_registered_visible (session_id : string) (w : World) :
  exists w',
    cancel_if_registered session_id w = (inr tt, w')
    /\ visible_sessions (db w') = visible_sessions (db w)
    /\ visible_messages (db w') = visible_messages (db w) ++ buffered session_id w
    /\ buffered session_id w' = []
    /\ active_sessions w' = active_sessions w
    /\ cancel_requested w'
       = cancel_requested w
         ++ match active_sessions w !! session_id with
            | Some e => [entry_task e]
            | None => []
            end
    /\ ws_sent w' = ws_sent w
    /\ ws_closed w' = ws_closed w.
Proof.
  unfold cancel_if_registered. rewrite bind_gets.
  destruct (active_sessions w !! session_id) as [e|] eqn:E; cbn [is_some when].
  - pose proof (cancel_agent_task_visible session_id w) as H. rewrite E in H. exact H.
  - exists w. unfold buffered. rewrite E, !app_nil_r. simpl. auto 8.
Qed.

Lemma get_session_visible (session_id : string) (session : SessionModel) (w : World) :
  fst (get_session session_id w) = inr (Some session) ->
  visible_sessions (db w) !! session_id = Some session.
Proof.
  unfold get_session, gets, visible_sessions. simpl. intros H. injection H as H.
  destruct (db_sessions (db w) !! session_id) as [row|] eqn:R; [|discriminate H].
  simpl in H.
  destruct (String.eqb (id (default row (db_txn_sessions (db w) !! session_id)))
              session_id); [|discriminate H].
  injection H as <-.
  destruct (db_txn_sessions (db w) !! session_id) as [x|] eqn:T; simpl.
  - apply lookup_union_Some_l. exact T.
  - rewrite lookup_union_r by exact T. exact R.
Qed.

(** X2.  For a session of the store, [finish_session] returns the session
    with the status [finished], committed: the sessions table is the one the
    database session saw, with that row replaced and no other row changed,
    and no attribute write is left waiting, so that [get_session] then
    returns the finished session.  The rows the registered run
    still had in its buffer are committed after what was there, the buffer
    is left empty, and the cancellation of the registered task is requested;
    the registry entry itself is kept. *)
Theorem finish_session_finishes (session_id : string) (session : SessionModel) (w : World) :
  fst (get_session session_id w) = inr (Some session) ->
  exists w',
    finish_session session_id w = (inr (Some (with_status session "finished")), w')
    /\ db_sessions (db w')
       = <[session_id := with_status session "finished"]> (visible_sessions (db w))
    /\ db_txn_sessions (db w') = ∅
    /\ fst (get_session session_id w') = inr (Some (with_status session "finished"))
    /\ db_messages (db w') = visible_messages (db w) ++ buffered session_id w
    /\ db_txn_rows (db w') = []
    /\ buffered session_id w' = []
    /\ active_sessions w' = active_sessions w
    /\ cancel_requested w'
       = cancel_requested w
         ++ match active_sessions w !! session_id with
            | Some e => [entry_task e]
            | None => []
            end.
Proof.
  intros H. pose proof (get_session_id _ _ _ H) as Hid.
  unfold finish_session. unfold get_session in *. rewrite bind_gets.
  simpl in H. injection H as ->.
  destruct (cancel_if_registered_visible session_id w)
    as (w1 & C1 & V1 & V2 & B1 & R1 & Q1 & _).
  rewrite <- (bind_bind (gets (fun w0 => is_some (active_sessions w0 !! session_id)))
                (fun registered => when registered (cancel_agent_task session_id))).
  fold (cancel_if_registered session_id).
  rewrite (bind_inr _ _ _ _ _ C1), bind_persist_status.
  unfold db_refresh. rewrite bind_bind, bind_gets.
  destruct (persist_status_row session "finished" w1) as [P1 P2].
  change (id (with_status session "finished")) with (id session). rewrite P1.
  eexists. split; [reflexivity|].
  unfold persist_status. simpl.
  split; [rewrite Hid, <- V1; unfold visible_sessions; symmetry; apply insert_union_l|].
  split; [reflexivity|].
  split.
  { unfold gets. simpl. rewrite Hid.
    erewrite lookup_union_Some_l by apply lookup_insert_eq.
    rewrite lookup_empty. simpl. rewrite Hid, String.eqb_refl. reflexivity. }
  split; [exact V2|]. split; [reflexivity|].
  split; [exact B1|]. split; [exact R1|exact Q1].
Qed.

(** X3.  For a session of the store, [delete_session] returns [True] and
    commits the removal: the sessions table is the one the database session
    saw without that row, no other row changed; the messages table keeps, in
    their order, the rows of the other sessions and none of this one, the
    rows drained from the buffer of a registered run included.  Afterwards
    [get_session] finds nothing.  The registry entry is kept. *)
Theorem delete_session_deletes (session_id : string) (session : SessionModel) (w : World) :
  fst (get_session session_id w) = inr (Some session) ->
  exists w',
    delete_session session_id w = (inr true, w')
    /\ db_sessions (db w') = delete session_id (visible_sessions (db w))
    /\ db_txn_sessions (db w') = ∅
    /\ db_messages (db w')
       = List.filter (other_session session_id)
           (visible_messages (db w) ++ buffered session_id w)
    /\ Forall (fun row => row_session_id row <> session_id) (db_messages (db w'))
    /\ db_txn_rows (db w') = []
    /\ fst (get_session session_id w') = inr None
    /\ active_sessions w' = active_sessions w.
Proof.
  intros H. pose proof (get_session_id _ _ _ H) as Hid.
  unfold delete_session. unfold get_session in *. rewrite bind_gets.
  simpl in H. injection H as ->.
  destruct (cancel_if_registered_visible session_id w)
    as (w1 & C1 & V1 & V2 & B1 & R1 & _).
  rewrite <- (bind_bind (gets (fun w0 => is_some (active_sessions w0 !! session_id)))
                (fun registered => when registered (cancel_agent_task session_id))).
  fold (cancel_if_registered session_id).
  rewrite (bind_inr _ _ _ _ _ C1).
  unfold db_delete_messages, db_delete, db_commit. rewrite !bind_modify.
  eexists. split; [reflexivity|]. simpl. rewrite Hid.
  assert (Hs : delete session_id (db_txn_sessions (db w1))
               ∪ delete session_id (db_sessions (db w1))
               = delete session_id (visible_sessions (db w))).
  { rewrite <- V1. unfold visible_sessions. symmetry. apply delete_union. }
  assert (Hm : List.filter (other_session session_id) (db_messages (db w1))
               ++ List.filter (other_session session_id) (db_txn_rows (db w1))
               = List.filter (other_session session_id)
                   (visible_messages (db w) ++ buffered session_id w)).
  { rewrite <- V2. unfold visible_messages. symmetry. apply List.filter_app. }
  split; [exact Hs|]. split; [reflexivity|]. split; [exact Hm|].
  split; [|split; [reflexivity|split; [|exact R1]]].
  - rewrite Hm. apply Forall_forall. intros row Hin.
    apply list_elem_of_In, List.filter_In in Hin. destruct Hin as [_ Hin].
    unfold other_session in Hin. intros E. rewrite E, String.eqb_refl in Hin.
    discriminate Hin.
  - unfold get_session, gets. simpl. rewrite Hs, lookup_delete_eq. reflexivity.
Qed.

(** X4.  For an id that is not in the store, [finish_session] returns [None]
    and [delete_session] returns [False], and neither changes the world: a
    run registered under that id is not cancelled and its buffer is not
    drained. *)
Theorem finish_and_delete_missing_session (session_id : string) (w : World) :
  fst (get_session session_id w) = inr None ->
  finish_session session_id w = (inr None, w)
  /\ delete_session session_id w = (inr false, w).
Proof.
  intros H. unfold finish_session, delete_session. unfold get_session in *.
  rewrite !bind_gets. simpl in H. injection H as ->. split; reflexivity.
Qed.

(** ** Creating, then reading *)



(** ** The request schema *)

(** X6.  [SessionCreate] accepts a body exactly when [store_screenshots] is
    not [null], a scale that is given lies between 1 and 8, and a quality
    that is given lies between 10 and 100.  In the validated request a field
    left out has its default ([False], 2, 70), a [null] scale or quality
    stays [None], and a value given is kept. *)
Theorem validate_SessionCreate_exact (b : SessionCreateBody) (d : SessionCreate) :
  validate_SessionCreate b = Some d
  <-> match body_store_screenshots b with
      | Absent => sc_store_screenshots d = false
      | Null => False
      | Given v => sc_store_screenshots d = v
      end
      /\ match body_screenshot_scale b with
         | Absent => sc_screenshot_scale d = Some 2
         | Null => sc_screenshot_scale d = None
         | Given z => 1 <= z <= 8 /\ sc_screenshot_scale d = Some z
         end
      /\ match body_screenshot_quality b with
         | Absent => sc_screenshot_quality d = Some 70
         | Null => sc_screenshot_quality d = None
         | Given z => 10 <= z <= 100 /\ sc_screenshot_quality d = Some z
         end.
Proof.
  destruct b as [st sc q], d as [dst dsc dq].
  unfold validate_SessionCreate, validate_bool, validate_optional_int. simpl.
  destruct st as [| |v]; destruct sc as [| |z]; destruct q as [| |z'];
    repeat match goal with
           | |- context [?a <=? ?b] =>
               destruct (Z.leb_spec a b)
           end; simpl;
    (split; [intros Hv; try discriminate Hv; try (injection Hv as <- <- <-);
             try contradiction; repeat split; auto; lia
            |intros (Hv1 & Hv2 & Hv3);
             repeat match goal with Hc : _ /\ _ |- _ => destruct Hc end;
             try contradiction; try lia; subst; reflexivity]).
Qed.

(** * How a run ends *)

Section RunOutcomes.

Context {pil : Pillow}.
Variable settings : Settings.

Variables (session_id message : string) (websocket : option WebSocket)
          (api_key : option string) (engine : Engine).

(** The outcome of the [try] statement of a run and the status it commits. *)
Lemma protected_exit (session : SessionModel) (r : nat) (w0 w : World) :
  buf_inv session_id r w0 w ->
  let res := protected settings session session_id message websocket r engine w in
  exists st,
    db_sessions (db (snd res)) !! id session = Some (with_status session st)
    /\ (fst res = inr tt /\ (st = "completed" \/ st = "error")
        \/ fst res = inl CancelledError /\ st = "cancelled"
        \/ fst res = inl WebSocketDisconnect /\ st = "error" /\ is_some websocket = true).
Proof.
  intros I. cbv zeta. pose proof (engine_entry_inv session_id message r w0 w I) as I2.
  destruct (engine_call_inv settings session session_id websocket r (outcome engine)
              w0 (script engine) _ I2) as [I3 _].
  fold (the_engine_call settings session session_id websocket r engine) in I3.
  assert (Hrelay : forall w', relay_fails websocket w' = true -> is_some websocket = true).
  { intros w' Hf. unfold relay_fails in Hf. apply andb_prop in Hf. apply Hf. }
  destruct (the_engine_call settings session session_id websocket r engine
              (engine_entry session_id message r w)) as [[e|[]] w3] eqn:He; simpl in I3.
  - rewrite (protected_engine_raises settings session session_id message websocket r
               engine w w3 e He).
    destruct (run_agent_except_spec session_id r session websocket e w0 w3 I3) as [C F].
    cbv zeta in C, F. exists (status_after e). split; [apply C|].
    rewrite F. destruct (is_Exception e) eqn:Ee.
    + unfold status_after. rewrite Ee.
      destruct (relay_fails websocket w3) eqn:Er; [right; right|left]; eauto.
    + unfold status_after. rewrite Ee. right. left. auto.
  - rewrite (protected_engine_returns settings session session_id message websocket r
               engine w w3 He).
    pose proof (completion_spec session session_id websocket r w0 w3 I3) as C.
    cbv zeta in C. destruct (relay_fails websocket w3) eqn:Er; destruct C as [C F].
    + exists "error". split; [apply C|]. right. right. eauto.
    + exists "completed". split; [apply C|]. left. auto.
Qed.

(** X7.  A run that enters its [try] statement never leaves the session
    [running].  It returns normally with the status [completed] or [error]
    committed, or raises [CancelledError] with [cancelled] committed, or,
    only when a connection is attached, raises [WebSocketDisconnect] (the
    report of an error could not be sent) with [error] committed.  No other
    exception leaves the run. *)
Theorem run_agent_exit_status (session : SessionModel) (w : World) :
  fst (get_session session_id w) = inr (Some session) ->
  has_credential settings api_key = true ->
  db_txn_rows (db w) = [] ->
  let res := run_agent settings session_id message websocket api_key engine w in
  exists st,
    db_sessions (db (snd res)) !! session_id = Some (with_status session st)
    /\ db_txn_sessions (db (snd res)) = ∅
    /\ (fst res = inr tt /\ (st = "completed" \/ st = "error")
        \/ fst res = inl CancelledError /\ st = "cancelled"
        \/ fst res = inl WebSocketDisconnect /\ st = "error" /\ is_some websocket = true).
Proof.
  intros H K Htxn.
  destruct (run_agent_running_spec settings session_id message websocket api_key engine
              session w H K Htxn) as (R1 & st & t & rest & F & _ & _ & S & _).
  cbv zeta in R1, S |- *. rewrite R1.
  destruct (protected_exit (with_status session "running") (length (heap w)) w
              (run_agent_entry session session_id w)
              (run_agent_entry_inv session_id session w Htxn)) as (st' & S' & E).
  cbv zeta in S', E.
  assert (Hid : id (with_status session "running") = session_id)
    by exact (get_session_id _ _ _ H).
  rewrite Hid, S in S'. injection S' as S'. subst st'.
  exists st. split; [apply F|]. split; [apply F|exact E].
Qed.

(** X8.  A run touches no registry entry but its own.  When it enters its
    [try] statement (the session exists and a credential is there) the
    registry it leaves is the one it found without the entry of its session;
    when it does not, the registry is as it found it. *)
Theorem run_agent_registry_isolation (w : World) :
  db_txn_rows (db w) = [] ->
  let w' := snd (run_agent settings session_id message websocket api_key engine w) in
  (forall k, k <> session_id -> active_sessions w' !! k = active_sessions w !! k)
  /\ match fst (get_session session_id w) with
     | inr (Some session) =>
         if has_credential settings api_key
         then active_sessions w' = delete session_id (active_sessions w)
         else active_sessions w' = active_sessions w
     | _ => active_sessions w' = active_sessions w
     end.
Proof.
  intros Htxn. cbv zeta.
  destruct (fst (get_session session_id w)) as [e|[session|]] eqn:G.
  - discriminate G.
  - destruct (has_credential settings api_key) eqn:K.
    + destruct (run_agent_running_spec settings session_id message websocket api_key
                  engine session w G K Htxn) as (_ & st & t & rest & F & _).
      cbv zeta in F. pose proof (fin_registry _ _ _ _ _ _ F) as R. rewrite R.
      split; [|reflexivity]. intros k Hk. apply lookup_delete_ne. congruence.
    + rewrite (run_agent_no_credential settings session_id message websocket api_key
                 engine session w G K).
      split; reflexivity.
  - rewrite (run_agent_missing_session settings session_id message websocket api_key
               engine w G).
    split; reflexivity.
Qed.

End RunOutcomes.

(** * The bulk inserts and the last frame of a run *)

(** The status a run commits when every relay succeeds. *)
Definition outcome_status (o : Outcome) : string :=
  match o with
  | Returns => "completed"
  | Fails _ => "error"
  | Cancelled => "cancelled"
  end.

(** What the awaiting task then observes. *)
Definition outcome_exit (o : Outcome) : exn + unit :=
  match o with
  | Cancelled => inl CancelledError
  | _ => inr tt
  end.

(** The frame sent last to an attached connection. *)
Definition closing_frames (o : Outcome) (t : nat) : list Frame :=
  match o with
  | Returns => [mkFrame (JStr "completed") (JDict [("message", JStr "Task completed")])
                  (Some t)]
  | Fails msg => [mkFrame (JStr "error") (JDict [("error", JStr msg)]) (Some t)]
  | Cancelled => []
  end.

Lemma buffer_feed_sizes {X} (B : Z) (xs buf : list X) :
  Z.of_nat (length buf) < B ->
  Forall (fun b => Z.of_nat (length b) = B) (fst (buffer_feed B buf xs))
  /\ Z.of_nat (length (snd (buffer_feed B buf xs))) < B.
Proof.
  revert buf. induction xs as [|x xs IH]; intros buf Hb; simpl.
  - split; [constructor|exact Hb].
  - unfold buffer_append.
    assert (Hl : Z.of_nat (length (buf ++ [x])) = Z.of_nat (length buf) + 1)
      by (rewrite length_app; simpl; lia).
    destruct (B <=? Z.of_nat (length (buf ++ [x]))) eqn:E.
    + apply Z.leb_le in E.
      destruct (IH [] ltac:(simpl; lia)) as [I1 I2].
      destruct (buffer_feed B [] xs) as [bs buf2]. simpl in *.
      split; [constructor; [lia|exact I1]|exact I2].
    + apply Z.leb_gt in E.
      destruct (IH (buf ++ [x]) E) as [I1 I2].
      destruct (buffer_feed B (buf ++ [x]) xs) as [bs buf2]. simpl in *.
      split; [exact I1|exact I2].
Qed.

Lemma emits_only_contents_length {pil : Pillow} (session : SessionModel) (sc : list Step) :
  emits_only sc = true -> length (script_contents session sc) = length sc.
Proof.
  unfold script_contents. induction sc as [|st sc IH]; intros H; [reflexivity|].
  simpl in H. apply andb_prop in H as [Hst H]. simpl. rewrite length_app, (IH H).
  destruct st as [c|tr tid| |]; try discriminate Hst; [|reflexivity].
  destruct c; try discriminate Hst. reflexivity.
Qed.

Section RunEnds.

Context {pil : Pillow}.
Variable settings : Settings.

Variables (session_id message : string) (websocket : option WebSocket)
          (api_key : option string) (engine : Engine).

(** Flush, status, commit, and a frame for the attached connection. *)
Lemma closing_sequence_frames (r : nat) (session : SessionModel) (st : string)
    (f : nat -> Frame) (w : World) :
  relay_fails websocket w = false ->
  let res := (flush_messages r;;
              session_set_status session st;;
              db_commit;;
              when (is_some websocket) (t <- utcnow;; send_json (f t))) w in
  fst res = inr tt
  /\ exists t, ws_sent (snd res) = ws_sent w ++ (if is_some websocket then [f t] else []).
Proof.
  intros Hrel. cbv zeta.
  destruct (flush_messages_effect r w) as (w1 & H1 & _ & _ & _ & _ & _ & H7 & H8).
  rewrite (bind_inr _ _ _ _ _ H1), bind_persist_status.
  unfold relay_fails in Hrel. unfold when.
  destruct websocket as [ws|]; cbn [is_some andb] in *.
  - rewrite bind_utcnow. unfold send_json. simpl. rewrite H8, Hrel. simpl.
    split; [reflexivity|]. eexists. rewrite H7. reflexivity.
  - simpl. split; [reflexivity|]. exists 0%nat. rewrite H7, app_nil_r. reflexivity.
Qed.

(** The [try] statement of a run after an engine call in which every relay
    succeeded. *)
Lemma protected_closing (session : SessionModel) (r : nat) (w0 w w3 : World)
    (res : exn + unit) :
  the_engine_call settings session session_id websocket r engine
    (engine_entry session_id message r w) = (res, w3) ->
  res = outcome_result (outcome engine) ->
  buf_inv session_id r w0 w3 ->
  relay_fails websocket w3 = false ->
  let out := protected settings session session_id message websocket r engine w in
  fst out = outcome_exit (outcome engine)
  /\ closed_with session_id r session (outcome_status (outcome engine)) w0 w3 (snd out)
  /\ exists t,
      ws_sent (snd out)
      = ws_sent w3 ++ (if is_some websocket then closing_frames (outcome engine) t else []).
Proof.
  intros He Hres I3 Hrel. cbv zeta. unfold outcome_result in Hres.
  destruct (outcome engine) as [|msg|] eqn:Ho; subst res.
  - rewrite (protected_engine_returns settings session session_id message websocket r
               engine w w3 He).
    pose proof (completion_spec session session_id websocket r w0 w3 I3) as C.
    cbv zeta in C. rewrite Hrel in C. destruct C as [C1 C2].
    split; [exact C2|]. split; [exact C1|].
    unfold try_except, completion.
    destruct (closing_sequence_frames r session "completed"
                (fun t => mkFrame (JStr "completed")
                            (JDict [("message", JStr "Task completed")]) (Some t))
                w3 Hrel) as [G1 [t G2]].
    cbv zeta in G1, G2.
    match type of G1 with fst (?m w3) = _ =>
      destruct (m w3) as [[e|[]] w4]; simpl in G1, G2 |- *; [discriminate G1|] end.
    exists t. exact G2.
  - rewrite (protected_engine_raises settings session session_id message websocket r
               engine w w3 _ He).
    destruct (run_agent_except_spec session_id r session websocket (EngineError msg)
                w0 w3 I3) as [C1 C2].
    cbv zeta in C1, C2. simpl in C2. rewrite Hrel in C2.
    split; [exact C2|]. split; [exact C1|].
    destruct (closing_sequence_frames r session "error"
                (fun t => mkFrame (JStr "error") (JDict [("error", JStr msg)]) (Some t))
                w3 Hrel) as [_ [t G2]].
    exists t. exact G2.
  - rewrite (protected_engine_raises settings session session_id message websocket r
               engine w w3 _ He).
    destruct (run_agent_except_spec session_id r session websocket CancelledError
                w0 w3 I3) as [C1 C2].
    cbv zeta in C1, C2. simpl in C2.
    split; [exact C2|]. split; [exact C1|].
    exists 0%nat. unfold run_agent_except.
    destruct (flush_messages_effect r w3) as (w4 & H1 & _ & _ & _ & _ & _ & H7 & _).
    rewrite (bind_inr _ _ _ _ _ H1), bind_persist_status. simpl.
    rewrite H7. destruct (is_some websocket); rewrite app_nil_r; reflexivity.
Qed.

Lemma run_agent_ws_sent (session : SessionModel) (w : World) :
  fst (get_session session_id w) = inr (Some session) ->
  has_credential settings api_key = true ->
  ws_sent (snd (run_agent settings session_id message websocket api_key engine w))
  = ws_sent (snd (protected settings (with_status session "running") session_id message
                    websocket (length (heap w)) engine
                    (run_agent_entry session session_id w))).
Proof.
  intros H K.
  rewrite (run_agent_running settings session_id message websocket api_key engine
             session w H K).
  unfold try_finally. destruct (protected _ _ _ _ _ _ _ _) as [res1 w1].
  destruct (run_agent_finally_spec session_id w1) as (w2 & F1 & _ & _ & _ & _ & F6).
  rewrite F1. exact F6.
Qed.

(** A run in which every relay succeeds: its exit, its status, its rows, its
    bulk inserts and its last frame. *)
Lemma run_agent_ends (session : SessionModel) (w : World) :
  fst (get_session session_id w) = inr (Some session) ->
  has_credential settings api_key = true ->
  db_txn_rows (db w) = [] ->
  relay_fails websocket w = false ->
  emits_only (script engine) = true ->
  let res := run_agent settings session_id message websocket api_key engine w in
  let at_exit := engine_exit settings session_id message websocket engine session w in
  fst res = outcome_exit (outcome engine)
  /\ exists t rows,
      map row_content rows = script_contents session (script engine)
      /\ finished session_id session (outcome_status (outcome engine))
           (mkRow session_id (user_content message) t :: rows) w (snd res)
      /\ (let fed := buffer_feed (message_batch_size settings)
                       [mkRow session_id (user_content message) t] rows in
          db_bulk_calls (db at_exit) = db_bulk_calls (db w) ++ fst fed
          /\ db_bulk_calls (db (snd res))
             = db_bulk_calls (db at_exit) ++ (if nonempty (snd fed) then [snd fed] else []))
      /\ exists t',
          ws_sent (snd res)
          = ws_sent at_exit
            ++ (if is_some websocket then closing_frames (outcome engine) t' else []).
Proof.
  intros H K Htxn Hrel Hs.
  destruct (run_agent_running_spec settings session_id message websocket api_key engine
              session w H K Htxn) as (R1 & st & t & rest & F & _ & _ & S & D & T).
  pose proof (run_agent_ws_sent session w H K) as W.
  cbv zeta in R1, S, D, T |- *. rewrite R1, W. unfold engine_exit.
  set (w1 := run_agent_entry session session_id w) in *.
  set (s1 := with_status session "running") in *.
  set (r := length (heap w)) in *.
  assert (I1 : buf_inv session_id r w w1) by (apply run_agent_entry_inv; exact Htxn).
  assert (I2 : buf_inv session_id r w (engine_entry session_id message r w1))
    by (apply engine_entry_inv; exact I1).
  assert (Hrel2 : relay_fails websocket (engine_entry session_id message r w1) = false).
  { subst w1. unfold relay_fails, run_agent_entry in *.
    destruct (is_some (active_sessions w !! session_id)); exact Hrel. }
  assert (Hbuf : heap_get (heap (engine_entry session_id message r w1)) r
                 = [mkRow session_id (user_content message) (now w1)]).
  { unfold engine_entry. simpl. rewrite heap_get_insert by apply I1.
    replace (heap_get (heap w1) r) with (@nil MessageRow); [reflexivity|].
    subst w1 r. unfold run_agent_entry.
    destruct (is_some (active_sessions w !! session_id)); simpl;
      rewrite heap_get_alloc; reflexivity. }
  assert (Hcalls : db_bulk_calls (db (engine_entry session_id message r w1))
                   = db_bulk_calls (db w)).
  { subst w1. unfold run_agent_entry.
    destruct (is_some (active_sessions w !! session_id)); reflexivity. }
  destruct (engine_call_emits settings s1 session_id websocket r (outcome engine) w
              (script engine) _ I2 Hrel2 Hs) as (E1 & E2 & rows & E3 & E4 & E5).
  destruct (engine_call_inv settings s1 session_id websocket r (outcome engine) w
              (script engine) _ I2) as [I3 _].
  fold (the_engine_call settings s1 session_id websocket r engine) in E1, E2, E4, E5, I3.
  rewrite Hbuf in E4, E5. rewrite Hcalls in E4.
  pose proof (buf_inv_trace _ _ _ _ I3) as T3. rewrite E4, drop_app_length, E5 in T3.
  rewrite buffer_feed_concat in T3.
  destruct (the_engine_call settings s1 session_id websocket r engine
              (engine_entry session_id message r w1)) as [res3 w3] eqn:Hcall.
  cbn [fst snd] in E1, E2, E4, E5, I3, T3 |- *.
  destruct (protected_closing s1 r w w1 w3 res3 Hcall E1 I3 E2)
    as (P1 & [C1 C2 C3 C4 C5 C6 C7] & t' & P3).
  cbv zeta in P1, C1, C2, C3, C4, C5, C6, C7, P3.
  split; [exact P1|].
  destruct F as [F1 F2 F3 F4 F5 F6 F7 F8].
  pose proof F4 as F4'.
  rewrite T, C4, T3 in F4'. apply app_inv_head in F4'. simpl in F4'.
  injection F4' as Ht Hrows. subst rest.
  exists (now w1), rows. rewrite (script_contents_with_status session "running") in E3.
  split; [exact E3|]. split; [|split].
  - assert (Hst : with_status session st
                  = with_status session (outcome_status (outcome engine))).
    { assert (Hid : id s1 = session_id) by exact (get_session_id _ _ _ H).
      rewrite Hid, S in C5. injection C5 as C5. rewrite C5. reflexivity. }
    rewrite Ht in *. split; try assumption. rewrite F7, Hst. reflexivity.
  - cbv zeta. split; [exact E4|]. rewrite D, C7, E5. reflexivity.
  - exists t'. exact P3.
Qed.

End RunEnds.

(** * What a run and the endpoint leave alone *)

(** ** Relations kept by every step of a computation *)

Section Preserves.

Context (R : World -> World -> Prop) `{!PreOrder R}.

(** Every exit of [m], normal or by an exception, leaves a world related to
    the one it started in. *)
Definition preserves {A} (m : M A) : Prop := forall w, R w (snd (m w)).

Lemma preserves_ret {A} (a : A) : preserves (ret a).
Proof. intros w. reflexivity. Qed.

Lemma preserves_raise {A} (e : exn) : preserves (@raise A e).
Proof. intros w. reflexivity. Qed.

Lemma preserves_gets {A} (f : World -> A) : preserves (gets f).
Proof. intros w. reflexivity. Qed.

Lemma preserves_modify (f : World -> World) :
  (forall w, R w (f w)) -> preserves (modify f).
Proof. intros H w. apply H. Qed.

Lemma preserves_bind {A B} (m : M A) (k : A -> M B) :
  preserves m -> (forall a, preserves (k a)) -> preserves (bind m k).
Proof.
  intros Hm Hk w. unfold bind. specialize (Hm w).
  destruct (m w) as [[e|a] w1]; simpl in *; [exact Hm|].
  etrans; [exact Hm|apply Hk].
Qed.

Lemma preserves_when (c : bool) (body : M unit) :
  (c = true -> preserves body) -> preserves (when c body).
Proof.
  intros H. destruct c; simpl; [apply H; reflexivity|apply preserves_ret].
Qed.

Lemma preserves_try_except {A} (body : M A) (catches : exn -> bool) (handler : exn -> M A) :
  preserves body -> (forall e, preserves (handler e)) ->
  preserves (try_except body catches handler).
Proof.
  intros Hb Hh w. unfold try_except. specialize (Hb w).
  destruct (body w) as [[e|a] w1]; simpl in *; [|exact Hb].
  destruct (catches e); simpl; [|exact Hb].
  etrans; [exact Hb|apply Hh].
Qed.

Lemma preserves_try_finally {A} (body : M A) (cleanup : M unit) :
  preserves body -> preserves cleanup -> preserves (try_finally body cleanup).
Proof.
  intros Hb Hc w. unfold try_finally. specialize (Hb w).
  destruct (body w) as [res w1]. specialize (Hc w1). simpl in Hb.
  destruct (cleanup w1) as [[e|[]] w2]; simpl in *; (etrans; [exact Hb|exact Hc]).
Qed.

End Preserves.

(** ** What concerns the other sessions and the client *)

(** [w'] comes after [w] in the life of the session [session_id], served over
    [websocket]: frames are only added, none once the client has gone and
    none without a connection; what the database session sees of the other
    sessions, and their registry entries, are the same; no message row is
    removed or changed. *)
Record kept (session_id : string) (websocket : option WebSocket) (w w' : World) : Prop := {
  kept_sent : exists frames, ws_sent w' = ws_sent w ++ frames;
  kept_closed : ws_closed w = true -> ws_closed w' = true /\ ws_sent w' = ws_sent w;
  kept_quiet : websocket = None -> ws_sent w' = ws_sent w;
  kept_sessions : forall k, k <> session_id ->
      visible_sessions (db w') !! k = visible_sessions (db w) !! k;
  kept_registry : forall k, k <> session_id ->
      active_sessions w' !! k = active_sessions w !! k;
  kept_messages : exists rows, visible_messages (db w') = visible_messages (db w) ++ rows;
}.

#[local] Instance kept_preorder (session_id : string) (websocket : option WebSocket) :
  PreOrder (kept session_id websocket).
Proof.
  split.
  - intros w. split; auto.
    + exists []. symmetry. apply app_nil_r.
    + exists []. symmetry. apply app_nil_r.
  - intros w1 w2 w3 [[f1 A1] A2 A3 A4 A5 [r1 A6]] [[f2 B1] B2 B3 B4 B5 [r2 B6]].
    split.
    + exists (f1 ++ f2). rewrite B1, A1, app_assoc. reflexivity.
    + intros H. destruct (A2 H) as [H2 E2]. destruct (B2 H2) as [H3 E3].
      split; [exact H3|congruence].
    + intros H. rewrite (B3 H). apply A3, H.
    + intros k Hk. rewrite (B4 k Hk). apply A4, Hk.
    + intros k Hk. rewrite (B5 k Hk). apply A5, Hk.
    + exists (r1 ++ r2). rewrite B6, A6, app_assoc. reflexivity.
Qed.

Lemma kept_same (session_id : string) (websocket : option WebSocket) (w w' : World) :
  db w' = db w -> ws_sent w' = ws_sent w -> ws_closed w' = ws_closed w ->
  active_sessions w' = active_sessions w ->
  kept session_id websocket w w'.
Proof.
  intros Hd Hs Hc Hr. split.
  - exists []. rewrite Hs. symmetry. apply app_nil_r.
  - intros H. rewrite Hc, Hs. auto.
  - intros _. exact Hs.
  - intros k _. rewrite Hd. reflexivity.
  - intros k _. rewrite Hr. reflexivity.
  - exists []. rewrite Hd. symmetry. apply app_nil_r.
Qed.

Section Keeps.

Context {pil : Pillow}.
Variable settings : Settings.
Variables (session_id : string) (websocket : option WebSocket).

Abbreviation keeps := (preserves (kept session_id websocket)).

Lemma keeps_utcnow : keeps utcnow.
Proof. intros w. apply kept_same; reflexivity. Qed.

Lemma keeps_new_list : keeps new_list.
Proof. intros w. apply kept_same; reflexivity. Qed.

Lemma keeps_create_task : keeps create_task.
Proof. intros w. apply kept_same; reflexivity. Qed.

Lemma keeps_list_append (r : nat) (row : MessageRow) : keeps (list_append r row).
Proof. intros w. apply kept_same; reflexivity. Qed.

Lemma keeps_list_clear (r : nat) : keeps (list_clear r).
Proof. intros w. apply kept_same; reflexivity. Qed.

Lemma keeps_task_cancel (t : nat) : keeps (task_cancel t).
Proof. intros w. apply kept_same; reflexivity. Qed.

Lemma keeps_close : keeps (modify (set_ws_closed true)).
Proof.
  intros w. split; simpl; auto.
  - exists []. symmetry. apply app_nil_r.
  - exists []. symmetry. apply app_nil_r.
Qed.

Lemma keeps_send_json (frame : Frame) : is_some websocket = true -> keeps (send_json frame).
Proof.
  intros Hws w. unfold send_json. destruct (ws_closed w) eqn:Hc; [reflexivity|].
  split; simpl; auto.
  - exists [frame]. reflexivity.
  - rewrite Hc. discriminate.
  - intros ->. discriminate Hws.
  - exists []. symmetry. apply app_nil_r.
Qed.

Lemma keeps_bulk_insert (rows : list MessageRow) : keeps (db_bulk_insert_mappings rows).
Proof.
  intros w. split; simpl; auto.
  - exists []. symmetry. apply app_nil_r.
  - exists rows. unfold visible_messages. simpl. apply app_assoc.
Qed.

Lemma keeps_commit : keeps db_commit.
Proof.
  intros w. split; simpl; auto.
  - exists []. symmetry. apply app_nil_r.
  - intros k _. unfold visible_sessions. simpl. rewrite (left_id_L ∅ (∪)). reflexivity.
  - exists []. unfold visible_messages. simpl. reflexivity.
Qed.

Lemma keeps_set_status (session : SessionModel) (st : string) :
  id session = session_id -> keeps (session_set_status session st).
Proof.
  intros Hid w. split; simpl; auto.
  - exists []. symmetry. apply app_nil_r.
  - intros k Hk. unfold visible_sessions. simpl.
    rewrite !lookup_union, lookup_insert_ne by congruence. reflexivity.
  - exists []. symmetry. apply app_nil_r.
Qed.

Lemma keeps_registry (f : gmap string Entry -> gmap string Entry) :
  (forall m k, k <> session_id -> f m !! k = m !! k) ->
  keeps (modify (set_active_sessions f)).
Proof.
  intros Hf w. split; simpl; auto.
  - exists []. symmetry. apply app_nil_r.
  - exists []. symmetry. apply app_nil_r.
Qed.

Ltac keeps_step :=
  first
    [ apply (preserves_ret (kept session_id websocket)) | apply (preserves_raise (kept session_id websocket)) | apply (preserves_gets (kept session_id websocket))
    | apply keeps_utcnow | apply keeps_new_list | apply keeps_create_task
    | apply keeps_list_append | apply keeps_list_clear | apply keeps_task_cancel
    | apply keeps_close | apply keeps_bulk_insert | apply keeps_commit
    | apply keeps_send_json; assumption
    | apply keeps_set_status; assumption
    | assumption ].

Ltac keeps_seq :=
  repeat first
    [ keeps_step
    | apply (preserves_when (kept session_id websocket)); intros ?
    | apply (preserves_bind (kept session_id websocket)); [|intros ?] ].

Lemma keeps_list_read (r : nat) : keeps (list_read r).
Proof. intros w. reflexivity. Qed.

Lemma keeps_flush_messages (r : nat) : keeps (flush_messages r).
Proof.
  unfold flush_messages, list_read. keeps_seq.
Qed.

Lemma keeps_flush_when_full (r : nat) : keeps (flush_when_full settings r).
Proof.
  unfold flush_when_full, list_read.
  apply (preserves_bind (kept session_id websocket)); [apply (preserves_gets (kept session_id websocket))|intros rows].
  apply (preserves_when (kept session_id websocket)); intros _. apply keeps_flush_messages.
Qed.

Lemma keeps_cancel_agent_task : keeps (cancel_agent_task session_id).
Proof.
  unfold cancel_agent_task.
  apply (preserves_bind (kept session_id websocket)); [apply (preserves_gets (kept session_id websocket))|intros [e|]]; [|apply (preserves_ret (kept session_id websocket))].
  unfold list_read. keeps_seq.
Qed.

Lemma keeps_output_callback (r : nat) (content : json) :
  keeps (output_callback settings session_id websocket r content).
Proof.
  unfold output_callback.
  apply (preserves_bind (kept session_id websocket)).
  - apply (preserves_when (kept session_id websocket)); intros Hws.
    apply (preserves_bind (kept session_id websocket)); [destruct content; keeps_step|intros ty].
    keeps_seq.
  - intros _. destruct content; try apply (preserves_ret (kept session_id websocket)).
    apply (preserves_bind (kept session_id websocket)); [apply keeps_utcnow|intros t].
    apply (preserves_bind (kept session_id websocket)); [apply keeps_list_append|intros _].
    apply keeps_flush_when_full.
Qed.

Lemma keeps_tool_output_callback (session : SessionModel) (r : nat)
    (tool_result : ToolResult) (tool_id : string) :
  keeps (tool_output_callback settings session session_id websocket r tool_result tool_id).
Proof.
  unfold tool_output_callback.
  apply (preserves_bind (kept session_id websocket)); [apply (preserves_when (kept session_id websocket)); intros Hws; keeps_seq|intros _].
  apply (preserves_bind (kept session_id websocket)); [apply keeps_utcnow|intros t].
  apply (preserves_bind (kept session_id websocket)); [apply keeps_list_append|intros _].
  apply keeps_flush_when_full.
Qed.

Lemma keeps_sampling_loop (session : SessionModel) (r : nat) (sc : list Step)
    (o : Outcome) :
  keeps (sampling_loop session_id sc o
           (output_callback settings session_id websocket r)
           (tool_output_callback settings session session_id websocket r)).
Proof.
  induction sc as [|st sc IH]; simpl.
  - destruct o; keeps_step.
  - destruct st as [c|tr tid| |].
    + apply (preserves_bind (kept session_id websocket)); [apply keeps_output_callback|intros _; exact IH].
    + apply (preserves_bind (kept session_id websocket)); [apply keeps_tool_output_callback|intros _; exact IH].
    + apply (preserves_bind (kept session_id websocket)); [apply keeps_close|intros _; exact IH].
    + apply (preserves_bind (kept session_id websocket)); [apply (preserves_gets (kept session_id websocket))|intros registered].
      apply (preserves_bind (kept session_id websocket)); [apply keeps_cancel_agent_task|intros _].
      destruct registered; [apply (preserves_raise (kept session_id websocket))|exact IH].
Qed.

Lemma keeps_closing (session : SessionModel) (r : nat) (st : string) (f : nat -> Frame) :
  id session = session_id ->
  keeps (flush_messages r;;
         session_set_status session st;;
         db_commit;;
         when (is_some websocket) (t <- utcnow;; send_json (f t))).
Proof.
  intros Hid.
  apply (preserves_bind (kept session_id websocket)); [apply keeps_flush_messages|intros _].
  keeps_seq.
Qed.

Lemma keeps_run_agent_try (session : SessionModel) (message : string) (r : nat)
    (engine : Engine) :
  id session = session_id ->
  keeps (run_agent_try settings session session_id message websocket r engine).
Proof.
  intros Hid. unfold run_agent_try.
  apply (preserves_bind (kept session_id websocket)); [apply keeps_utcnow|intros t].
  apply (preserves_bind (kept session_id websocket)); [apply keeps_list_append|intros _].
  apply (preserves_bind (kept session_id websocket)); [apply keeps_sampling_loop|intros _].
  apply keeps_closing. exact Hid.
Qed.

Lemma keeps_run_agent_except (session : SessionModel) (r : nat) (e : exn) :
  id session = session_id ->
  keeps (run_agent_except session websocket r e).
Proof.
  intros Hid. unfold run_agent_except.
  destruct e; try (apply keeps_closing; exact Hid).
  apply (preserves_bind (kept session_id websocket)); [apply keeps_flush_messages|intros _].
  keeps_seq.
Qed.

Lemma keeps_run_agent_finally : keeps (run_agent_finally session_id).
Proof.
  unfold run_agent_finally.
  apply (preserves_bind (kept session_id websocket)); [apply (preserves_gets (kept session_id websocket))|intros registered].
  apply (preserves_when (kept session_id websocket)); intros _. apply keeps_registry.
  intros m k Hk. apply lookup_delete_ne. congruence.
Qed.

Lemma keeps_after_get_session {A} (k : option SessionModel -> M A) :
  (forall session, id session = session_id -> keeps (k (Some session))) ->
  keeps (k None) ->
  keeps (bind (get_session session_id) k).
Proof.
  intros Hs Hn w. unfold get_session, bind, gets.
  destruct (db_sessions (db w) !! session_id) as [row|]; [|apply Hn].
  destruct (String.eqb_spec (id (default row (db_txn_sessions (db w) !! session_id)))
              session_id) as [E|E]; [apply Hs; exact E|apply Hn].
Qed.

Lemma keeps_run_agent (message : string) (api_key : option string) (engine : Engine) :
  keeps (run_agent settings session_id message websocket api_key engine).
Proof.
  unfold run_agent. apply keeps_after_get_session; [intros session Hid|apply (preserves_ret (kept session_id websocket))].
  apply (preserves_bind (kept session_id websocket)); [apply keeps_set_status; exact Hid|intros _].
  apply (preserves_bind (kept session_id websocket)); [apply keeps_commit|intros _].
  destruct (negb _); [apply (preserves_raise (kept session_id websocket))|].
  apply (preserves_bind (kept session_id websocket)); [apply keeps_new_list|intros r].
  apply (preserves_bind (kept session_id websocket)); [apply (preserves_gets (kept session_id websocket))|intros registered].
  apply (preserves_bind (kept session_id websocket)).
  { apply (preserves_when (kept session_id websocket)); intros _. apply keeps_registry.
    intros m k Hk. apply lookup_alter_ne. congruence. }
  intros _. apply (preserves_try_finally (kept session_id websocket)); [|apply keeps_run_agent_finally].
  apply (preserves_try_except (kept session_id websocket)).
  - apply keeps_run_agent_try. exact Hid.
  - intros e. apply keeps_run_agent_except. exact Hid.
Qed.

Lemma keeps_start_agent_task : keeps (start_agent_task session_id).
Proof.
  unfold start_agent_task.
  apply (preserves_bind (kept session_id websocket)); [apply keeps_create_task|intros task].
  apply (preserves_bind (kept session_id websocket)); [apply keeps_new_list|intros buffer].
  apply (preserves_bind (kept session_id websocket)); [|intros _; apply (preserves_ret (kept session_id websocket))].
  apply keeps_registry. intros m k Hk. apply lookup_insert_ne. congruence.
Qed.

End Keeps.

(** ** The frames of a run *)

(** The frame the callbacks relay for an event, with the clock reading [t]:
    a content block under its own [type] ([text] when it has none), a tool
    result as its identifier, output and error. *)
Definition step_frames (st : Step) (t : nat) : list Frame :=
  match st with
  | EmitContent (JDict kv) =>
      [mkFrame (dict_get "type" (JStr "text") kv) (JDict kv) (Some t)]
  | EmitToolResult tool_result tool_id =>
      [mkFrame (JStr "tool_result")
         (JDict [("tool_id", JStr tool_id);
                 ("output", json_of_opt_str (output tool_result));
                 ("error", json_of_opt_str (error tool_result))])
         (Some t)]
  | _ => []
  end.

Definition script_frames (sc : list Step) (ts : list nat) : list Frame :=
  concat (zip_with step_frames sc ts).

Section RunFrames.

Context {pil : Pillow}.
Variable settings : Settings.

Variables (session_id : string) (websocket : option WebSocket).

(** Appending a row and testing the threshold sends nothing. *)
Lemma append_and_test_quiet (r : nat) (content : json) (w : World) :
  ws_sent (snd ((t <- utcnow;;
                 list_append r (mkRow session_id content t);;
                 flush_when_full settings r) w))
  = ws_sent w.
Proof.
  assert (K : preserves (kept session_id None)
                (t <- utcnow;;
                 list_append r (mkRow session_id content t);;
                 flush_when_full settings r)).
  { apply (preserves_bind (kept session_id None)); [apply keeps_utcnow|intros t].
    apply (preserves_bind (kept session_id None)); [apply keeps_list_append|intros _].
    apply keeps_flush_when_full. }
  exact (kept_quiet _ _ _ _ (K w) eq_refl).
Qed.

Lemma output_callback_frame (r : nat) (kv : list (string * json)) (w : World) :
  relay_fails websocket w = false ->
  ws_sent (snd (output_callback settings session_id websocket r (JDict kv) w))
  = ws_sent w
    ++ (if is_some websocket then step_frames (EmitContent (JDict kv)) (now w) else []).
Proof.
  unfold relay_fails, output_callback, when.
  destruct websocket as [ws|]; cbn [is_some andb]; intros Hc.
  - rewrite !bind_bind, bind_ret, bind_bind, bind_utcnow.
    rewrite bind_send_json_open by exact Hc.
    rewrite append_and_test_quiet. reflexivity.
  - rewrite bind_ret, append_and_test_quiet, app_nil_r. reflexivity.
Qed.

Lemma tool_output_callback_frame (session : SessionModel) (r : nat)
    (tool_result : ToolResult) (tool_id : string) (w : World) :
  relay_fails websocket w = false ->
  ws_sent (snd (tool_output_callback settings session session_id websocket r
                  tool_result tool_id w))
  = ws_sent w
    ++ (if is_some websocket
        then step_frames (EmitToolResult tool_result tool_id) (now w) else []).
Proof.
  unfold relay_fails, tool_output_callback, when.
  destruct websocket as [ws|]; cbn [is_some andb]; intros Hc.
  - rewrite !bind_bind, bind_utcnow.
    rewrite bind_send_json_open by exact Hc.
    rewrite append_and_test_quiet. reflexivity.
  - rewrite bind_ret, append_and_test_quiet, app_nil_r. reflexivity.
Qed.

(** With every relay succeeding the engine call sends one frame for each
    event, in the order of the events. *)
Lemma engine_call_frames (session : SessionModel) (r : nat) (o : Outcome)
    (w0 : World) (sc : list Step) (w : World) :
  buf_inv session_id r w0 w ->
  relay_fails websocket w = false ->
  emits_only sc = true ->
  exists ts,
    length ts = length sc
    /\ ws_sent (snd (engine_call settings session session_id websocket r o sc w))
       = ws_sent w ++ (if is_some websocket then script_frames sc ts else []).
Proof.
  revert w. induction sc as [|st sc IH]; intros w I Hrel Hs.
  - exists []. split; [reflexivity|]. unfold engine_call. simpl.
    destruct o; simpl; destruct (is_some websocket); rewrite app_nil_r; reflexivity.
  - simpl in Hs. apply andb_prop in Hs as [Hst Hs].
    assert (Hstep : forall (m : M unit),
               fst (m w) = inr tt ->
               buf_inv session_id r w0 (snd (m w)) ->
               ws_closed (snd (m w)) = ws_closed w ->
               ws_sent (snd (m w))
               = ws_sent w ++ (if is_some websocket then step_frames st (now w) else []) ->
               exists ts,
                 length ts = length (st :: sc)
                 /\ ws_sent (snd (bind m (fun _ =>
                               engine_call settings session session_id websocket r o sc) w))
                    = ws_sent w
                      ++ (if is_some websocket then script_frames (st :: sc) ts else [])).
    { intros m H1 H2 H3 H4. unfold bind.
      destruct (m w) as [[e|[]] w1]; simpl in H1, H2, H3, H4; [discriminate H1|].
      assert (Hrel1 : relay_fails websocket w1 = false)
        by (unfold relay_fails in *; rewrite H3; exact Hrel).
      destruct (IH w1 H2 Hrel1 Hs) as (ts & L & E).
      exists (now w :: ts). split; [simpl; rewrite L; reflexivity|].
      rewrite E, H4. unfold script_frames. simpl.
      destruct (is_some websocket); rewrite <- app_assoc; reflexivity. }
    destruct st as [c|tr tid| |]; try discriminate Hst.
    + destruct c; try discriminate Hst.
      pose proof (output_callback_dict settings session_id websocket r kv w
                    (bi_ref _ _ _ _ I)) as D.
      cbv zeta in D. rewrite Hrel in D. destruct D as [D1 _].
      destruct (output_callback_inv settings session_id websocket r (JDict kv) w0 w I)
        as (I1 & _ & C1).
      apply (Hstep _ D1 I1 C1). apply output_callback_frame. exact Hrel.
    + pose proof (tool_output_callback_spec settings session session_id websocket r
                    tr tid w (bi_ref _ _ _ _ I)) as D.
      cbv zeta in D. rewrite Hrel in D. destruct D as [D1 _].
      destruct (tool_output_callback_inv settings session session_id websocket r tr tid
                  w0 w I) as (I1 & _ & C1).
      apply (Hstep _ D1 I1 C1). apply tool_output_callback_frame. exact Hrel.
Qed.

End RunFrames.

Lemma concat_length_uniform {X} (n : Z) (bs : list (list X)) :
  Forall (fun b => Z.of_nat (length b) = n) bs ->
  Z.of_nat (length (concat bs)) = Z.of_nat (length bs) * n.
Proof.
  induction 1 as [|b bs Hb _ IH]; simpl; [lia|].
  rewrite length_app. lia.
Qed.

Section RunLife.

Context {pil : Pillow}.
Variable settings : Settings.

Variables (session_id message : string) (api_key : option string) (engine : Engine).

(** X9.  The sizes of the bulk inserts.  With a batch size [B] of at least 2,
    a run of [n] events in which every relay succeeds makes [(n + 1) / B]
    bulk inserts of exactly [B] rows during the engine call, then at most
    one more at its exit, of fewer than [B] rows and never empty; together
    they hold the [n + 1] rows of the run.  This holds however the engine
    call ends. *)
Theorem run_agent_batch_sizes (websocket : option WebSocket) (session : SessionModel)
    (w : World) :
  fst (get_session session_id w) = inr (Some session) ->
  has_credential settings api_key = true ->
  db_txn_rows (db w) = [] ->
  relay_fails websocket w = false ->
  emits_only (script engine) = true ->
  2 <= message_batch_size settings ->
  let res := run_agent settings session_id message websocket api_key engine w in
  let at_exit := engine_exit settings session_id message websocket engine session w in
  exists full last,
    db_bulk_calls (db at_exit) = db_bulk_calls (db w) ++ full
    /\ db_bulk_calls (db (snd res)) = db_bulk_calls (db w) ++ full ++ last
    /\ Forall (fun b => Z.of_nat (length b) = message_batch_size settings) full
    /\ Z.of_nat (length full)
       = (Z.of_nat (length (script engine)) + 1) / message_batch_size settings
    /\ (last = []
        \/ exists b, last = [b]
                     /\ 0 < Z.of_nat (length b) < message_batch_size settings)
    /\ length (concat (full ++ last)) = S (length (script engine)).
Proof.
  intros H K Htxn Hrel Hs HB.
  destruct (run_agent_ends settings session_id message websocket api_key engine session w
              H K Htxn Hrel Hs) as (_ & t & rows & R1 & _ & (B1 & B2) & _).
  cbv zeta in B1, B2 |- *.
  set (u := mkRow session_id (user_content message) t) in *.
  set (fed := buffer_feed (message_batch_size settings) [u] rows) in *.
  assert (Hu : Z.of_nat (length [u]) < message_batch_size settings) by (simpl; lia).
  destruct (buffer_feed_sizes (message_batch_size settings) rows [u] Hu) as [S1 S2].
  pose proof (buffer_feed_concat (message_batch_size settings) rows [u]) as C.
  fold fed in S1, S2, C.
  assert (Hn : length rows = length (script engine)).
  { rewrite <- (length_map row_content), R1.
    apply emits_only_contents_length. exact Hs. }
  assert (Hlen : Z.of_nat (length (concat (fst fed))) + Z.of_nat (length (snd fed))
                 = Z.of_nat (length (script engine)) + 1).
  { rewrite <- Nat2Z.inj_add, <- length_app, C. simpl. lia. }
  exists (fst fed), (if nonempty (snd fed) then [snd fed] else []).
  split; [exact B1|]. split; [rewrite B2, B1, app_assoc; reflexivity|].
  split; [exact S1|]. split; [|split].
  - rewrite (concat_length_uniform _ _ S1) in Hlen.
    apply (Z.div_unique_pos _ _ _ (Z.of_nat (length (snd fed)))); lia.
  - destruct (snd fed) as [|x l] eqn:E; [left; reflexivity|].
    right. exists (x :: l). split; [reflexivity|]. simpl in *. lia.
  - assert (E : concat (fst fed ++ (if nonempty (snd fed) then [snd fed] else []))
                = concat (fst fed) ++ snd fed).
    { rewrite concat_app. destruct (snd fed); simpl; rewrite ?app_nil_r; reflexivity. }
    rewrite E, C. simpl. rewrite Hn. reflexivity.
Qed.

(** The frames of a run in which every relay succeeds. *)
Lemma run_agent_frames (websocket : option WebSocket) (session : SessionModel)
    (w : World) :
  fst (get_session session_id w) = inr (Some session) ->
  has_credential settings api_key = true ->
  db_txn_rows (db w) = [] ->
  relay_fails websocket w = false ->
  emits_only (script engine) = true ->
  let res := run_agent settings session_id message websocket api_key engine w in
  fst res = outcome_exit (outcome engine)
  /\ db_sessions (db (snd res)) !! session_id
     = Some (with_status session (outcome_status (outcome engine)))
  /\ active_sessions (snd res) = delete session_id (active_sessions w)
  /\ exists ts t',
      length ts = length (script engine)
      /\ ws_sent (snd res)
         = ws_sent w
           ++ (if is_some websocket
               then script_frames (script engine) ts ++ closing_frames (outcome engine) t'
               else []).
Proof.
  intros H K Htxn Hrel Hs.
  destruct (run_agent_ends settings session_id message websocket api_key engine session w
              H K Htxn Hrel Hs) as (E1 & t & rows & _ & F & _ & t' & W).
  cbv zeta in E1, F, W |- *.
  split; [exact E1|]. split; [exact (fin_status _ _ _ _ _ _ F)|].
  split; [exact (fin_registry _ _ _ _ _ _ F)|].
  unfold engine_exit, the_engine_call in W.
  set (w1 := run_agent_entry session session_id w) in *.
  set (r := length (heap w)) in *.
  assert (I1 : buf_inv session_id r w w1) by (apply run_agent_entry_inv; exact Htxn).
  assert (I2 : buf_inv session_id r w (engine_entry session_id message r w1))
    by (apply engine_entry_inv; exact I1).
  assert (Hw : ws_sent (engine_entry session_id message r w1) = ws_sent w
               /\ ws_closed (engine_entry session_id message r w1) = ws_closed w).
  { subst w1. unfold run_agent_entry.
    destruct (is_some (active_sessions w !! session_id)); split; reflexivity. }
  destruct Hw as [Hw1 Hw2].
  assert (Hrel2 : relay_fails websocket (engine_entry session_id message r w1) = false)
    by (unfold relay_fails in *; rewrite Hw2; exact Hrel).
  destruct (engine_call_frames settings session_id websocket
              (with_status session "running") r (outcome engine) w (script engine) _
              I2 Hrel2 Hs) as (ts & L & E).
  exists ts, t'. split; [exact L|].
  rewrite W, E, Hw1. destruct (is_some websocket).
  - rewrite <- app_assoc. reflexivity.
  - rewrite !app_nil_r. reflexivity.
Qed.

(** X10.  What the client of a run is sent.  With a connection attached
    that stays open, a run of events sends one frame for each event, in the
    order of the events: a content block under its own [type], a tool
    result as its identifier, output and error, without the screenshot,
    whatever the policy of the session.  The last frame is [completed]
    when the engine returned and [error] with the text of the failure when
    it failed, and the run then returns normally; on a cancellation no
    closing frame is sent and [CancelledError] leaves the run. *)
Theorem run_agent_relays_each_event (session : SessionModel) (w : World) :
  fst (get_session session_id w) = inr (Some session) ->
  has_credential settings api_key = true ->
  db_txn_rows (db w) = [] ->
  ws_closed w = false ->
  emits_only (script engine) = true ->
  let res := run_agent settings session_id message (Some ClientSocket) api_key engine w in
  fst res = outcome_exit (outcome engine)
  /\ exists ts t',
      length ts = length (script engine)
      /\ ws_sent (snd res)
         = ws_sent w ++ script_frames (script engine) ts
           ++ closing_frames (outcome engine) t'.
Proof.
  intros H K Htxn Hc Hs.
  destruct (run_agent_frames (Some ClientSocket) session w H K Htxn Hc Hs)
    as (E1 & _ & _ & ts & t' & L & W).
  split; [exact E1|]. exists ts, t'. split; [exact L|exact W].
Qed.

(** X11.  A run writes to no session but its own.  Whatever the inputs,
    the script of the engine and the exit, every other session is, for the
    database session, what it was before the run, and no message row is
    removed or changed: the rows seen after the run are those seen before
    it followed by new ones. *)
Theorem run_agent_leaves_other_sessions (websocket : option WebSocket) (w : World) :
  let w' := snd (run_agent settings session_id message websocket api_key engine w) in
  (forall k, k <> session_id ->
     visible_sessions (db w') !! k = visible_sessions (db w) !! k)
  /\ exists rows, visible_messages (db w') = visible_messages (db w) ++ rows.
Proof.
  cbv zeta.
  pose proof (keeps_run_agent settings session_id websocket message api_key engine w) as K.
  split; [exact (kept_sessions _ _ _ _ K)|exact (kept_messages _ _ _ _ K)].
Qed.

(** X12.  A run never takes back a frame: whatever the inputs, the script
    and the exit, the frames the client has after the run are those it had
    followed by new ones.  Once the client has gone nothing more is sent and
    the connection stays closed; a run without a connection sends nothing. *)
Theorem run_agent_frames_only_added (websocket : option WebSocket) (w : World) :
  let w' := snd (run_agent settings session_id message websocket api_key engine w) in
  (exists frames, ws_sent w' = ws_sent w ++ frames)
  /\ (ws_closed w = true -> ws_closed w' = true /\ ws_sent w' = ws_sent w)
  /\ (websocket = None -> ws_sent w' = ws_sent w).
Proof.
  cbv zeta.
  pose proof (keeps_run_agent settings session_id websocket message api_key engine w) as K.
  split; [exact (kept_sent _ _ _ _ K)|].
  split; [exact (kept_closed _ _ _ _ K)|exact (kept_quiet _ _ _ _ K)].
Qed.

End RunLife.

(** ** The WebSocket endpoint *)

Lemma start_agent_task_effect (session_id : string) (w : World) :
  start_agent_task session_id w
  = (inr (tasks w),
     set_active_sessions
       (fun m => <[session_id := mkEntry (tasks w) (length (heap w))]> m)
       (set_heap (fun h => h ++ [[]]) (set_tasks (S (tasks w)) w))).
Proof. reflexivity. Qed.

Section EndpointProperties.

Context {pil : Pillow}.
Variable settings : Settings.

Variables (session_id : string) (engine : Engine).

Lemma keeps_websocket_endpoint (incoming : option ClientRequest) :
  preserves (kept session_id (Some ClientSocket))
    (websocket_endpoint settings session_id incoming engine).
Proof.
  pose (R := kept session_id (Some ClientSocket)).
  assert (Hsend : forall f, preserves R (send_json f))
    by (intros f; apply keeps_send_json; reflexivity).
  unfold websocket_endpoint. apply (preserves_try_except R).
  - unfold websocket_endpoint_try.
    apply keeps_after_get_session.
    + intros session _. destruct incoming as [data|]; [|apply (preserves_raise R)].
      cbv zeta. destruct (String.eqb _ _).
      * apply (preserves_bind R); [apply Hsend|intros _; apply keeps_close].
      * unfold start_and_await.
        apply (preserves_bind R); [apply keeps_start_agent_task|intros _].
        apply keeps_run_agent.
    + apply (preserves_bind R); [apply Hsend|intros _; apply keeps_close].
  - intros e. unfold websocket_endpoint_except.
    destruct e; try apply keeps_cancel_agent_task;
      (apply (preserves_try_except R); [apply Hsend|intros ?; apply (preserves_ret R)]).
Qed.

Lemma websocket_endpoint_except_returns (e : exn) (w : World) :
  fst (websocket_endpoint_except session_id e w) = inr tt.
Proof.
  assert (Hsend : forall f,
             fst (try_except (send_json f) (fun _ => true) (fun _ => ret tt) w) = inr tt).
  { intros f. unfold try_except, send_json. destruct (ws_closed w); reflexivity. }
  unfold websocket_endpoint_except. destruct e; try apply Hsend.
  destruct (cancel_agent_task_effect session_id w) as (w' & E & _). rewrite E. reflexivity.
Qed.

(** X13.  The endpoint contains what goes wrong.  Whatever the request
    and whatever the run does, the endpoint returns normally or is left by
    [CancelledError]: no other exception escapes it.  It touches no session
    and no registry entry but those of its own session, removes no message
    row, and takes back no frame. *)
Theorem websocket_endpoint_contained (incoming : option ClientRequest) (w : World) :
  let res := websocket_endpoint settings session_id incoming engine w in
  (fst res = inr tt \/ fst res = inl CancelledError)
  /\ (forall k, k <> session_id ->
        visible_sessions (db (snd res)) !! k = visible_sessions (db w) !! k
        /\ active_sessions (snd res) !! k = active_sessions w !! k)
  /\ (exists rows, visible_messages (db (snd res)) = visible_messages (db w) ++ rows)
  /\ (exists frames, ws_sent (snd res) = ws_sent w ++ frames).
Proof.
  cbv zeta. pose proof (keeps_websocket_endpoint incoming w) as K.
  split; [|split; [|split]].
  - unfold websocket_endpoint, try_except.
    destruct (websocket_endpoint_try settings session_id incoming engine w)
      as [[e|[]] w1]; [|left; reflexivity].
    destruct e; simpl is_Exception; cbv iota;
      try (left; apply websocket_endpoint_except_returns).
    right. reflexivity.
  - intros k Hk.
    split; [exact (kept_sessions _ _ _ _ K k Hk)|exact (kept_registry _ _ _ _ K k Hk)].
  - exact (kept_messages _ _ _ _ K).
  - exact (kept_sent _ _ _ _ K).
Qed.

(** The two requests the endpoint refuses, with the detail it reports. *)
Definition refused (incoming : option ClientRequest) (w : World) (detail : string) : Prop :=
  fst (get_session session_id w) = inr None /\ detail = "Session not found"
  \/ (exists session data,
        fst (get_session session_id w) = inr (Some session)
        /\ incoming = Some data
        /\ default "" (req_message data) = ""
        /\ detail = "No message provided").

(** X14.  A request for a session that does not exist, or with a message
    that is absent or empty, is refused.  With the client there, the
    endpoint sends one [error] frame with the detail, closes the connection
    and returns; nothing else changes: no task is created, nothing is
    registered, the store is untouched.  With the client already gone the
    refusal cannot be sent, and the endpoint does what [cancel_agent_task]
    does for the session. *)
Theorem websocket_endpoint_refuses (incoming : option ClientRequest) (w : World)
    (detail : string) :
  refused incoming w detail ->
  websocket_endpoint settings session_id incoming engine w
  = if ws_closed w
    then cancel_agent_task session_id w
    else (inr tt, set_ws_closed true (set_ws_sent (fun l => l ++ [error_frame detail]) w)).
Proof.
  assert (Hrefusal : forall d,
             try_except (send_json (error_frame d);; websocket_close) is_Exception
               (websocket_endpoint_except session_id) w
             = if ws_closed w
               then cancel_agent_task session_id w
               else (inr tt,
                     set_ws_closed true
                       (set_ws_sent (fun l => l ++ [error_frame d]) w))).
  { intros d. unfold try_except. destruct (ws_closed w) eqn:Hc.
    - rewrite bind_send_json_closed by exact Hc. reflexivity.
    - rewrite bind_send_json_open by exact Hc. reflexivity. }
  intros [[H ->]|(session & data & H & -> & Hm & ->)];
    unfold websocket_endpoint, websocket_endpoint_try;
    unfold get_session in *; simpl in H; injection H as H.
  - rewrite <- (Hrefusal "Session not found").
    unfold try_except. rewrite bind_gets, H. reflexivity.
  - rewrite <- (Hrefusal "No message provided").
    unfold try_except. rewrite bind_gets, H. cbv zeta. rewrite Hm. reflexivity.
Qed.

(** X15.  The client of an existing session goes away before it has sent
    its request: the endpoint does what [cancel_agent_task] does for the
    session, and returns.  A run of that session registered by another
    connection is thereby asked to stop and its buffer is committed. *)
Theorem websocket_endpoint_client_gone (session : SessionModel) (w : World) :
  fst (get_session session_id w) = inr (Some session) ->
  let res := websocket_endpoint settings session_id None engine w in
  res = cancel_agent_task session_id w
  /\ fst res = inr tt
  /\ buffered session_id (snd res) = []
  /\ visible_messages (db (snd res)) = visible_messages (db w) ++ buffered session_id w
  /\ cancel_requested (snd res)
     = cancel_requested w
       ++ match active_sessions w !! session_id with
          | Some e => [entry_task e]
          | None => []
          end.
Proof.
  intros H. cbv zeta.
  assert (E : websocket_endpoint settings session_id None engine w
              = cancel_agent_task session_id w).
  { unfold websocket_endpoint, websocket_endpoint_try, try_except.
    unfold get_session in *. simpl in H. injection H as H.
    rewrite bind_gets, H. reflexivity. }
  rewrite E.
  destruct (cancel_agent_task_effect session_id w) as (w' & C1 & C2 & C3 & _ & C5 & _).
  rewrite C1. simpl. split; [reflexivity|]. split; [reflexivity|].
  split; [exact C3|]. split; [|exact C5].
  rewrite C2. destruct (buffered session_id w) as [|x l]; simpl nonempty; cbv iota.
  - symmetry. apply app_nil_r.
  - apply visible_db_flush.
Qed.

(** A request that passes the two tests: the run is registered and awaited
    under the [except] clauses of the endpoint. *)
Lemma websocket_endpoint_started (data : ClientRequest) (session : SessionModel)
    (w : World) :
  fst (get_session session_id w) = inr (Some session) ->
  default "" (req_message data) <> "" ->
  websocket_endpoint settings session_id (Some data) engine w
  = try_except
      (run_agent settings session_id (default "" (req_message data)) (Some ClientSocket)
         (or_str (req_api_key data) None) engine)
      is_Exception
      (websocket_endpoint_except session_id)
      (snd (start_agent_task session_id w)).
Proof.
  intros H Hm.
  unfold websocket_endpoint, websocket_endpoint_try, try_except.
  unfold get_session in *. simpl in H. injection H as H.
  rewrite bind_gets, H. cbv zeta.
  apply String.eqb_neq in Hm. rewrite Hm.
  unfold start_and_await.
  rewrite (bind_inr _ _ _ _ _ (start_agent_task_effect session_id w)). reflexivity.
Qed.

(** X16.  A request without a credential, none being configured either.
    The client is told so in one [error] frame and the endpoint returns
    normally, leaving the connection open; the session is left with the
    status [running] committed and the registry keeps the entry made for
    the run, that ran no engine call. *)
Theorem websocket_endpoint_missing_credential (data : ClientRequest)
    (session : SessionModel) (w : World) :
  fst (get_session session_id w) = inr (Some session) ->
  default "" (req_message data) <> "" ->
  has_credential settings (or_str (req_api_key data) None) = false ->
  ws_closed w = false ->
  let res := websocket_endpoint settings session_id (Some data) engine w in
  fst res = inr tt
  /\ ws_sent (snd res) = ws_sent w ++ [error_frame "No Anthropic API key provided"]
  /\ ws_closed (snd res) = false
  /\ db_sessions (db (snd res)) !! session_id = Some (with_status session "running")
  /\ db_txn_sessions (db (snd res)) = ∅
  /\ active_sessions (snd res) !! session_id
     = Some (mkEntry (tasks w) (length (heap w)))
  /\ db_bulk_calls (db (snd res)) = db_bulk_calls (db w).
Proof.
  intros H Hm K Hc. cbv zeta.
  assert (Hid : id session = session_id) by exact (get_session_id _ _ _ H).
  rewrite (websocket_endpoint_started data session w H Hm).
  rewrite start_agent_task_effect. cbn [snd].
  match goal with |- context [try_except _ _ _ ?w1] => set (w1' := w1) end.
  assert (H1 : fst (get_session session_id w1') = inr (Some session)) by exact H.
  unfold try_except.
  rewrite (run_agent_no_credential settings session_id _ _ _ engine session w1' H1 K).
  simpl is_Exception. cbv iota. unfold websocket_endpoint_except, try_except, send_json.
  change (ws_closed (persist_status session "running" w1')) with (ws_closed w).
  rewrite Hc. cbn [fst snd].
  destruct (persist_status_row session "running" w1') as [P1 P2]. rewrite Hid in P1.
  split; [reflexivity|]. split; [reflexivity|]. split; [exact Hc|].
  split; [exact P1|]. split; [exact P2|].
  split; [|reflexivity].
  subst w1'. simpl. apply lookup_insert_eq.
Qed.

(** X17.  A request served.  For an existing session, with a message, a
    credential and a client that stays, the endpoint registers the run and
    awaits it: the client is sent one frame for each event and then the
    closing frame; the endpoint returns normally when the engine returned
    or failed, and is left by [CancelledError] when the run was cancelled;
    the status committed is [completed], [error] or [cancelled], and the
    registry entry of the session is gone. *)
Theorem websocket_endpoint_serves (data : ClientRequest) (session : SessionModel)
    (w : World) :
  fst (get_session session_id w) = inr (Some session) ->
  default "" (req_message data) <> "" ->
  has_credential settings (or_str (req_api_key data) None) = true ->
  db_txn_rows (db w) = [] ->
  ws_closed w = false ->
  emits_only (script engine) = true ->
  let res := websocket_endpoint settings session_id (Some data) engine w in
  fst res = outcome_exit (outcome engine)
  /\ db_sessions (db (snd res)) !! session_id
     = Some (with_status session (outcome_status (outcome engine)))
  /\ active_sessions (snd res) !! session_id = None
  /\ (forall k, k <> session_id -> active_sessions (snd res) !! k = active_sessions w !! k)
  /\ exists ts t',
      length ts = length (script engine)
      /\ ws_sent (snd res)
         = ws_sent w ++ script_frames (script engine) ts
           ++ closing_frames (outcome engine) t'.
Proof.
  intros H Hm K Htxn Hc Hs. cbv zeta.
  rewrite (websocket_endpoint_started data session w H Hm).
  rewrite start_agent_task_effect. cbn [snd].
  match goal with |- context [try_except _ _ _ ?w1] => set (w1' := w1) end.
  assert (H1 : fst (get_session session_id w1') = inr (Some session)) by exact H.
  destruct (run_agent_frames settings session_id (default "" (req_message data))
              (or_str (req_api_key data) None) engine (Some ClientSocket) session w1'
              H1 K Htxn Hc Hs) as (E1 & E2 & E3 & ts & t' & L & W).
  cbv zeta in E1, E2, E3, W. unfold try_except.
  destruct (run_agent settings session_id (default "" (req_message data))
              (Some ClientSocket) (or_str (req_api_key data) None) engine w1')
    as [res w2].
  cbn [fst snd] in E1, E2, E3, W. subst res.
  assert (Hres : forall o,
             (match outcome_exit o with
              | inl e => if is_Exception e
                         then websocket_endpoint_except session_id e w2
                         else (inl e, w2)
              | inr a => (inr a, w2)
              end) = (outcome_exit o, w2)).
  { intros [|msg|]; reflexivity. }
  rewrite Hres. cbn [fst snd].
  split; [reflexivity|]. split; [exact E2|].
  split; [rewrite E3; apply lookup_delete_eq|].
  split.
  - intros k Hk. rewrite E3, lookup_delete_ne by congruence.
    subst w1'. simpl. apply lookup_insert_ne. congruence.
  - exists ts, t'. split; [exact L|exact W].
Qed.

End EndpointProperties.

(** ** The screenshot *)

Section Screenshot.

Context {pil : Pillow}.

(** X18.  [resize_screenshot] gives back the payload it was given, or the
    encoding of a JPEG saved at the quality asked from an image that has the
    size of the decoded one with both sides divided by [scale], rounding
    down, when [scale] exceeds 1, and its very size otherwise. *)
Theorem resize_screenshot_result (base64_image : string) (scale quality : Z) :
  resize_screenshot base64_image scale quality = base64_image
  \/ exists data image saved jpeg,
      b64decode base64_image = Some data
      /\ Image_open data = Some image
      /\ im_size saved
         = (if 1 <? scale
            then (fst (im_size image) / scale, snd (im_size image) / scale)
            else im_size image)
      /\ Image_save_jpeg saved quality = Some jpeg
      /\ resize_screenshot base64_image scale quality = b64encode jpeg.
Proof.
  unfold resize_screenshot, resize_screenshot_try.
  destruct pil_importable; [|left; reflexivity].
  destruct (b64decode base64_image) as [data|] eqn:Ed; [|left; reflexivity]. simpl.
  destruct (Image_open data) as [image|] eqn:Eo; [|left; reflexivity]. simpl.
  assert (Hconv : forall im : Image,
             im_size (if in_modes (im_mode im) then Image_convert im "RGB" else im)
             = im_size im).
  { intros im. destruct (in_modes (im_mode im)); [apply Image_convert_size|reflexivity]. }
  destruct (1 <? scale).
  - destruct (im_size image) as [width height] eqn:Esz.
    destruct (Image_resize image (width / scale, height / scale)) as [resized|] eqn:Er;
      [|left; reflexivity]. simpl.
    destruct (Image_save_jpeg _ quality) as [jpeg|] eqn:Ej; [|left; reflexivity].
    right. eexists data, image, _, jpeg.
    split; [reflexivity|]. split; [exact Eo|]. split; [|split; [exact Ej|reflexivity]].
    rewrite Hconv, Esz. apply (Image_resize_size _ _ _ Er).
  - simpl. destruct (Image_save_jpeg _ quality) as [jpeg|] eqn:Ej; [|left; reflexivity].
    right. eexists data, image, _, jpeg.
    split; [reflexivity|]. split; [exact Eo|]. split; [|split; [exact Ej|reflexivity]].
    apply Hconv.
Qed.

End Screenshot.

(** * The properties above at concrete inputs *)

Definition demo_row : MessageRow := mkRow "s1" (demo_content 1) 0.

(** The demo session with a run registered and one row waiting in its
    buffer. *)
Definition busy_world : World :=
  mkWorld demo_db {["s1" := mkEntry 0 0]} [[demo_row]] [] false 1 1 []
          (fun _ => "6f1c2a9e-0000-4000-8000-000000000001") 0 [demo_row].

(** A request with a message and no key. *)
Definition demo_request : ClientRequest := mkRequest (Some "hi") None.

Lemma finish_session_finishes_witness :
  fst (get_session "s1" busy_world) = inr (Some demo_session)
  /\ exists w',
      finish_session "s1" busy_world = (inr (Some (with_status demo_session "finished")), w')
      /\ db_messages (db w') = [demo_row].
Proof.
  split; [reflexivity|].
  destruct (finish_session_finishes "s1" demo_session busy_world eq_refl)
    as (w' & E & _ & _ & _ & M & _).
  exists w'. split; [exact E|exact M].
Defined.

Lemma delete_session_deletes_witness :
  fst (get_session "s1" busy_world) = inr (Some demo_session)
  /\ exists w',
      delete_session "s1" busy_world = (inr true, w')
      /\ db_messages (db w') = []
      /\ fst (get_session "s1" w') = inr None.
Proof.
  split; [reflexivity|].
  destruct (delete_session_deletes "s1" demo_session busy_world eq_refl)
    as (w' & E & _ & _ & M & _ & _ & G & _).
  exists w'. split; [exact E|]. split; [exact M|exact G].
Defined.

Lemma finish_and_delete_missing_session_witness :
  fst (get_session "no-such-session" busy_world) = inr None
  /\ finish_session "no-such-session" busy_world = (inr None, busy_world)
  /\ delete_session "no-such-session" busy_world = (inr false, busy_world).
Proof.
  split; [reflexivity|].
  exact (finish_and_delete_missing_session "no-such-session" busy_world eq_refl).
Defined.


Lemma run_agent_exit_status_witness :
  fst (get_session "s1" demo_world) = inr (Some demo_session)
  /\ has_credential (key_settings 10) None = true
  /\ db_txn_rows (db demo_world) = []
  /\ exists st,
      db_sessions (db (snd (run_agent (key_settings 10) "s1" "hi" (Some ClientSocket) None
                              three_then_cancel demo_world))) !! "s1"
      = Some (with_status demo_session st).
Proof.
  split; [reflexivity|]. split; [reflexivity|]. split; [reflexivity|].
  destruct (run_agent_exit_status (key_settings 10) "s1" "hi" (Some ClientSocket) None
              three_then_cancel demo_session demo_world eq_refl eq_refl eq_refl)
    as (st & S & _).
  exists st. exact S.
Defined.

Lemma run_agent_registry_isolation_witness :
  db_txn_rows (db busy_world) = []
  /\ active_sessions (snd (run_agent (key_settings 10) "s1" "hi" (Some ClientSocket) None
                             three_then_cancel busy_world))
     = delete "s1" (active_sessions busy_world).
Proof.
  split; [reflexivity|].
  exact (proj2 (run_agent_registry_isolation (key_settings 10) "s1" "hi"
                  (Some ClientSocket) None three_then_cancel busy_world eq_refl)).
Defined.

Lemma run_agent_batch_sizes_witness :
  fst (get_session "s1" demo_world) = inr (Some demo_session)
  /\ has_credential (key_settings 2) None = true
  /\ db_txn_rows (db demo_world) = []
  /\ relay_fails (Some ClientSocket) demo_world = false
  /\ emits_only (script three_then_cancel) = true
  /\ 2 <= message_batch_size (key_settings 2)
  /\ exists full last,
      db_bulk_calls (db (snd (run_agent (key_settings 2) "s1" "hi" (Some ClientSocket)
                                None three_then_cancel demo_world)))
      = db_bulk_calls (db demo_world) ++ full ++ last
      /\ Z.of_nat (length full) = 2.
Proof.
  assert (HB : 2 <= message_batch_size (key_settings 2)) by (simpl; lia).
  split; [reflexivity|]. split; [reflexivity|]. split; [reflexivity|].
  split; [reflexivity|]. split; [reflexivity|]. split; [exact HB|].
  destruct (run_agent_batch_sizes (key_settings 2) "s1" "hi" None three_then_cancel
              (Some ClientSocket) demo_session demo_world
              eq_refl eq_refl eq_refl eq_refl eq_refl HB)
    as (full & last & _ & B & _ & N & _).
  exists full, last. split; [exact B|exact N].
Defined.

Lemma run_agent_relays_each_event_witness :
  fst (get_session "s1" demo_world) = inr (Some demo_session)
  /\ has_credential (key_settings 10) None = true
  /\ db_txn_rows (db demo_world) = []
  /\ ws_closed demo_world = false
  /\ emits_only (script ten_events) = true
  /\ fst (run_agent (key_settings 10) "s1" "hi" (Some ClientSocket) None ten_events
            demo_world) = inr tt.
Proof.
  split; [reflexivity|]. split; [reflexivity|]. split; [reflexivity|].
  split; [reflexivity|]. split; [reflexivity|].
  exact (proj1 (run_agent_relays_each_event (key_settings 10) "s1" "hi" None ten_events
                  demo_session demo_world eq_refl eq_refl eq_refl eq_refl eq_refl)).
Defined.

Lemma websocket_endpoint_refuses_witness :
  refused "s1" (Some (mkRequest None None)) demo_world "No message provided"
  /\ websocket_endpoint default_settings "s1" (Some (mkRequest None None)) ten_events
       demo_world
     = (inr tt,
        set_ws_closed true
          (set_ws_sent (fun l => l ++ [error_frame "No message provided"]) demo_world)).
Proof.
  assert (R : refused "s1" (Some (mkRequest None None)) demo_world "No message provided").
  { right. exists demo_session, (mkRequest None None). repeat split; reflexivity. }
  split; [exact R|].
  exact (websocket_endpoint_refuses default_settings "s1" ten_events
           (Some (mkRequest None None)) demo_world "No message provided" R).
Defined.

Lemma websocket_endpoint_client_gone_witness :
  fst (get_session "s1" busy_world) = inr (Some demo_session)
  /\ fst (websocket_endpoint default_settings "s1" None ten_events busy_world) = inr tt
  /\ visible_messages
       (db (snd (websocket_endpoint default_settings "s1" None ten_events busy_world)))
     = [demo_row].
Proof.
  split; [reflexivity|].
  destruct (websocket_endpoint_client_gone default_settings "s1" ten_events demo_session
              busy_world eq_refl) as (_ & R & _ & M & _).
  split; [exact R|exact M].
Defined.

Lemma websocket_endpoint_missing_credential_witness :
  fst (get_session "s1" demo_world) = inr (Some demo_session)
  /\ default "" (req_message demo_request) <> ""
  /\ has_credential default_settings (or_str (req_api_key demo_request) None) = false
  /\ ws_closed demo_world = false
  /\ ws_sent (snd (websocket_endpoint default_settings "s1" (Some demo_request)
                     ten_events demo_world))
     = ws_sent demo_world ++ [error_frame "No Anthropic API key provided"].
Proof.
  assert (Hm : default "" (req_message demo_request) <> "") by discriminate.
  split; [reflexivity|]. split; [exact Hm|]. split; [reflexivity|]. split; [reflexivity|].
  destruct (websocket_endpoint_missing_credential default_settings "s1" ten_events
              demo_request demo_session demo_world eq_refl Hm eq_refl eq_refl)
    as (_ & S & _).
  exact S.
Defined.

Lemma websocket_endpoint_serves_witness :
  fst (get_session "s1" demo_world) = inr (Some demo_session)
  /\ default "" (req_message demo_request) <> ""
  /\ has_credential (key_settings 10) (or_str (req_api_key demo_request) None) = true
  /\ db_txn_rows (db demo_world) = []
  /\ ws_closed demo_world = false
  /\ emits_only (script three_then_cancel) = true
  /\ fst (websocket_endpoint (key_settings 10) "s1" (Some demo_request) three_then_cancel
            demo_world) = inl CancelledError
  /\ active_sessions (snd (websocket_endpoint (key_settings 10) "s1" (Some demo_request)
                             three_then_cancel demo_world)) !! "s1" = None.
Proof.
  assert (Hm : default "" (req_message demo_request) <> "") by discriminate.
  split; [reflexivity|]. split; [exact Hm|]. split; [reflexivity|]. split; [reflexivity|].
  split; [reflexivity|]. split; [reflexivity|].
  destruct (websocket_endpoint_serves (key_settings 10) "s1" three_then_cancel
              demo_request demo_session demo_world
              eq_refl Hm eq_refl eq_refl eq_refl eq_refl)
    as (E & _ & R & _).
  split; [exact E|exact R].
Defined.
